(** * OpenSfM: triangulation and the dense binding layer, embedded in Rocq

    The development follows two source files:
    - [geometry/src/triangulation.cc]: the angle between two rays, the
      parallax gate and the post-check of DLT and midpoint triangulation,
      the DLT system, the two-view batch and point refinement;
    - [dense/depthmap_bind.h]: the shape validation of the [AddView]
      wrappers.

    A C++ [double] is a binary64 primitive float, so comparisons with NaN,
    overflow and underflow behave as they do in the program.  Functions of
    other libraries (libm's [acos], Eigen's [JacobiSVD], Ceres'
    [TinySolver]) and of headers outside these files are variables of the
    sections below.  Sizes and indices are natural numbers: the [int]
    counters of the loops do not overflow for containers that fit in
    memory. *)

From Stdlib Require Import Floats ZArith Lia.
From stdpp Require Import base list strings.

(** ** Scalars *)

Definition double := float.

(** [a >= b], [a <= b], [a > b], [a < b] on doubles: false when either is NaN. *)
Definition fge (a b : double) : bool := PrimFloat.leb b a.
Definition fle (a b : double) : bool := PrimFloat.leb a b.
Definition fgt (a b : double) : bool := PrimFloat.ltb b a.
Definition flt (a b : double) : bool := PrimFloat.ltb a b.

(** [std::fabs]. *)
Definition fabs (a : double) : double := PrimFloat.abs a.

(** [M_PI] of <cmath>: the double nearest to pi. *)
Definition M_PI : double := 0x1.921fb54442d18p+1%float.

(** ** Eigen vectors and matrices *)

Record Vec3d := mkVec3d { x3 : double; y3 : double; z3 : double }.
Record Vec4d := mkVec4d { x4 : double; y4 : double; z4 : double; w4 : double }.

Arguments mkVec3d (x3 y3 z3)%_float.
Arguments mkVec4d (x4 y4 z4 w4)%_float.

(** [Mat34d]: three rows of four. *)
Record Mat34d := mkMat34d { row0 : Vec4d; row1 : Vec4d; row2 : Vec4d }.
(** [Mat3d]: three rows of three. *)
Record Mat3d := mkMat3d { m0 : Vec3d; m1 : Vec3d; m2 : Vec3d }.

(** [MatX3d]: a dynamic number of rows of three; [MatXd] with four columns. *)
Abbreviation MatX3d := (list Vec3d).
Abbreviation MatX4d := (list Vec4d).

Section VectorOps.
Local Open Scope float_scope.

(** [u.dot(v)].  Eigen chooses how the three products are summed; the model
    sums left to right.  The theorems below hold for any order, and the
    examples only add products that are exact or zero. *)
Definition dot3 (u v : Vec3d) : double :=
  x3 u * x3 v + y3 u * y3 v + z3 u * z3 v.

Definition dot4 (u v : Vec4d) : double :=
  x4 u * x4 v + y4 u * y4 v + z4 u * z4 v + w4 u * w4 v.

Definition sub3 (u v : Vec3d) : Vec3d :=
  mkVec3d (x3 u - x3 v) (y3 u - y3 v) (z3 u - z3 v).

Definition Vec3d_Zero : Vec3d := mkVec3d 0 0 0.

(** [s * r] and [r1 - r2] on rows of four. *)
Definition scale4 (s : double) (r : Vec4d) : Vec4d :=
  mkVec4d (s * x4 r) (s * y4 r) (s * z4 r) (s * w4 r).
Definition sub4 (u v : Vec4d) : Vec4d :=
  mkVec4d (x4 u - x4 v) (y4 u - y4 v) (z4 u - z4 v) (w4 u - w4 v).

(** [X /= s]. *)
Definition div4 (X : Vec4d) (s : double) : Vec4d :=
  mkVec4d (x4 X / s) (y4 X / s) (z4 X / s) (w4 X / s).

(** [X.head<3>()]. *)
Definition head3 (X : Vec4d) : Vec3d := mkVec3d (x4 X) (y4 X) (z4 X).

(** [Rt * X] for a 3x4 matrix and a 4-vector. *)
Definition mul34 (Rt : Mat34d) (X : Vec4d) : Vec3d :=
  mkVec3d (dot4 (row0 Rt) X) (dot4 (row1 Rt) X) (dot4 (row2 Rt) X).

(** [Rt.block<3, 3>(0, 0).transpose() * b]: column [k] of the rotation
    block against [b]. *)
Definition block33T_mul (Rt : Mat34d) (b : Vec3d) : Vec3d :=
  mkVec3d
    (x4 (row0 Rt) * x3 b + x4 (row1 Rt) * y3 b + x4 (row2 Rt) * z3 b)
    (y4 (row0 Rt) * x3 b + y4 (row1 Rt) * y3 b + y4 (row2 Rt) * z3 b)
    (z4 (row0 Rt) * x3 b + z4 (row1 Rt) * y3 b + z4 (row2 Rt) * z3 b).

(** [rotation * b] for a 3x3 matrix. *)
Definition mul33 (R : Mat3d) (b : Vec3d) : Vec3d :=
  mkVec3d (dot3 (m0 R) b) (dot3 (m1 R) b) (dot3 (m2 R) b).

End VectorOps.

(** ** AngleBetweenVectors *)

Section Angle.
(** libm's [acos]. *)
Variable acos : double -> double.

(** The cosine the function computes before the guard. *)
Definition cosine (u v : Vec3d) : double :=
  (dot3 u v / PrimFloat.sqrt (dot3 u u * dot3 v v))%float.

Definition AngleBetweenVectors (u v : Vec3d) : double :=
  let c := cosine u v in
  if fge (fabs c) 1%float then 0%float else acos c.

End Angle.

(** ** Outcomes of a call

    A call returns, throws a C++ exception, or is undefined: an index out of
    range or a failed [assert] (Eigen and [assert] abort in a debug build;
    otherwise the read is undefined behaviour). *)

Inductive exn : Type :=
  | invalid_argument (what : string).

Inductive outcome (A : Type) : Type :=
  | Returns (a : A)
  | Throws (e : exn)
  | Undefined.
Arguments Returns {A} a.
Arguments Throws {A} e.
Arguments Undefined {A}.

#[global] Instance outcome_ret : MRet outcome := fun A a => Returns a.
#[global] Instance outcome_bind : MBind outcome := fun A B f m =>
  match m with
  | Returns a => f a
  | Throws e => Throws e
  | Undefined => Undefined
  end.

(** [m.row(i)], [v[i]]: defined inside the container only. *)
Definition row {A : Type} (m : list A) (i : nat) : outcome A :=
  match m !! i with
  | Some v => Returns v
  | None => Undefined
  end.

(** [for (int i = lo; i < lo + n && cond(s); ++i) s = body(i, s);] *)
Fixpoint for_loop {St : Type} (n lo : nat) (cond : St -> bool)
    (body : nat -> St -> outcome St) (s : St) : outcome St :=
  match n with
  | O => Returns s
  | S n' =>
      if cond s then s' ← body lo s; for_loop n' (S lo) cond body s'
      else Returns s
  end.

(** ** triangulation.cc *)

(** The result of a triangulation: [std::pair<bool, Vec3d>]. *)
Definition TriangulationResult : Type := bool * Vec3d.

(** A call of a linear solve, recorded in the order the calls are made. *)
Inductive solve_call : Type :=
  | DLTSolve_call (bearings : MatX3d) (Rts : list Mat34d)
  | MidpointSolve_call (centers bearings : MatX3d).

(** A computation together with the solves it called. *)
Definition traced (A : Type) : Type := outcome (A * list solve_call).

Definition traced_ret {A : Type} (a : A) : traced A := Returns (a, []).
Definition traced_bind {A B : Type} (m : traced A) (f : A -> traced B) : traced B :=
  '(a, calls) ← m;
  '(b, calls') ← f a;
  Returns (b, calls ++ calls').
(** A step that calls no solve. *)
Definition untraced {A : Type} (m : outcome A) : traced A :=
  a ← m; Returns (a, []).
(** A step that is the solve [c]. *)
Definition solving {A : Type} (c : solve_call) (m : outcome A) : traced A :=
  a ← m; Returns (a, [c]).

Notation "'let*' x := m 'in' k" := (traced_bind m (fun x => k))
  (at level 10, x name, m at level 100, k at level 200).

Section Triangulation.

(** libm's [acos]. *)
Variable acos : double -> double.
(** The coefficients of a default-constructed [Vec3d] and of a fresh row of
    a [MatXd]: not initialised. *)
Variable Vec3d_default : Vec3d.
Variable Vec4d_default : Vec4d.
(** [Eigen::JacobiSVD<MatXd>(A, Eigen::ComputeFullV).matrixV()(r, c)].  Eigen
    sorts the singular values in decreasing order, so column 3 of the 4x4
    factor V belongs to the smallest one. *)
Variable JacobiSVD_matrixV : MatX4d -> nat -> nat -> double.
(** [TriangulateBearingsMidpointSolve] and
    [TriangulateTwoBearingsMidpointSolve] of geometry/triangulation.h. *)
Variable TriangulateBearingsMidpointSolve : MatX3d -> MatX3d -> Vec3d.
Variable TriangulateTwoBearingsMidpointSolve :
  Vec3d * Vec3d -> Vec3d * Vec3d -> TriangulationResult.

Abbreviation Angle := (AngleBetweenVectors acos).

(** [angle >= min_angle && angle <= M_PI - min_angle]. *)
Definition parallax_in_range (angle min_angle : double) : bool :=
  fge angle min_angle && fle angle (M_PI - min_angle)%float.

(** Lines 83-96: the parallax gate of [TriangulateBearingsDLT].  The state
    of the outer loop is [(world_bearings, angle_ok)]; [DLT_parallax_step]
    is its body, lines 86-95. *)
Definition DLT_parallax_step (Rts : list Mat34d) (bearings : MatX3d)
    (min_angle : double) (i : nat) (s : list Vec3d * bool)
    : outcome (list Vec3d * bool) :=
  Rt ← row Rts i;
  b ← row bearings i;
  let world_bearings := <[i := block33T_mul Rt b]> s.1 in
  angle_ok ← for_loop i 0 negb
    (fun j angle_ok =>
       wi ← row world_bearings i;
       wj ← row world_bearings j;
       let angle := Angle wi wj in
       Returns (if parallax_in_range angle min_angle then true
                else angle_ok))
    s.2;
  Returns (world_bearings, angle_ok).

Definition DLT_parallax (Rts : list Mat34d) (bearings : MatX3d)
    (min_angle : double) : outcome bool :=
  let count := length Rts in
  s ← for_loop count 0 (fun s : list Vec3d * bool => negb s.2)
      (DLT_parallax_step Rts bearings min_angle)
      (replicate count Vec3d_default, false);
  Returns s.2.

(** Lines 124-130: the matrix [A] of [TriangulateBearingsDLTSolve]. *)
Definition DLT_system (bearings : MatX3d) (Rts : list Mat34d) : outcome MatX4d :=
  let nviews := length bearings in
  for_loop nviews 0 (fun _ => true)
    (fun i A =>
       b ← row bearings i;
       Rt ← row Rts i;
       let A := <[2 * i :=
         sub4 (scale4 (x3 b) (row2 Rt)) (scale4 (z3 b) (row0 Rt))]> A in
       let A := <[2 * i + 1 :=
         sub4 (scale4 (y3 b) (row2 Rt)) (scale4 (z3 b) (row1 Rt))]> A in
       Returns A)
    (replicate (2 * nviews) Vec4d_default).

(** Lines 119-140. *)
Definition TriangulateBearingsDLTSolve (bearings : MatX3d)
    (Rts : list Mat34d) : outcome Vec4d :=
  let nviews := length bearings in
  if negb (nviews =? length Rts)%nat then Undefined (* assert *) else
  A ← DLT_system bearings Rts;
  let V := JacobiSVD_matrixV A in
  Returns (mkVec4d (V 0 3) (V 1 3) (V 2 3) (V 3 3))%nat.

(** Lines 105-114 and 166-175: one view of the post-check; [true] stands for
    the early [return std::make_pair(false, Vec3d())]. *)
Definition view_rejected (projected measured : Vec3d)
    (threshold min_depth : double) : bool :=
  if fgt (Angle projected measured) threshold then true
  else if flt (dot3 projected measured) min_depth then true
  else false.

Definition DLT_postcheck (Rts : list Mat34d) (bearings : MatX3d)
    (X : Vec4d) (threshold min_depth : double) : outcome bool :=
  for_loop (length Rts) 0 negb
    (fun i _ =>
       Rt ← row Rts i;
       measured ← row bearings i;
       let projected := mul34 Rt X in
       Returns (view_rejected projected measured threshold min_depth))
    false.

(** Lines 77-117. *)
Definition TriangulateBearingsDLT (Rts : list Mat34d) (bearings : MatX3d)
    (threshold min_angle min_depth : double) : traced TriangulationResult :=
  let* angle_ok := untraced (DLT_parallax Rts bearings min_angle) in
  if negb angle_ok then traced_ret (false, Vec3d_default) else
  let* X := solving (DLTSolve_call bearings Rts)
        (TriangulateBearingsDLTSolve bearings Rts) in
  let X := div4 X (w4 X) in
  let* rejected := untraced (DLT_postcheck Rts bearings X threshold min_depth) in
  if (rejected : bool) then traced_ret (false, Vec3d_default)
  else traced_ret (true, head3 X).

(** Lines 149-157. *)
Definition Midpoint_parallax (count : nat) (bearings : MatX3d)
    (min_angle : double) : outcome bool :=
  for_loop count 0 negb
    (fun i angle_ok =>
       for_loop i 0 negb
         (fun j angle_ok =>
            bi ← row bearings i;
            bj ← row bearings j;
            let angle := Angle bi bj in
            Returns (if parallax_in_range angle min_angle then true
                     else angle_ok))
         angle_ok)
    false.

Definition Midpoint_postcheck (centers bearings : MatX3d) (X : Vec3d)
    (threshold_list : list double) (min_depth : double) : outcome bool :=
  for_loop (length centers) 0 negb
    (fun i _ =>
       center ← row centers i;
       let projected := sub3 X center in
       measured ← row bearings i;
       threshold ← row threshold_list i;
       Returns (view_rejected projected measured threshold min_depth))
    false.

(** Lines 142-178. *)
Definition TriangulateBearingsMidpoint (centers bearings : MatX3d)
    (threshold_list : list double) (min_angle min_depth : double)
    : traced TriangulationResult :=
  let count := length centers in
  let* angle_ok := untraced (Midpoint_parallax count bearings min_angle) in
  if negb angle_ok then traced_ret (false, Vec3d_default) else
  let* X := solving (MidpointSolve_call centers bearings)
        (Returns (TriangulateBearingsMidpointSolve centers bearings)) in
  let* rejected := untraced
    (Midpoint_postcheck centers bearings X threshold_list min_depth) in
  if (rejected : bool) then traced_ret (false, Vec3d_default)
  else traced_ret (true, X).

(** Lines 180-193. *)
Definition TriangulateTwoBearingsMidpointMany (bearings1 bearings2 : MatX3d)
    (rotation : Mat3d) (translation : Vec3d)
    : outcome (list TriangulationResult) :=
  let os := (Vec3d_Zero, translation) in
  for_loop (length bearings1) 0 (fun _ => true)
    (fun i triangulated =>
       b1 ← row bearings1 i;
       b2 ← row bearings2 i;
       let bs := (b1, mul33 rotation b2) in
       Returns (<[i := TriangulateTwoBearingsMidpointSolve os bs]> triangulated))
    (replicate (length bearings1) (false, Vec3d_default)).

End Triangulation.

(** ** The conditions the triangulation functions test, view by view *)

(** Whether [f] holds somewhere in [lo, lo + n). *)
Definition any_in (f : nat -> bool) (lo n : nat) : bool :=
  existsb f (seq lo n).

Section Conditions.
Variable acos : double -> double.

(** The rays DLT compares: bearing [i] rotated into the world frame. *)
Definition world_rays (Rts : list Mat34d) (bearings : MatX3d) : list Vec3d :=
  zip_with block33T_mul Rts bearings.

(** Views [i] and [j] have a parallax angle in [min_angle, pi - min_angle]. *)
Definition parallax_pair (rays : list Vec3d) (min_angle : double)
    (i j : nat) : bool :=
  match rays !! i, rays !! j with
  | Some u, Some v =>
      parallax_in_range (AngleBetweenVectors acos u v) min_angle
  | _, _ => false
  end.

(** Some pair [j < i < n] of views has such a parallax angle. *)
Definition some_parallax (rays : list Vec3d) (min_angle : double)
    (n : nat) : bool :=
  any_in (fun i => any_in (parallax_pair rays min_angle i) 0 i) 0 n.

(** No pair of views has a parallax angle in the range; some pair has. *)
Definition no_parallax (rays : list Vec3d) (min_angle : double) : Prop :=
  forall i j u v, j < i -> rays !! i = Some u -> rays !! j = Some v ->
    parallax_in_range (AngleBetweenVectors acos u v) min_angle = false.

Definition has_parallax (rays : list Vec3d) (min_angle : double) : Prop :=
  exists i j u v, j < i /\ rays !! i = Some u /\ rays !! j = Some v /\
    parallax_in_range (AngleBetweenVectors acos u v) min_angle = true.

(** A view passes the post-check: the test [angle > threshold] fails and so
    does the test [dot < min_depth]. *)
Definition view_accepted (projected measured : Vec3d)
    (threshold min_depth : double) : Prop :=
  fgt (AngleBetweenVectors acos projected measured) threshold = false /\
  flt (dot3 projected measured) min_depth = false.

(** View [i] fails the post-check of DLT at the point [X]. *)
Definition DLT_rejects (Rts : list Mat34d) (bearings : MatX3d) (X : Vec4d)
    (threshold min_depth : double) (i : nat) : bool :=
  match Rts !! i, bearings !! i with
  | Some Rt, Some measured =>
      view_rejected acos (mul34 Rt X) measured threshold min_depth
  | _, _ => false
  end.

(** View [i] fails the post-check of the midpoint method at [X]. *)
Definition Midpoint_rejects (centers bearings : MatX3d) (X : Vec3d)
    (threshold_list : list double) (min_depth : double) (i : nat) : bool :=
  match centers !! i, bearings !! i, threshold_list !! i with
  | Some center, Some measured, Some threshold =>
      view_rejected acos (sub3 X center) measured threshold min_depth
  | _, _, _ => false
  end.

End Conditions.



(** A vector with a coefficient other than zero. *)
Definition nonzero (u : Vec3d) : bool :=
  negb (PrimFloat.eqb (x3 u) 0 && PrimFloat.eqb (y3 u) 0
        && PrimFloat.eqb (z3 u) 0).

(** ** Point refinement (lines 22-71 and 221-233) *)

Section Refinement.

(** [geometry::Normalize::Forward] and [ForwardDerivatives] of
    geometry/transformations_functions.h: the normalised vector, and with
    it the nine entries of its Jacobian, row-major. *)
Variable Normalize_Forward : Vec3d -> Vec3d.
Variable Normalize_ForwardDerivatives : Vec3d -> Vec3d * list double.

(** What [Evaluate] writes: the residuals, and the Jacobian block of the
    point when the caller passes a buffer for it. *)
Record Evaluation := mkEvaluation {
  residuals : list double;
  jac_point : option (list double)
}.

(** [BearingErrorCost::Evaluate].  [jacobians] is [None] for a null
    [jacobians], and [Some b] otherwise, [b] telling whether [jacobians[0]]
    is a buffer. *)
Definition BearingErrorCost_Evaluate (centers bearings : MatX3d)
    (point : Vec3d) (jacobians : option bool) : outcome Evaluation :=
  rows ← for_loop (length bearings) 0 (fun _ => true)
    (fun i acc =>
       center ← row centers i;
       bearing ← row bearings i;
       let projected := sub3 point center in
       let '(projected, jacobian) :=
         match jacobians with
         | None => (Normalize_Forward projected, [])
         | Some _ => Normalize_ForwardDerivatives projected
         end in
       let r := sub3 projected bearing in
       Returns (acc.1 ++ [x3 r; y3 r; z3 r], acc.2 ++ jacobian))
    ([], []);
  Returns (mkEvaluation rows.1
             (match jacobians with
              | Some true => Some rows.2
              | _ => None
              end)).

(** [ceres::TinySolver<...>::Options], the one field the code sets. *)
Record TinySolverOptions := mkOptions { max_num_iterations : Z }.

(** [ceres::TinySolver<BearingCostFunction>::Solve]. *)
Variable TinySolver_Solve :
  TinySolverOptions -> (Vec3d -> option bool -> outcome Evaluation) ->
  Vec3d -> Vec3d.

Definition PointRefinement (centers bearings : MatX3d) (point : Vec3d)
    (iterations : Z) : Vec3d :=
  let f := BearingErrorCost_Evaluate centers bearings in
  let refined := point in
  let options := mkOptions iterations in
  TinySolver_Solve options f refined.

End Refinement.

(** The residuals of all observations, three per observation, in order. *)
Definition bearing_residuals (normalize : Vec3d -> Vec3d)
    (centers bearings : MatX3d) (point : Vec3d) : list double :=
  flat_map (fun cb : Vec3d * Vec3d =>
              let r := sub3 (normalize (sub3 point cb.1)) cb.2 in
              [x3 r; y3 r; z3 r])
           (zip centers bearings).

(** ** depthmap_bind.h *)

(** A numpy array as the wrappers use it: [shape(k)] and [data()]. *)
Record pyarray (T : Type) := mkPyarray { shape : nat -> Z; data : list T }.
Arguments mkPyarray {T} shape data.
Arguments shape {T} _ _.
Arguments data {T} _.

Section Binding.

(** Elements of [pyarray_f] (C++ [float]) and [pyarray_uint8]. *)
Variable float32 : Type.
Definition uint8 : Type := Byte.byte.

(** dense/depthmap.h: the native classes and their [AddView]. *)
Variable DepthmapEstimator : Type.
Variable DepthmapEstimator_AddView :
  DepthmapEstimator -> list double -> list double -> list double ->
  list uint8 -> list uint8 -> Z -> Z -> DepthmapEstimator.
Variable DepthmapPruner : Type.
Variable DepthmapPruner_AddView :
  DepthmapPruner -> list double -> list double -> list double ->
  list float32 -> list float32 -> list uint8 -> list uint8 -> Z -> Z ->
  DepthmapPruner.

Record DepthmapEstimatorWrapper := mkEstimatorWrapper { de_ : DepthmapEstimator }.
Record DepthmapPrunerWrapper := mkPrunerWrapper { dp_ : DepthmapPruner }.

(** Both dimensions of two arrays agree. *)
Definition same_raster {T U : Type} (a : pyarray T) (b : pyarray U) : bool :=
  (shape a 0 =? shape b 0)%Z && (shape a 1 =? shape b 1)%Z.

(** A method: the outcome of the call and the object after it. *)
Definition DepthmapEstimatorWrapper_AddView (K R t : pyarray double)
    (image mask : pyarray uint8) (self : DepthmapEstimatorWrapper)
    : outcome unit * DepthmapEstimatorWrapper :=
  if negb (shape image 0 =? shape mask 0)%Z ||
     negb (shape image 1 =? shape mask 1)%Z
  then (Throws (invalid_argument "image and mask must have matching shapes."),
        self)
  else (Returns tt,
        mkEstimatorWrapper
          (DepthmapEstimator_AddView (de_ self) (data K) (data R) (data t)
             (data image) (data mask) (shape image 1) (shape image 0))).

Definition DepthmapPrunerWrapper_AddView (K R t : pyarray double)
    (depth plane : pyarray float32) (color label : pyarray uint8)
    (self : DepthmapPrunerWrapper) : outcome unit * DepthmapPrunerWrapper :=
  if negb (shape depth 0 =? shape plane 0)%Z ||
     negb (shape depth 1 =? shape plane 1)%Z
  then (Throws (invalid_argument "depth and plane must have matching shapes."),
        self)
  else if negb (shape depth 0 =? shape color 0)%Z ||
          negb (shape depth 1 =? shape color 1)%Z
  then (Throws (invalid_argument "depth and color must have matching shapes."),
        self)
  else if negb (shape depth 0 =? shape label 0)%Z ||
          negb (shape depth 1 =? shape label 1)%Z
  then (Throws (invalid_argument "depth and label must have matching shapes."),
        self)
  else (Returns tt,
        mkPrunerWrapper
          (DepthmapPruner_AddView (dp_ self) (data K) (data R) (data t)
             (data depth) (data plane) (data color) (data label)
             (shape depth 1) (shape depth 0))).

End Binding.

Arguments mkEstimatorWrapper {DepthmapEstimator} de_.
Arguments de_ {DepthmapEstimator} _.
Arguments mkPrunerWrapper {DepthmapPruner} dp_.
Arguments dp_ {DepthmapPruner} _.
Arguments DepthmapEstimatorWrapper_AddView {DepthmapEstimator}
  DepthmapEstimator_AddView K R t image mask self.
Arguments DepthmapPrunerWrapper_AddView {float32 DepthmapPruner}
  DepthmapPruner_AddView K R t depth plane color label self.

(** ** Reference data for the examples *)

(** libm's [acos] at the one argument the examples reach: acos(0) is the
    double nearest to pi/2.  Elsewhere this table answers NaN. *)
Definition acos_reference (c : double) : double :=
  if PrimFloat.eqb c 0 then 0x1.921fb54442d18p+0%float else nan.

(** A full V factor whose last column is (0,0,0,1): the null vector of a
    system whose rays all pass through the origin. *)
Definition matrixV_origin (A : MatX4d) (r c : nat) : double :=
  if (r =? c)%nat then 1%float else 0%float.

Section MidpointSolveModel.
Local Open Scope float_scope.

Definition det3 (M : Mat3d) : double :=
  x3 (m0 M) * (y3 (m1 M) * z3 (m2 M) - z3 (m1 M) * y3 (m2 M))
  - y3 (m0 M) * (x3 (m1 M) * z3 (m2 M) - z3 (m1 M) * x3 (m2 M))
  + z3 (m0 M) * (x3 (m1 M) * y3 (m2 M) - y3 (m1 M) * x3 (m2 M)).

Definition add3 (u v : Vec3d) : Vec3d :=
  mkVec3d (x3 u + x3 v) (y3 u + y3 v) (z3 u + z3 v).

(** [I - b b^T], by rows. *)
Definition ray_projector (b : Vec3d) : Mat3d :=
  mkMat3d (mkVec3d (1 - x3 b * x3 b) (- (x3 b * y3 b)) (- (x3 b * z3 b)))
          (mkVec3d (- (y3 b * x3 b)) (1 - y3 b * y3 b) (- (y3 b * z3 b)))
          (mkVec3d (- (z3 b * x3 b)) (- (z3 b * y3 b)) (1 - z3 b * z3 b)).

Definition add33 (M N : Mat3d) : Mat3d :=
  mkMat3d (add3 (m0 M) (m0 N)) (add3 (m1 M) (m1 N)) (add3 (m2 M) (m2 N)).

(** Modelled from the spec: [TriangulateBearingsMidpointSolve] is declared in
    geometry/triangulation.h, which is not among the source files.  The spec
    has the midpoint method minimise the sum of squared distances from the
    point to each ray.  For unit bearings [b_i] from centers [c_i] that point
    solves [(sum (I - b_i b_i^T)) X = sum (I - b_i b_i^T) c_i], solved here
    by Cramer's rule.  The theorems quantify over the solve; this one feeds
    the examples. *)
Definition MidpointSolve_spec (centers bearings : MatX3d) : Vec3d :=
  let zero := mkMat3d Vec3d_Zero Vec3d_Zero Vec3d_Zero in
  let '(M, r) :=
    foldl (fun acc cb =>
             let P := ray_projector cb.2 in
             (add33 acc.1 P, add3 acc.2 (mul33 P cb.1)))
          (zero, Vec3d_Zero) (zip centers bearings) in
  let d := det3 M in
  let col k v := mkMat3d
    (mkVec3d (if (k =? 0)%nat then x3 v else x3 (m0 M))
             (if (k =? 1)%nat then x3 v else y3 (m0 M))
             (if (k =? 2)%nat then x3 v else z3 (m0 M)))
    (mkVec3d (if (k =? 0)%nat then y3 v else x3 (m1 M))
             (if (k =? 1)%nat then y3 v else y3 (m1 M))
             (if (k =? 2)%nat then y3 v else z3 (m1 M)))
    (mkVec3d (if (k =? 0)%nat then z3 v else x3 (m2 M))
             (if (k =? 1)%nat then z3 v else y3 (m2 M))
             (if (k =? 2)%nat then z3 v else z3 (m2 M))) in
  mkVec3d (det3 (col 0%nat r) / d) (det3 (col 1%nat r) / d)
          (det3 (col 2%nat r) / d).

End MidpointSolveModel.

Section TwoRayModel.
Local Open Scope float_scope.

Definition scale3 (s : double) (u : Vec3d) : Vec3d :=
  mkVec3d (s * x3 u) (s * y3 u) (s * z3 u).

(** Modelled from the spec: [TriangulateTwoBearingsMidpointSolve] is declared
    in geometry/triangulation.h, which is not among the source files.  The
    spec calls it a closed-form midpoint solve for exactly two rays: the
    middle of the shortest segment between the rays [o1 + s b1] and
    [o2 + t b2], from the 2x2 normal equations solved by hand; parallel rays
    fail.  The theorems quantify over the solve; this one feeds the
    examples. *)
Definition TwoBearingsMidpointSolve_spec (os bs : Vec3d * Vec3d)
    : TriangulationResult :=
  let w := sub3 os.2 os.1 in
  let a := dot3 bs.1 bs.1 in
  let b := dot3 bs.1 bs.2 in
  let c := dot3 bs.2 bs.2 in
  let d := dot3 bs.1 w in
  let e := dot3 bs.2 w in
  let det := a * c - b * b in
  if PrimFloat.eqb det 0 then (false, Vec3d_Zero)
  else
    let s := (c * d - b * e) / det in
    let t := (b * d - a * e) / det in
    let x1 := add3 os.1 (scale3 s bs.1) in
    let x2 := add3 os.2 (scale3 t bs.2) in
    (true, scale3 0.5 (add3 x1 x2)).

End TwoRayModel.

(** Two cameras one unit away from the origin, the second turned a quarter
    turn about the y axis; both see the origin straight ahead. *)
Definition Rt_front : Mat34d :=
  mkMat34d (mkVec4d 1 0 0 0) (mkVec4d 0 1 0 0) (mkVec4d 0 0 1 1).
Definition Rt_side : Mat34d :=
  mkMat34d (mkVec4d 0 0 1 0) (mkVec4d 0 1 0 0) (mkVec4d (-1) 0 0 1).
Definition ahead : Vec3d := mkVec3d 0 0 1.

(** Two rays meeting at (0,0,1) at a right angle. *)
Definition crossing_centers : MatX3d := [mkVec3d 0 0 0; mkVec3d 1 0 1].
Definition crossing_bearings : MatX3d := [mkVec3d 0 0 1; mkVec3d (-1) 0 0].

(** Three rays whose lines meet at (0,0,1); the first looks away from it. *)
Definition behind_centers : MatX3d :=
  [mkVec3d 0 0 0; mkVec3d 0 0 2; mkVec3d 1 0 1].
Definition behind_bearings : MatX3d :=
  [mkVec3d 0 0 (-1); mkVec3d 0 0 (-1); mkVec3d (-1) 0 0].

(** A quarter turn about the y axis. *)
Definition quarter_turn : Mat3d :=
  mkMat3d (mkVec3d 0 0 (-1)) (mkVec3d 0 1 0) (mkVec3d 1 0 0).


(** Stand-ins for the native classes: the (width, height) of the views
    added so far. *)
Definition view_log : Type := list (Z * Z).
Definition log_estimator_view (de : view_log) (K R t : list double)
    (image mask : list uint8) (width height : Z) : view_log :=
  de ++ [(width, height)].
Definition log_pruner_view (dp : view_log) (K R t : list double)
    (depth plane : list double) (color label : list uint8)
    (width height : Z) : view_log :=
  dp ++ [(width, height)].

(** An empty array of [rows] by [cols]. *)
Definition raster {T : Type} (rows cols : Z) : pyarray T :=
  mkPyarray (fun k => match k with 0 => rows | 1 => cols | _ => 1%Z end) [].

(** A third camera, looking the same way as [Rt_front] from another place:
    its ray to [ahead] is parallel to that of [Rt_front], and the null
    vector of the DLT system of the two is the point at infinity
    (0,0,1,0), the last column of this V factor. *)
Definition Rt_shifted : Mat34d :=
  mkMat34d (mkVec4d 1 0 0 1) (mkVec4d 0 1 0 0) (mkVec4d 0 0 1 1).
Definition matrixV_infinity (A : MatX4d) (r c : nat) : double :=
  match r, c with
  | 0, 0 | 1, 1 | 3, 2 | 2, 3 => 1%float
  | _, _ => 0%float
  end.

(** The Jacobian blocks of all observations, nine entries per observation
    when [derivatives] returns nine, in order. *)
Definition bearing_jacobians (derivatives : Vec3d -> Vec3d * list double)
    (centers bearings : MatX3d) (point : Vec3d) : list double :=
  flat_map (fun cb : Vec3d * Vec3d => (derivatives (sub3 point cb.1)).2)
           (zip centers bearings).

(** What the constructor of [BearingErrorCost] declares (lines 28-29): one
    parameter block of [Size] doubles and three residuals per bearing. *)
Definition BearingErrorCost_Size : nat := 3.
Definition BearingErrorCost_parameter_block_sizes : list nat :=
  [BearingErrorCost_Size].
Definition BearingErrorCost_num_residuals (bearings : MatX3d) : nat :=
  length bearings * 3.

(** Stand-ins of [Normalize::Forward] and [Normalize::ForwardDerivatives]
    for the examples: the identity map with its (row-major) Jacobian.  They
    are not the repository's functions, whose source is not available. *)
Definition Forward_identity (p : Vec3d) : Vec3d := p.
Definition ForwardDerivatives_identity (p : Vec3d) : Vec3d * list double :=
  (p, [1; 0; 0; 0; 1; 0; 0; 0; 1]%float).

(** ** Vectors with a NaN coefficient *)

Definition has_nan (u : Vec3d) : Prop :=
  x3 u = nan \/ y3 u = nan \/ z3 u = nan.

(** A double that is [+0], [-0] or NaN. *)
Definition signed_zero (x : double) : Prop := exists s, Prim2SF x = S754_zero s.
Definition zero_or_nan (x : double) : Prop := x = nan \/ signed_zero x.

(** Thresholds of two calls, entry by entry: [t !! i <= t' !! i]. *)
Definition thresholds_le (t t' : list double) : Prop :=
  forall i a, t !! i = Some a -> exists b, t' !! i = Some b /\ fle a b = true.

(** ** reprojection_errors_test.cc: the inputs of the oracle *)

(** [Eigen::AutoDiffScalar<Eigen::VectorXd>]: a value and its derivatives. *)
Record AScalar := mkAScalar { value : double; derivatives : list double }.

(** [VecXd::Unit(size, i)]; Eigen asserts [i < size]. *)
Definition VecXd_Unit (size i : nat) : outcome (list double) :=
  if (i <? size)%nat
  then Returns (<[i := 1%float]> (replicate size 0%float))
  else Undefined.

Module ReprojectionError2DFixture.

Definition size_residual : nat := 2.
Definition size_point : nat := 3.
Definition size_rt : nat := 6.

(** The fixture's constants (lines 18, 105 and 109), each decimal literal
    rounded to the nearest double as the compiler does. *)
Definition point : list double := [1; 2; 3]%float.
Definition rt_instance : list double :=
  [0x1.999999999999ap-4; 0x1.999999999999ap-3; 0x1.3333333333333p-2;
   0x1.999999999999ap-2; 0x1p-1; 0x1.3333333333333p-1]%float.
Definition rt_camera : list double :=
  [0x1.999999999999ap-4; 0x1.999999999999ap-3; 0x1.3333333333333p-2;
   0x1.999999999999ap-2; 0x1p-1; 0x1.3333333333333p-1]%float.

Section SetupADiff.

(** An element of the fixture's arrays before [SetupADiff] writes it. *)
Variable AScalar_default : AScalar.

(** One loop of [SetupADiff]: element [i] of [adiff] receives the value
    [src[i]] and the unit derivative [offset + i]. *)
Definition seed_loop (total_size offset n : nat) (src : list double)
    (adiff : list AScalar) : outcome (list AScalar) :=
  for_loop n 0 (fun _ => true)
    (fun i adiff =>
       v ← row src i;
       d ← VecXd_Unit total_size (offset + i);
       _ ← row adiff i;
       Returns (<[i := mkAScalar v d]> adiff))
    adiff.

(** What [SetupADiff] leaves in the fixture and in [camera_adiff]. *)
Record ADiffInputs := mkADiffInputs {
  point_adiff : list AScalar;
  rt_instance_adiff : list AScalar;
  rt_camera_adiff : list AScalar;
  camera_adiff : list AScalar
}.

(** [SetupADiff] (lines 29-50); [camera_adiff] is the array of [size]
    elements that [RunTest] declares. *)
Definition SetupADiff (size : nat) (camera : list double)
    : outcome ADiffInputs :=
  let total_size := size_point + size_rt + size_rt + size in
  p ← seed_loop total_size 0 size_point point
        (replicate size_point AScalar_default);
  ri ← seed_loop total_size size_point size_rt rt_instance
        (replicate size_rt AScalar_default);
  rc ← seed_loop total_size (size_point + size_rt) size_rt rt_camera
        (replicate size_rt AScalar_default);
  c ← seed_loop total_size (size_point + size_rt + size_rt) size camera
        (replicate size AScalar_default);
  Returns (mkADiffInputs p ri rc c).

End SetupADiff.

(** All inputs in the order of their derivative slots. *)
Definition all_inputs (r : ADiffInputs) : list AScalar :=
  point_adiff r ++ rt_instance_adiff r ++ rt_camera_adiff r ++ camera_adiff r.

(** The buffers of the fixture that the analytic evaluation fills. *)
Record AnalyticJacobians := mkAnalyticJacobians {
  jac_point : list double;
  jac_rt_instance : list double;
  jac_rt_camera : list double
}.

(** [eps] of [CheckJacobians] (line 53): the double nearest to [1e-14]. *)
Definition eps : double := 0x1.6849b86a12b9bp-47%float.

Section CheckJacobians.

(** Whether gtest's [ASSERT_NEAR(val1, val2, abs_error)] holds; gtest is not
    part of the repository. *)
Variable ASSERT_NEAR : double -> double -> double -> bool.

(** One double loop of [CheckJacobians].  The state is whether an assertion
    has failed: [ASSERT_NEAR] leaves the function at the first failure. *)
Definition check_block (rows cols offset : nat)
    (residual_adiff : list AScalar) (jac : list double) (failed : bool)
    : outcome bool :=
  for_loop rows 0 negb
    (fun i failed =>
       for_loop cols 0 negb
         (fun j _ =>
            r ← row residual_adiff i;
            d ← row (derivatives r) (offset + j);
            a ← row jac (i * cols + j);
            Returns (negb (ASSERT_NEAR d a eps)))
         failed)
    failed.

(** [CheckJacobians] (lines 52-79): whether every assertion held. *)
Definition CheckJacobians (residual_adiff : list AScalar)
    (jacs : AnalyticJacobians) (size : nat) (jac_camera : list double)
    : outcome bool :=
  failed ← check_block size_residual size (size_point + size_rt + size_rt)
             residual_adiff jac_camera false;
  failed ← check_block size_residual size_point 0
             residual_adiff (jac_point jacs) failed;
  failed ← check_block size_residual size_rt size_point
             residual_adiff (jac_rt_instance jacs) failed;
  failed ← check_block size_residual size_rt (size_point + size_rt)
             residual_adiff (jac_rt_camera jacs) failed;
  Returns (negb failed).

End CheckJacobians.

(** Row [i] of the analytic Jacobian with its columns in the order of the
    derivative slots: point, instance pose, camera pose, camera. *)
Definition analytic_row (jacs : AnalyticJacobians) (size : nat)
    (jac_camera : list double) (i : nat) : list double :=
  take size_point (drop (i * size_point) (jac_point jacs))
  ++ take size_rt (drop (i * size_rt) (jac_rt_instance jacs))
  ++ take size_rt (drop (i * size_rt) (jac_rt_camera jacs))
  ++ take size (drop (i * size) jac_camera).

End ReprojectionError2DFixture.

(** Residuals and buffers of the declared sizes for the perspective test
    ([size = 3]), all zero, for the examples. *)
Definition zero_residual_adiff : list AScalar :=
  replicate 2 (mkAScalar 0%float (replicate 18 0%float)).
Definition zero_jacobians : ReprojectionError2DFixture.AnalyticJacobians :=
  ReprojectionError2DFixture.mkAnalyticJacobians
    (replicate 6 0%float) (replicate 12 0%float) (replicate 12 0%float).

(** gtest's comparison for finite values, for the examples:
    [fabs(val1 - val2) <= abs_error]. *)
Definition NEAR_reference (val1 val2 abs_error : double) : bool :=
  fle (fabs (PrimFloat.sub val1 val2)) abs_error.

(** Row [k] of the identity matrix of size [n]. *)
Definition unit_row (n k : nat) : list double :=
  <[k := 1%float]> (replicate n 0%float).

(** An array element before it is written, for the examples: no derivatives
    and some value. *)
Definition AScalar_empty : AScalar := mkAScalar 0%float [].

(** The elements that [n] turns of a loop of [SetupADiff] have written. *)
Definition seeded (total_size offset n : nat) (src : list double)
    : list AScalar :=
  zip_with mkAScalar (take n src) (unit_row total_size <$> seq offset n).

(** The perspective test's camera (line 127): focal, k1, k2. *)
Definition perspective_camera : list double :=
  [0x1.3333333333333p-2; 0x1.999999999999ap-4; -0x1.eb851eb851eb8p-6]%float.

(** ** Loop lemmas *)

Lemma any_in_true (f : nat -> bool) (lo n : nat) :
  any_in f lo n = true <-> exists k, lo <= k < lo + n /\ f k = true.
Proof.
  unfold any_in. rewrite existsb_exists. split.
  - intros (k & Hin & Hk). apply in_seq in Hin. eauto.
  - intros (k & Hin & Hk). exists k. split; [apply in_seq|]; done.
Qed.

Lemma any_in_false (f : nat -> bool) (lo n : nat) :
  any_in f lo n = false <-> forall k, lo <= k < lo + n -> f k = false.
Proof.
  split.
  - intros H k Hk. destruct (f k) eqn:E; [|done].
    assert (any_in f lo n = true) by (apply any_in_true; eauto). congruence.
  - intros H. destruct (any_in f lo n) eqn:E; [|done].
    apply any_in_true in E as (k & Hk & Hf). rewrite H in Hf; done.
Qed.

(** A loop [for (...; i < hi && !flag; ++i)] whose body computes the new
    flag [f i] returns whether [f] holds somewhere in the range. *)
Lemma for_loop_flag (f : nat -> bool) (body : nat -> bool -> outcome bool)
    (n lo : nat) (b0 : bool) :
  (forall k, lo <= k < lo + n -> body k false = Returns (f k)) ->
  for_loop n lo negb body b0 = Returns (b0 || any_in f lo n).
Proof.
  revert lo b0. induction n as [|n IH]; intros lo b0 Hbody; simpl.
  - by rewrite orb_false_r.
  - destruct b0; simpl; [done|].
    rewrite Hbody by lia. simpl.
    rewrite IH by (intros; apply Hbody; lia). done.
Qed.

(** The same loop stops with [Undefined] at the first index whose body is
    undefined, when no earlier index raised the flag. *)
Lemma for_loop_flag_undefined (f : nat -> bool)
    (body : nat -> bool -> outcome bool) (n lo k : nat) :
  lo <= k < lo + n ->
  (forall i, lo <= i < k -> body i false = Returns (f i)) ->
  (forall i, lo <= i < k -> f i = false) ->
  body k false = Undefined ->
  for_loop n lo negb body false = Undefined.
Proof.
  revert lo. induction n as [|n IH]; intros lo Hk Hbody Hf Hu; [lia|].
  simpl. destruct (decide (lo = k)) as [->|Hne].
  - by rewrite Hu.
  - rewrite Hbody by lia. rewrite Hf by lia. simpl.
    apply IH; [lia| |  |done]; intros; [apply Hbody|apply Hf]; lia.
Qed.

(** A loop without a stop condition whose body never fails. *)
Lemma for_loop_total {St : Type} (Inv : nat -> St -> Prop)
    (body : nat -> St -> outcome St) (n lo : nat) (s : St) :
  Inv lo s ->
  (forall k s1, lo <= k < lo + n -> Inv k s1 ->
     exists s2, body k s1 = Returns s2 /\ Inv (S k) s2) ->
  exists s', for_loop n lo (fun _ => true) body s = Returns s' /\
             Inv (lo + n) s'.
Proof.
  revert lo s. induction n as [|n IH]; intros lo s Hinv Hbody; simpl.
  - exists s. by rewrite Nat.add_0_r.
  - destruct (Hbody lo s) as (s2 & -> & Hinv2); [lia|done|]. simpl.
    destruct (IH (S lo) s2) as (s' & Hs' & Hinv'); [done| |].
    + intros k s1 Hk. apply Hbody. lia.
    + exists s'. split; [done|]. by replace (lo + S n) with (S lo + n) by lia.
Qed.

(** ** The loops of triangulation.cc *)

Lemma row_lookup {A : Type} (m : list A) (i : nat) (v : A) :
  m !! i = Some v -> row m i = Returns v.
Proof. unfold row. by intros ->. Qed.

Lemma row_in_range {A : Type} (m : list A) (i : nat) :
  i < length m -> exists v, m !! i = Some v /\ row m i = Returns v.
Proof.
  intros H. destruct (lookup_lt_is_Some_2 m i H) as [v Hv].
  exists v. split; [done|by apply row_lookup].
Qed.

Lemma row_out_of_range {A : Type} (m : list A) (i : nat) :
  length m <= i -> row m i = Undefined.
Proof. intros H. unfold row. by rewrite lookup_ge_None_2. Qed.

Lemma if_true_else_false (b : bool) : (if b then true else false) = b.
Proof. by destruct b. Qed.

Section LoopFacts.
Variable acos : double -> double.
Variable Vec3d_default : Vec3d.
Variable Vec4d_default : Vec4d.

Lemma Midpoint_parallax_spec (count : nat) (bearings : MatX3d)
    (min_angle : double) :
  count <= length bearings ->
  Midpoint_parallax acos count bearings min_angle
  = Returns (some_parallax acos bearings min_angle count).
Proof.
  intros Hlen. unfold Midpoint_parallax, some_parallax.
  rewrite (for_loop_flag
             (fun i => any_in (parallax_pair acos bearings min_angle i) 0 i));
    [done|].
  intros i Hi.
  rewrite (for_loop_flag (parallax_pair acos bearings min_angle i)); [done|].
  intros j Hj.
  destruct (row_in_range bearings i) as (bi & Hbi & ->); [lia|].
  destruct (row_in_range bearings j) as (bj & Hbj & ->); [lia|].
  simpl. unfold parallax_pair. rewrite Hbi, Hbj.
  by rewrite if_true_else_false.
Qed.

Lemma world_rays_lookup (Rts : list Mat34d) (bearings : MatX3d) (i : nat)
    (Rt : Mat34d) (b : Vec3d) :
  Rts !! i = Some Rt -> bearings !! i = Some b ->
  world_rays Rts bearings !! i = Some (block33T_mul Rt b).
Proof.
  intros HRt Hb. unfold world_rays. rewrite lookup_zip_with, HRt. simpl.
  by rewrite Hb.
Qed.

Lemma DLT_parallax_step_spec (Rts : list Mat34d) (bearings : MatX3d)
    (min_angle : double) (i : nat) (wb : list Vec3d) (Rt : Mat34d)
    (b : Vec3d) :
  Rts !! i = Some Rt -> bearings !! i = Some b ->
  i < length wb ->
  (forall k, k < i -> wb !! k = world_rays Rts bearings !! k) ->
  DLT_parallax_step acos Rts bearings min_angle i (wb, false)
  = Returns (<[i := block33T_mul Rt b]> wb,
             any_in (parallax_pair acos (world_rays Rts bearings) min_angle i)
               0 i).
Proof.
  intros HRt Hb Hi Hprev. unfold DLT_parallax_step.
  rewrite (row_lookup _ _ _ HRt), (row_lookup _ _ _ Hb). cbn [mbind outcome_bind].
  pose proof (world_rays_lookup _ _ _ _ _ HRt Hb) as Hw.
  rewrite (for_loop_flag
             (parallax_pair acos (world_rays Rts bearings) min_angle i));
    [done|].
  intros j Hj. unfold row. cbn [fst].
  rewrite list_lookup_insert_eq by lia.
  rewrite list_lookup_insert_ne by lia.
  rewrite Hprev by lia. unfold parallax_pair. rewrite Hw.
  destruct (world_rays Rts bearings !! j) as [wj|] eqn:Hwj.
  - cbn. by rewrite if_true_else_false.
  - apply lookup_ge_None_1 in Hwj. unfold world_rays in Hwj.
    rewrite length_zip_with in Hwj.
    apply lookup_lt_Some in HRt, Hb. lia.
Qed.

Lemma DLT_parallax_loop (Rts : list Mat34d) (bearings : MatX3d)
    (min_angle : double) (n lo : nat) (wb : list Vec3d) (ok : bool) :
  lo + n = length Rts ->
  length Rts <= length bearings ->
  length wb = length Rts ->
  (forall k, k < lo -> wb !! k = world_rays Rts bearings !! k) ->
  exists wb',
    for_loop n lo (fun s : list Vec3d * bool => negb s.2)
      (DLT_parallax_step acos Rts bearings min_angle) (wb, ok)
    = Returns (wb',
               ok || any_in
                 (fun i => any_in
                    (parallax_pair acos (world_rays Rts bearings) min_angle i)
                    0 i) lo n).
Proof.
  revert lo wb ok. induction n as [|n IH]; intros lo wb ok Hn Hlen Hwb Hprev.
  - exists wb. cbn. by rewrite orb_false_r.
  - cbn [for_loop]. destruct ok; cbn [negb snd]; [by exists wb|].
    destruct (row_in_range Rts lo) as (Rt & HRt & _); [lia|].
    destruct (row_in_range bearings lo) as (b & Hb & _); [lia|].
    rewrite (DLT_parallax_step_spec _ _ _ _ _ _ _ HRt Hb) by (done || lia).
    cbn [mbind outcome_bind].
    destruct (IH (S lo) (<[lo := block33T_mul Rt b]> wb)
                (any_in (parallax_pair acos (world_rays Rts bearings)
                           min_angle lo) 0 lo))
      as (wb' & ->); [lia|done|by rewrite length_insert| |by exists wb'].
    intros k Hk. destruct (decide (k = lo)) as [->|Hne].
    + rewrite list_lookup_insert_eq by lia.
      by rewrite (world_rays_lookup _ _ _ _ _ HRt Hb).
    + rewrite list_lookup_insert_ne by done. apply Hprev. lia.
Qed.

Lemma DLT_parallax_spec (Rts : list Mat34d) (bearings : MatX3d)
    (min_angle : double) :
  length Rts <= length bearings ->
  DLT_parallax acos Vec3d_default Rts bearings min_angle
  = Returns (some_parallax acos (world_rays Rts bearings) min_angle
               (length Rts)).
Proof.
  intros Hlen. unfold DLT_parallax.
  destruct (DLT_parallax_loop Rts bearings min_angle (length Rts) 0
              (replicate (length Rts) Vec3d_default) false)
    as (wb' & ->); [done|done|by rewrite length_replicate|intros; lia|].
  done.
Qed.

Lemma some_parallax_false (rays : list Vec3d) (min_angle : double) (n : nat) :
  no_parallax acos rays min_angle -> some_parallax acos rays min_angle n = false.
Proof.
  intros Hno. unfold some_parallax. apply any_in_false. intros i _.
  apply any_in_false. intros j Hj. unfold parallax_pair.
  destruct (rays !! i) as [u|] eqn:Hu; [|done].
  destruct (rays !! j) as [v|] eqn:Hv; [|done].
  apply (Hno i j); [lia|done..].
Qed.

Lemma some_parallax_true (rays : list Vec3d) (min_angle : double) (n : nat) :
  length rays <= n ->
  has_parallax acos rays min_angle -> some_parallax acos rays min_angle n = true.
Proof.
  intros Hn (i & j & u & v & Hji & Hu & Hv & Hin).
  unfold some_parallax. apply any_in_true. exists i. split.
  - apply lookup_lt_Some in Hu. lia.
  - apply any_in_true. exists j. split; [lia|].
    unfold parallax_pair. by rewrite Hu, Hv.
Qed.

Lemma DLT_postcheck_spec (Rts : list Mat34d) (bearings : MatX3d) (X : Vec4d)
    (threshold min_depth : double) :
  length Rts <= length bearings ->
  DLT_postcheck acos Rts bearings X threshold min_depth
  = Returns (any_in (DLT_rejects acos Rts bearings X threshold min_depth)
               0 (length Rts)).
Proof.
  intros Hlen. unfold DLT_postcheck.
  rewrite (for_loop_flag
             (DLT_rejects acos Rts bearings X threshold min_depth)); [done|].
  intros i Hi.
  destruct (row_in_range Rts i) as (Rt & HRt & ->); [lia|].
  destruct (row_in_range bearings i) as (b & Hb & ->); [lia|].
  unfold DLT_rejects. by rewrite HRt, Hb.
Qed.

Lemma Midpoint_postcheck_spec (centers bearings : MatX3d) (X : Vec3d)
    (threshold_list : list double) (min_depth : double) :
  length centers <= length bearings ->
  length centers <= length threshold_list ->
  Midpoint_postcheck acos centers bearings X threshold_list min_depth
  = Returns (any_in
               (Midpoint_rejects acos centers bearings X threshold_list
                  min_depth) 0 (length centers)).
Proof.
  intros Hlen Hthr. unfold Midpoint_postcheck.
  rewrite (for_loop_flag
             (Midpoint_rejects acos centers bearings X threshold_list
                min_depth)); [done|].
  intros i Hi.
  destruct (row_in_range centers i) as (c & Hc & ->); [lia|].
  destruct (row_in_range bearings i) as (b & Hb & ->); [lia|].
  destruct (row_in_range threshold_list i) as (t & Ht & ->); [lia|].
  unfold Midpoint_rejects. by rewrite Hc, Hb, Ht.
Qed.

(** The read of [threshold_list[i]] is not guarded: when the list ends
    before the views do and no earlier view was rejected, the loop reads
    past its end. *)
Lemma Midpoint_postcheck_undefined (centers bearings : MatX3d) (X : Vec3d)
    (threshold_list : list double) (min_depth : double) :
  length centers <= length bearings ->
  length threshold_list < length centers ->
  (forall i, i < length threshold_list ->
     Midpoint_rejects acos centers bearings X threshold_list min_depth i
     = false) ->
  Midpoint_postcheck acos centers bearings X threshold_list min_depth
  = Undefined.
Proof.
  intros Hlen Hthr Hacc. unfold Midpoint_postcheck.
  apply for_loop_flag_undefined
    with (f := Midpoint_rejects acos centers bearings X threshold_list
                 min_depth)
         (k := length threshold_list).
  - lia.
  - intros i Hi.
    destruct (row_in_range centers i) as (c & Hc & ->); [lia|].
    destruct (row_in_range bearings i) as (b & Hb & ->); [lia|].
    destruct (row_in_range threshold_list i) as (t & Ht & ->); [lia|].
    unfold Midpoint_rejects. by rewrite Hc, Hb, Ht.
  - intros i Hi. apply Hacc. lia.
  - destruct (row_in_range centers (length threshold_list))
      as (c & Hc & ->); [lia|].
    destruct (row_in_range bearings (length threshold_list))
      as (b & Hb & ->); [lia|].
    by rewrite (row_out_of_range threshold_list).
Qed.

Lemma DLT_system_spec (bearings : MatX3d) (Rts : list Mat34d) :
  length bearings = length Rts ->
  exists A,
    DLT_system Vec4d_default bearings Rts = Returns A /\
    length A = 2 * length bearings /\
    forall i b Rt, bearings !! i = Some b -> Rts !! i = Some Rt ->
      A !! (2 * i)
        = Some (sub4 (scale4 (x3 b) (row2 Rt)) (scale4 (z3 b) (row0 Rt))) /\
      A !! (2 * i + 1)
        = Some (sub4 (scale4 (y3 b) (row2 Rt)) (scale4 (z3 b) (row1 Rt))).
Proof.
  intros Hlen. unfold DLT_system.
  destruct (for_loop_total
    (fun k (A : MatX4d) =>
       length A = 2 * length bearings /\
       forall i b Rt, i < k -> bearings !! i = Some b -> Rts !! i = Some Rt ->
         A !! (2 * i)
           = Some (sub4 (scale4 (x3 b) (row2 Rt)) (scale4 (z3 b) (row0 Rt))) /\
         A !! (2 * i + 1)
           = Some (sub4 (scale4 (y3 b) (row2 Rt)) (scale4 (z3 b) (row1 Rt))))
    (fun i A =>
       b ← row bearings i;
       Rt ← row Rts i;
       let A := <[2 * i :=
         sub4 (scale4 (x3 b) (row2 Rt)) (scale4 (z3 b) (row0 Rt))]> A in
       let A := <[2 * i + 1 :=
         sub4 (scale4 (y3 b) (row2 Rt)) (scale4 (z3 b) (row1 Rt))]> A in
       Returns A)
    (length bearings) 0 (replicate (2 * length bearings) Vec4d_default))
    as (A & HA & HlenA & Hrows).
  - split; [by rewrite length_replicate|]. intros; lia.
  - intros k A Hk [HlenA Hrows].
    destruct (row_in_range bearings k) as (b & Hb & ->); [lia|].
    destruct (row_in_range Rts k) as (Rt & HRt & ->); [lia|].
    eexists. split; [done|]. cbn zeta. split.
    + by rewrite !length_insert.
    + intros i b' Rt' Hi Hb' HRt'. destruct (decide (i = k)) as [->|Hne].
      * rewrite Hb in Hb'. rewrite HRt in HRt'.
        injection Hb' as <-. injection HRt' as <-.
        rewrite list_lookup_insert_ne by lia.
        rewrite !list_lookup_insert_eq by (rewrite ?length_insert; lia).
        done.
      * rewrite !list_lookup_insert_ne by lia. apply Hrows; [lia|done..].
  - exists A. split; [done|]. split; [done|].
    intros i b Rt Hb HRt. apply Hrows; [|done..].
    apply lookup_lt_Some in Hb. lia.
Qed.

End LoopFacts.

(** ** The triangulation functions in closed form *)

Section TriangulationFacts.
Variable acos : double -> double.
Variable Vec3d_default : Vec3d.
Variable Vec4d_default : Vec4d.
Variable JacobiSVD_matrixV : MatX4d -> nat -> nat -> double.
Variable TriangulateBearingsMidpointSolve : MatX3d -> MatX3d -> Vec3d.

Lemma TriangulateBearingsDLTSolve_spec (bearings : MatX3d)
    (Rts : list Mat34d) :
  length bearings = length Rts ->
  exists A,
    DLT_system Vec4d_default bearings Rts = Returns A /\
    TriangulateBearingsDLTSolve Vec4d_default JacobiSVD_matrixV bearings Rts
    = Returns (mkVec4d (JacobiSVD_matrixV A 0 3) (JacobiSVD_matrixV A 1 3)
                       (JacobiSVD_matrixV A 2 3) (JacobiSVD_matrixV A 3 3)).
Proof.
  intros Hlen.
  destruct (DLT_system_spec Vec4d_default bearings Rts Hlen) as (A & HA & _).
  exists A. split; [done|]. unfold TriangulateBearingsDLTSolve.
  rewrite Hlen, Nat.eqb_refl. cbn [negb]. by rewrite HA.
Qed.

Lemma TriangulateBearingsDLT_spec (Rts : list Mat34d) (bearings : MatX3d)
    (threshold min_angle min_depth : double) (X0 : Vec4d) :
  length bearings = length Rts ->
  TriangulateBearingsDLTSolve Vec4d_default JacobiSVD_matrixV bearings Rts
  = Returns X0 ->
  TriangulateBearingsDLT acos Vec3d_default Vec4d_default JacobiSVD_matrixV
    Rts bearings threshold min_angle min_depth
  = if some_parallax acos (world_rays Rts bearings) min_angle (length Rts)
    then
      let X := div4 X0 (w4 X0) in
      Returns
        (if any_in (DLT_rejects acos Rts bearings X threshold min_depth)
              0 (length Rts)
         then (false, Vec3d_default) else (true, head3 X),
         [DLTSolve_call bearings Rts])
    else Returns ((false, Vec3d_default), []).
Proof.
  intros Hlen HX0. unfold TriangulateBearingsDLT, traced_bind, untraced.
  rewrite DLT_parallax_spec by lia. cbn [mbind outcome_bind].
  destruct (some_parallax _ _ _ _); cbn [negb]; [|done].
  unfold solving. rewrite HX0. cbn [mbind outcome_bind].
  rewrite DLT_postcheck_spec by lia. cbn [mbind outcome_bind].
  by destruct (any_in _ _ _).
Qed.

Lemma TriangulateBearingsMidpoint_gate (centers bearings : MatX3d)
    (threshold_list : list double) (min_angle min_depth : double) :
  length bearings = length centers ->
  some_parallax acos bearings min_angle (length centers) = false ->
  TriangulateBearingsMidpoint acos Vec3d_default
    TriangulateBearingsMidpointSolve centers bearings threshold_list
    min_angle min_depth
  = Returns ((false, Vec3d_default), []).
Proof.
  intros Hlen Hno. unfold TriangulateBearingsMidpoint, traced_bind, untraced.
  rewrite Midpoint_parallax_spec by lia. rewrite Hno. done.
Qed.

Lemma TriangulateBearingsMidpoint_spec (centers bearings : MatX3d)
    (threshold_list : list double) (min_angle min_depth : double) :
  length bearings = length centers ->
  length centers <= length threshold_list ->
  some_parallax acos bearings min_angle (length centers) = true ->
  TriangulateBearingsMidpoint acos Vec3d_default
    TriangulateBearingsMidpointSolve centers bearings threshold_list
    min_angle min_depth
  = let X := TriangulateBearingsMidpointSolve centers bearings in
    Returns
      (if any_in (Midpoint_rejects acos centers bearings X threshold_list
                    min_depth) 0 (length centers)
       then (false, Vec3d_default) else (true, X),
       [MidpointSolve_call centers bearings]).
Proof.
  intros Hlen Hthr Hpar.
  unfold TriangulateBearingsMidpoint, traced_bind, untraced, solving.
  rewrite Midpoint_parallax_spec by lia. rewrite Hpar.
  cbn [mbind outcome_bind negb].
  rewrite Midpoint_postcheck_spec by lia. cbn [mbind outcome_bind].
  by destruct (any_in _ _ _).
Qed.

Lemma TriangulateBearingsMidpoint_overrun (centers bearings : MatX3d)
    (threshold_list : list double) (min_angle min_depth : double) :
  length bearings = length centers ->
  length threshold_list < length centers ->
  some_parallax acos bearings min_angle (length centers) = true ->
  (forall i, i < length threshold_list ->
     Midpoint_rejects acos centers bearings
       (TriangulateBearingsMidpointSolve centers bearings) threshold_list
       min_depth i = false) ->
  TriangulateBearingsMidpoint acos Vec3d_default
    TriangulateBearingsMidpointSolve centers bearings threshold_list
    min_angle min_depth
  = Undefined.
Proof.
  intros Hlen Hthr Hpar Hacc.
  unfold TriangulateBearingsMidpoint, traced_bind, untraced, solving.
  rewrite Midpoint_parallax_spec by lia. rewrite Hpar.
  cbn [mbind outcome_bind negb].
  by rewrite Midpoint_postcheck_undefined by (done || lia).
Qed.

(** A view is rejected exactly when its angle exceeds the threshold or its
    dot product is below [min_depth]. *)
Lemma view_rejected_false (projected measured : Vec3d)
    (threshold min_depth : double) :
  view_rejected acos projected measured threshold min_depth = false <->
  fgt (AngleBetweenVectors acos projected measured) threshold = false /\
  flt (dot3 projected measured) min_depth = false.
Proof.
  unfold view_rejected.
  destruct (fgt _ _), (flt _ _); split; (done || by intros []).
Qed.

End TriangulationFacts.

(** ** The parallax gate *)

(** C2.  When no pair of views has a parallax angle in
    [min_angle, pi - min_angle], [TriangulateBearingsDLT] (on the bearings
    rotated into the world frame) and [TriangulateBearingsMidpoint] return
    with the success flag false: the call returns (it neither throws nor is
    undefined) and it has called no linear solve.  The views are the poses
    or centers paired index for index with as many bearings. *)
Theorem parallax_gate_fails_without_solve
    (acos : double -> double) (Vec3d_default : Vec3d) (Vec4d_default : Vec4d)
    (JacobiSVD_matrixV : MatX4d -> nat -> nat -> double)
    (TriangulateBearingsMidpointSolve : MatX3d -> MatX3d -> Vec3d) :
  (forall (Rts : list Mat34d) (bearings : MatX3d)
          (threshold min_angle min_depth : double),
     length bearings = length Rts ->
     no_parallax acos (world_rays Rts bearings) min_angle ->
     TriangulateBearingsDLT acos Vec3d_default Vec4d_default JacobiSVD_matrixV
       Rts bearings threshold min_angle min_depth
     = Returns ((false, Vec3d_default), [])) /\
  (forall (centers bearings : MatX3d) (threshold_list : list double)
          (min_angle min_depth : double),
     length bearings = length centers ->
     no_parallax acos bearings min_angle ->
     TriangulateBearingsMidpoint acos Vec3d_default
       TriangulateBearingsMidpointSolve centers bearings threshold_list
       min_angle min_depth
     = Returns ((false, Vec3d_default), [])).
Proof.
  split.
  - intros Rts bearings threshold min_angle min_depth Hlen Hno.
    destruct (TriangulateBearingsDLTSolve_spec Vec4d_default JacobiSVD_matrixV
                bearings Rts Hlen) as (A & _ & HX0).
    rewrite (TriangulateBearingsDLT_spec acos Vec3d_default Vec4d_default
               JacobiSVD_matrixV Rts bearings threshold min_angle min_depth
               _ Hlen HX0).
    by rewrite some_parallax_false.
  - intros centers bearings threshold_list min_angle min_depth Hlen Hno.
    apply TriangulateBearingsMidpoint_gate; [done|].
    by apply some_parallax_false.
Qed.

(** Two views along the same direction have parallax angle 0, below a
    [min_angle] of 1/8. *)
Lemma parallax_gate_fails_without_solve_witness :
  TriangulateBearingsDLT acos_reference Vec3d_Zero (mkVec4d 0 0 0 0)
    matrixV_origin [Rt_front; Rt_front] [ahead; ahead]
    0x1p-7%float 0x1p-3%float 0x1p-10%float
  = Returns ((false, Vec3d_Zero), []) /\
  TriangulateBearingsMidpoint acos_reference Vec3d_Zero MidpointSolve_spec
    [mkVec3d 0 0 0; mkVec3d 1 0 0] [ahead; ahead] []
    0x1p-3%float 0x1p-10%float
  = Returns ((false, Vec3d_Zero), []).
Proof.
  split.
  - apply (proj1 (parallax_gate_fails_without_solve acos_reference Vec3d_Zero
                    (mkVec4d 0 0 0 0) matrixV_origin MidpointSolve_spec)).
    + reflexivity.
    + intros [|[|[|i]]] [|[|[|j]]] u v Hji Hu Hv; try lia; try discriminate.
      injection Hu as <-. injection Hv as <-. vm_compute. reflexivity.
  - apply (proj2 (parallax_gate_fails_without_solve acos_reference Vec3d_Zero
                    (mkVec4d 0 0 0 0) matrixV_origin MidpointSolve_spec)).
    + reflexivity.
    + intros [|[|[|i]]] [|[|[|j]]] u v Hji Hu Hv; try lia; try discriminate.
      injection Hu as <-. injection Hv as <-. vm_compute. reflexivity.
Defined.

(** ** The post-check *)

Section PostCheckFacts.
Variable acos : double -> double.

Lemma DLT_rejects_none (Rts : list Mat34d) (bearings : MatX3d) (X : Vec4d)
    (threshold min_depth : double) (n : nat) :
  any_in (DLT_rejects acos Rts bearings X threshold min_depth) 0 n = false <->
  forall i Rt b, i < n -> Rts !! i = Some Rt -> bearings !! i = Some b ->
    view_accepted acos (mul34 Rt X) b threshold min_depth.
Proof.
  rewrite any_in_false. unfold DLT_rejects. split.
  - intros H i Rt b Hi HRt Hb. apply view_rejected_false.
    specialize (H i). rewrite HRt, Hb in H. apply H. lia.
  - intros H i Hi.
    destruct (Rts !! i) as [Rt|] eqn:HRt; [|done].
    destruct (bearings !! i) as [b|] eqn:Hb; [|done].
    apply view_rejected_false, (H i); [lia|done..].
Qed.

Lemma Midpoint_rejects_none (centers bearings : MatX3d) (X : Vec3d)
    (threshold_list : list double) (min_depth : double) (n : nat) :
  any_in (Midpoint_rejects acos centers bearings X threshold_list min_depth)
    0 n = false <->
  forall i c b t, i < n -> centers !! i = Some c -> bearings !! i = Some b ->
    threshold_list !! i = Some t ->
    view_accepted acos (sub3 X c) b t min_depth.
Proof.
  rewrite any_in_false. unfold Midpoint_rejects. split.
  - intros H i c b t Hi Hc Hb Ht. apply view_rejected_false.
    specialize (H i). rewrite Hc, Hb, Ht in H. apply H. lia.
  - intros H i Hi.
    destruct (centers !! i) as [c|] eqn:Hc; [|done].
    destruct (bearings !! i) as [b|] eqn:Hb; [|done].
    destruct (threshold_list !! i) as [t|] eqn:Ht; [|done].
    apply view_rejected_false, (H i); [lia|done..].
Qed.

End PostCheckFacts.

(** C3, as the code has it.  On an input that passes the parallax gate (and
    pairs every view with a bearing, and for the midpoint method with a
    threshold), each function returns after one linear solve, and it returns
    success exactly when every view is accepted at the solved point: the
    test [angle > threshold] fails for it (the one threshold for DLT, the
    view's entry of [threshold_list] for the midpoint method) and the test
    [dot < min_depth] fails for it, with the caller's [min_depth]. *)
Theorem postcheck_decides_success
    (acos : double -> double) (Vec3d_default : Vec3d) (Vec4d_default : Vec4d)
    (JacobiSVD_matrixV : MatX4d -> nat -> nat -> double)
    (TriangulateBearingsMidpointSolve : MatX3d -> MatX3d -> Vec3d) :
  (forall (Rts : list Mat34d) (bearings : MatX3d)
          (threshold min_angle min_depth : double),
     length bearings = length Rts ->
     has_parallax acos (world_rays Rts bearings) min_angle ->
     exists (X0 : Vec4d) (success : bool) (point : Vec3d),
       TriangulateBearingsDLTSolve Vec4d_default JacobiSVD_matrixV bearings Rts
       = Returns X0 /\
       TriangulateBearingsDLT acos Vec3d_default Vec4d_default
         JacobiSVD_matrixV Rts bearings threshold min_angle min_depth
       = Returns ((success, point), [DLTSolve_call bearings Rts]) /\
       (success = true <->
        forall i Rt b, Rts !! i = Some Rt -> bearings !! i = Some b ->
          view_accepted acos (mul34 Rt (div4 X0 (w4 X0))) b
            threshold min_depth) /\
       (success = true -> point = head3 (div4 X0 (w4 X0)))) /\
  (forall (centers bearings : MatX3d) (threshold_list : list double)
          (min_angle min_depth : double),
     length bearings = length centers ->
     length centers <= length threshold_list ->
     has_parallax acos bearings min_angle ->
     exists (success : bool) (point : Vec3d),
       TriangulateBearingsMidpoint acos Vec3d_default
         TriangulateBearingsMidpointSolve centers bearings threshold_list
         min_angle min_depth
       = Returns ((success, point), [MidpointSolve_call centers bearings]) /\
       (success = true <->
        forall i c b t, centers !! i = Some c -> bearings !! i = Some b ->
          threshold_list !! i = Some t ->
          view_accepted acos
            (sub3 (TriangulateBearingsMidpointSolve centers bearings) c) b
            t min_depth) /\
       (success = true ->
        point = TriangulateBearingsMidpointSolve centers bearings)).
Proof.
  split.
  - intros Rts bearings threshold min_angle min_depth Hlen Hpar.
    destruct (TriangulateBearingsDLTSolve_spec Vec4d_default JacobiSVD_matrixV
                bearings Rts Hlen) as (A & _ & HX0).
    eexists. 
    rewrite (TriangulateBearingsDLT_spec acos Vec3d_default Vec4d_default
               JacobiSVD_matrixV Rts bearings threshold min_angle min_depth
               _ Hlen HX0).
    rewrite some_parallax_true;
      [|unfold world_rays; rewrite length_zip_with; lia|done].
    cbn zeta.
    destruct (any_in _ 0 (length Rts)) eqn:Hrej.
    + exists false, Vec3d_default. split; [done|]. split; [done|].
      split; [|done]. split; [done|]. intros Hall.
      rewrite (proj2 (DLT_rejects_none acos Rts bearings _ threshold
                        min_depth (length Rts))) in Hrej; [done|].
      intros i Rt b _. apply Hall.
    + eexists true, _. split; [done|]. split; [done|].
      split; [|done]. split; [|done]. intros _ i Rt b HRt Hb.
      apply (proj1 (DLT_rejects_none acos Rts bearings _ threshold min_depth
                      (length Rts)) Hrej i); [|done..].
      by apply lookup_lt_Some in HRt.
  - intros centers bearings threshold_list min_angle min_depth Hlen Hthr Hpar.
    rewrite TriangulateBearingsMidpoint_spec;
      [|done|done|by apply some_parallax_true; [lia|]].
    cbn zeta.
    destruct (any_in _ 0 (length centers)) eqn:Hrej.
    + exists false, Vec3d_default. split; [done|].
      split; [|done]. split; [done|]. intros Hall.
      rewrite (proj2 (Midpoint_rejects_none acos centers bearings _
                        threshold_list min_depth (length centers))) in Hrej;
        [done|].
      intros i c b t _. apply Hall.
    + eexists true, _. split; [done|].
      split; [|done]. split; [|done]. intros _ i c b t Hc Hb Ht.
      apply (proj1 (Midpoint_rejects_none acos centers bearings _
                      threshold_list min_depth (length centers)) Hrej i);
        [|done..].
      by apply lookup_lt_Some in Hc.
Qed.

(** Two cameras at right angles that see the origin straight ahead, and two
    rays that cross at (0,0,1): every view is accepted and both calls
    succeed. *)
Lemma postcheck_decides_success_witness :
  (exists (X0 : Vec4d) (success : bool) (point : Vec3d),
     TriangulateBearingsDLTSolve (mkVec4d 0 0 0 0) matrixV_origin
       [ahead; ahead] [Rt_front; Rt_side] = Returns X0 /\
     TriangulateBearingsDLT acos_reference Vec3d_Zero (mkVec4d 0 0 0 0)
       matrixV_origin [Rt_front; Rt_side] [ahead; ahead]
       0x1p-7%float 0x1p-3%float 0x1p-10%float
     = Returns ((success, point),
                [DLTSolve_call [ahead; ahead] [Rt_front; Rt_side]]) /\
     (success = true <->
      forall i Rt b, [Rt_front; Rt_side] !! i = Some Rt ->
        [ahead; ahead] !! i = Some b ->
        view_accepted acos_reference (mul34 Rt (div4 X0 (w4 X0))) b
          0x1p-7%float 0x1p-10%float) /\
     (success = true -> point = head3 (div4 X0 (w4 X0)))) /\
  (exists (success : bool) (point : Vec3d),
     TriangulateBearingsMidpoint acos_reference Vec3d_Zero MidpointSolve_spec
       crossing_centers crossing_bearings [0x1p-7; 0x1p-7]%float
       0x1p-3%float 0x1p-10%float
     = Returns ((success, point),
                [MidpointSolve_call crossing_centers crossing_bearings]) /\
     (success = true <->
      forall i c b t, crossing_centers !! i = Some c ->
        crossing_bearings !! i = Some b ->
        [0x1p-7; 0x1p-7]%float !! i = Some t ->
        view_accepted acos_reference
          (sub3 (MidpointSolve_spec crossing_centers crossing_bearings) c) b
          t 0x1p-10%float) /\
     (success = true ->
      point = MidpointSolve_spec crossing_centers crossing_bearings)).
Proof.
  split.
  - apply (proj1 (postcheck_decides_success acos_reference Vec3d_Zero
                    (mkVec4d 0 0 0 0) matrixV_origin MidpointSolve_spec)).
    + reflexivity.
    + exists 1, 0, (block33T_mul Rt_side ahead), (block33T_mul Rt_front ahead).
      split; [lia|]. split; [reflexivity|]. split; [reflexivity|].
      vm_compute. reflexivity.
  - apply (proj2 (postcheck_decides_success acos_reference Vec3d_Zero
                    (mkVec4d 0 0 0 0) matrixV_origin MidpointSolve_spec)).
    + reflexivity.
    + simpl. lia.
    + exists 1, 0, (mkVec3d (-1) 0 0), (mkVec3d 0 0 1).
      split; [lia|]. split; [reflexivity|]. split; [reflexivity|].
      vm_compute. reflexivity.
Defined.

(** C3 as stated fails: with [min_depth = -2] the midpoint method returns
    success at (0,0,1) although the first view, at the origin and looking
    along (0,0,-1), has the point behind it: the dot product of the
    projected and the measured bearing is -1, which is not positive.  The
    parallax gate passes ([min_angle = 0]) and every angle of the post-check
    is reported as 0, whatever [acos] is. *)
Lemma success_with_point_behind_camera :
  (fun (acos : double -> double) (Vec3d_default : Vec3d) =>
     TriangulateBearingsMidpoint acos Vec3d_default MidpointSolve_spec
       behind_centers behind_bearings [0; 0; 0]%float 0%float (-2)%float)
  = (fun _ _ =>
       Returns ((true, mkVec3d 0 0 1),
                [MidpointSolve_call behind_centers behind_bearings])) /\
  dot3 (sub3 (mkVec3d 0 0 1) (mkVec3d 0 0 0)) (mkVec3d 0 0 (-1))
  = (-1)%float /\
  fgt (-1)%float 0%float = false.
Proof. repeat split; vm_compute; reflexivity. Qed.

(** ** The DLT system *)

(** C4.  For as many bearings as poses, [TriangulateBearingsDLTSolve] fills a
    matrix of twice as many rows of four: row [2 i] is
    [b_x Rt.row(2) - b_z Rt.row(0)] and row [2 i + 1] is
    [b_y Rt.row(2) - b_z Rt.row(1)] for view [i]; it returns column 3 of the
    V factor of that matrix (the singular vector of the smallest singular
    value, as Eigen orders them).  The caller, [TriangulateBearingsDLT],
    divides that vector by its fourth component before the post-check:
    when the views pass the parallax gate and each is accepted at the
    divided vector, the call returns success with the first three
    quotients as point, after this one solve; and no successful call
    returns any other point. *)
Theorem DLT_system_rows_and_dehomogenisation
    (acos : double -> double) (Vec3d_default : Vec3d) (Vec4d_default : Vec4d)
    (JacobiSVD_matrixV : MatX4d -> nat -> nat -> double)
    (bearings : MatX3d) (Rts : list Mat34d) :
  length bearings = length Rts ->
  exists A : MatX4d,
    DLT_system Vec4d_default bearings Rts = Returns A /\
    length A = 2 * length Rts /\
    (forall i b Rt, bearings !! i = Some b -> Rts !! i = Some Rt ->
       A !! (2 * i)
         = Some (sub4 (scale4 (x3 b) (row2 Rt)) (scale4 (z3 b) (row0 Rt))) /\
       A !! (2 * i + 1)
         = Some (sub4 (scale4 (y3 b) (row2 Rt)) (scale4 (z3 b) (row1 Rt)))) /\
    let X := mkVec4d (JacobiSVD_matrixV A 0 3) (JacobiSVD_matrixV A 1 3)
                     (JacobiSVD_matrixV A 2 3) (JacobiSVD_matrixV A 3 3) in
    TriangulateBearingsDLTSolve Vec4d_default JacobiSVD_matrixV bearings Rts
    = Returns X /\
    (forall threshold min_angle min_depth,
       has_parallax acos (world_rays Rts bearings) min_angle ->
       (forall i Rt b, Rts !! i = Some Rt -> bearings !! i = Some b ->
          view_accepted acos
            (mul34 Rt (mkVec4d (x4 X / w4 X) (y4 X / w4 X) (z4 X / w4 X)
                               (w4 X / w4 X)))
            b threshold min_depth) ->
       TriangulateBearingsDLT acos Vec3d_default Vec4d_default
         JacobiSVD_matrixV Rts bearings threshold min_angle min_depth
       = Returns ((true,
                   mkVec3d (x4 X / w4 X) (y4 X / w4 X) (z4 X / w4 X)),
                  [DLTSolve_call bearings Rts])) /\
    (forall threshold min_angle min_depth point calls,
       TriangulateBearingsDLT acos Vec3d_default Vec4d_default
         JacobiSVD_matrixV Rts bearings threshold min_angle min_depth
       = Returns ((true, point), calls) ->
       point = mkVec3d (x4 X / w4 X) (y4 X / w4 X) (z4 X / w4 X) /\
       calls = [DLTSolve_call bearings Rts]).
Proof.
  intros Hlen.
  destruct (DLT_system_spec Vec4d_default bearings Rts Hlen)
    as (A & HA & HlenA & Hrows).
  exists A. split; [done|]. split; [lia|]. split; [done|]. cbn zeta.
  destruct (TriangulateBearingsDLTSolve_spec Vec4d_default JacobiSVD_matrixV
              bearings Rts Hlen) as (A' & HA' & HX0).
  rewrite HA in HA'. injection HA' as <-.
  split; [done|]. split.
  - intros threshold min_angle min_depth Hpar Hacc.
    rewrite (TriangulateBearingsDLT_spec acos Vec3d_default Vec4d_default
               JacobiSVD_matrixV Rts bearings threshold min_angle min_depth
               _ Hlen HX0).
    rewrite some_parallax_true;
      [|unfold world_rays; rewrite length_zip_with; lia|done].
    cbn zeta.
    rewrite (proj2 (DLT_rejects_none acos Rts bearings _ threshold min_depth
                      (length Rts))); [done|].
    intros i Rt b _ HRt Hb. by apply (Hacc i).
  - intros threshold min_angle min_depth point calls.
    rewrite (TriangulateBearingsDLT_spec acos Vec3d_default Vec4d_default
               JacobiSVD_matrixV Rts bearings threshold min_angle min_depth
               _ Hlen HX0).
    destruct (some_parallax _ _ _ _); [|done]. cbn zeta.
    destruct (any_in _ _ _); [done|].
    intros [= <- <-]. done.
Qed.

(** Two cameras at right angles that see the origin straight ahead: the
    solve returns (0,0,0,1), both views are accepted at the quotient and the
    call returns success at the origin. *)
Lemma DLT_system_rows_and_dehomogenisation_witness :
  exists A : MatX4d,
    DLT_system (mkVec4d 0 0 0 0) [ahead; ahead] [Rt_front; Rt_side]
    = Returns A /\
    length A = 4 /\
    A !! 0 = Some (sub4 (scale4 (x3 ahead) (row2 Rt_front))
                        (scale4 (z3 ahead) (row0 Rt_front))) /\
    A !! 3 = Some (sub4 (scale4 (y3 ahead) (row2 Rt_side))
                        (scale4 (z3 ahead) (row1 Rt_side))) /\
    TriangulateBearingsDLTSolve (mkVec4d 0 0 0 0) matrixV_origin
      [ahead; ahead] [Rt_front; Rt_side]
    = Returns (mkVec4d 0 0 0 1) /\
    TriangulateBearingsDLT acos_reference Vec3d_Zero (mkVec4d 0 0 0 0)
      matrixV_origin [Rt_front; Rt_side] [ahead; ahead]
      0x1p-7%float 0x1p-3%float 0x1p-10%float
    = Returns ((true, mkVec3d 0 0 0),
               [DLTSolve_call [ahead; ahead] [Rt_front; Rt_side]]).
Proof.
  destruct (DLT_system_rows_and_dehomogenisation acos_reference Vec3d_Zero
              (mkVec4d 0 0 0 0) matrixV_origin [ahead; ahead]
              [Rt_front; Rt_side] eq_refl)
    as (A & HA & Hlen & Hrows & HX & Hsuccess & _).
  exists A. split; [exact HA|]. split; [exact Hlen|].
  split; [exact (proj1 (Hrows 0 ahead Rt_front eq_refl eq_refl))|].
  split; [exact (proj2 (Hrows 1 ahead Rt_side eq_refl eq_refl))|].
  split; [exact HX|].
  apply (Hsuccess 0x1p-7%float 0x1p-3%float 0x1p-10%float).
  - exists 1, 0, (block33T_mul Rt_side ahead), (block33T_mul Rt_front ahead).
    split; [lia|]. split; [reflexivity|]. split; [reflexivity|].
    vm_compute. reflexivity.
  - intros [|[|i]] Rt b HRt Hb; try discriminate.
    + injection HRt as <-. injection Hb as <-. split; vm_compute; reflexivity.
    + injection HRt as <-. injection Hb as <-. split; vm_compute; reflexivity.
Defined.

(** ** The two-view batch *)

(** C7.  For two batches of the same size, [TriangulateTwoBearingsMidpointMany]
    returns one (flag, point) pair per correspondence, and pair [i] is the
    two-ray solve at the centers (origin, [translation]) and the bearings
    ([bearings1.row(i)], [rotation * bearings2.row(i)]); no other solve
    enters. *)
Theorem two_view_batch_maps_the_closed_form
    (Vec3d_default : Vec3d)
    (TriangulateTwoBearingsMidpointSolve :
       Vec3d * Vec3d -> Vec3d * Vec3d -> TriangulationResult)
    (bearings1 bearings2 : MatX3d) (rotation : Mat3d) (translation : Vec3d) :
  length bearings1 = length bearings2 ->
  exists triangulated : list TriangulationResult,
    TriangulateTwoBearingsMidpointMany Vec3d_default
      TriangulateTwoBearingsMidpointSolve bearings1 bearings2 rotation
      translation = Returns triangulated /\
    length triangulated = length bearings1 /\
    forall i b1 b2, bearings1 !! i = Some b1 -> bearings2 !! i = Some b2 ->
      triangulated !! i
      = Some (TriangulateTwoBearingsMidpointSolve
                (Vec3d_Zero, translation) (b1, mul33 rotation b2)).
Proof.
  intros Hlen. unfold TriangulateTwoBearingsMidpointMany.
  destruct (for_loop_total
    (fun k (l : list TriangulationResult) =>
       length l = length bearings1 /\
       forall i b1 b2, i < k -> bearings1 !! i = Some b1 ->
         bearings2 !! i = Some b2 ->
         l !! i = Some (TriangulateTwoBearingsMidpointSolve
                          (Vec3d_Zero, translation) (b1, mul33 rotation b2)))
    (fun i triangulated =>
       b1 ← row bearings1 i;
       b2 ← row bearings2 i;
       let bs := (b1, mul33 rotation b2) in
       Returns (<[i := TriangulateTwoBearingsMidpointSolve
                         (Vec3d_Zero, translation) bs]> triangulated))
    (length bearings1) 0
    (replicate (length bearings1) (false, Vec3d_default)))
    as (l & Hl & Hlenl & Hrows).
  - split; [by rewrite length_replicate|]. intros; lia.
  - intros k l Hk [Hlenl Hrows].
    destruct (row_in_range bearings1 k) as (b1 & Hb1 & ->); [lia|].
    destruct (row_in_range bearings2 k) as (b2 & Hb2 & ->); [lia|].
    eexists. split; [done|]. split; [by rewrite length_insert|].
    intros i b1' b2' Hi Hb1' Hb2'. destruct (decide (i = k)) as [->|Hne].
    + rewrite Hb1 in Hb1'. rewrite Hb2 in Hb2'.
      injection Hb1' as <-. injection Hb2' as <-.
      by rewrite list_lookup_insert_eq by lia.
    + rewrite list_lookup_insert_ne by done. apply Hrows; [lia|done..].
  - exists l. split; [done|]. split; [done|].
    intros i b1 b2 Hb1 Hb2. apply Hrows; [|done..].
    apply lookup_lt_Some in Hb1. lia.
Qed.

Lemma two_view_batch_maps_the_closed_form_witness :
  exists triangulated : list TriangulationResult,
    TriangulateTwoBearingsMidpointMany Vec3d_Zero
      TwoBearingsMidpointSolve_spec [ahead; ahead]
      [ahead; mkVec3d 0 1 0] quarter_turn (mkVec3d 1 0 1)
    = Returns triangulated /\
    length triangulated = length [ahead; ahead] /\
    forall i b1 b2, [ahead; ahead] !! i = Some b1 ->
      [ahead; mkVec3d 0 1 0] !! i = Some b2 ->
      triangulated !! i
      = Some (TwoBearingsMidpointSolve_spec
                (Vec3d_Zero, mkVec3d 1 0 1) (b1, mul33 quarter_turn b2)).
Proof.
  apply (two_view_batch_maps_the_closed_form Vec3d_Zero
           TwoBearingsMidpointSolve_spec [ahead; ahead]
           [ahead; mkVec3d 0 1 0] quarter_turn (mkVec3d 1 0 1)).
  reflexivity.
Defined.

(** ** The thresholds of the midpoint method *)

Lemma for_loop_flag_raised (body : nat -> bool -> outcome bool) (n lo : nat) :
  for_loop n lo negb body true = Returns true.
Proof. by destruct n. Qed.

(** The loop stops with the flag raised at the first index that raises it,
    whatever the body does after it. *)
Lemma for_loop_flag_stop (f : nat -> bool)
    (body : nat -> bool -> outcome bool) (n lo k : nat) :
  lo <= k < lo + n ->
  (forall i, lo <= i <= k -> body i false = Returns (f i)) ->
  f k = true ->
  for_loop n lo negb body false = Returns true.
Proof.
  revert lo. induction n as [|n IH]; intros lo Hk Hbody Hf; [lia|].
  cbn [for_loop negb]. rewrite Hbody by lia. cbn [mbind outcome_bind].
  destruct (f lo) eqn:Hlo; [apply for_loop_flag_raised|].
  apply IH; [|intros; apply Hbody; lia|done].
  destruct (decide (lo = k)) as [->|]; [congruence|lia].
Qed.

(** With fewer thresholds than views the post-check either reads past the
    end of [threshold_list] or has rejected a view before. *)
Lemma Midpoint_postcheck_short (acos : double -> double)
    (centers bearings : MatX3d) (X : Vec3d) (threshold_list : list double)
    (min_depth : double) :
  length centers <= length bearings ->
  length threshold_list < length centers ->
  Midpoint_postcheck acos centers bearings X threshold_list min_depth
  = Undefined \/
  Midpoint_postcheck acos centers bearings X threshold_list min_depth
  = Returns true.
Proof.
  intros Hlen Hthr.
  destruct (any_in (Midpoint_rejects acos centers bearings X threshold_list
                      min_depth) 0 (length threshold_list)) eqn:Hany.
  - right. apply any_in_true in Hany as (k & Hk & Hrej).
    unfold Midpoint_postcheck.
    apply for_loop_flag_stop
      with (f := Midpoint_rejects acos centers bearings X threshold_list
                   min_depth) (k := k); [lia| |done].
    intros i Hi.
    destruct (row_in_range centers i) as (c & Hc & ->); [lia|].
    destruct (row_in_range bearings i) as (b & Hb & ->); [lia|].
    destruct (row_in_range threshold_list i) as (t & Ht & ->); [lia|].
    unfold Midpoint_rejects. by rewrite Hc, Hb, Ht.
  - left. apply Midpoint_postcheck_undefined; [done..|].
    intros i Hi. apply (proj1 (any_in_false _ _ _) Hany). lia.
Qed.

(** ** The binding layer *)

(** C8.  [DepthmapEstimatorWrapper::AddView] throws [std::invalid_argument]
    and leaves the native estimator as it was when image and mask differ in
    a dimension; [DepthmapPrunerWrapper::AddView] does so when depth differs
    in a dimension from plane, from color or from label, tested in this
    order.  When the shapes agree the native [AddView] receives the buffers
    with the width [shape(1)] and the height [shape(0)]. *)
Theorem AddView_validates_shapes_first
    (float32 DepthmapEstimator : Type)
    (DepthmapEstimator_AddView :
       DepthmapEstimator -> list double -> list double -> list double ->
       list uint8 -> list uint8 -> Z -> Z -> DepthmapEstimator)
    (DepthmapPruner : Type)
    (DepthmapPruner_AddView :
       DepthmapPruner -> list double -> list double -> list double ->
       list float32 -> list float32 -> list uint8 -> list uint8 -> Z -> Z ->
       DepthmapPruner) :
  (forall (K R t : pyarray double) (image mask : pyarray uint8)
          (self : DepthmapEstimatorWrapper DepthmapEstimator),
     (same_raster image mask = false ->
      DepthmapEstimatorWrapper_AddView DepthmapEstimator_AddView
        K R t image mask self
      = (Throws (invalid_argument
                   "image and mask must have matching shapes."), self)) /\
     (same_raster image mask = true ->
      DepthmapEstimatorWrapper_AddView DepthmapEstimator_AddView
        K R t image mask self
      = (Returns tt,
         mkEstimatorWrapper
           (DepthmapEstimator_AddView (de_ self) (data K) (data R) (data t)
              (data image) (data mask) (shape image 1) (shape image 0))))) /\
  (forall (K R t : pyarray double) (depth plane : pyarray float32)
          (color label : pyarray uint8)
          (self : DepthmapPrunerWrapper DepthmapPruner),
     (same_raster depth plane = false ->
      DepthmapPrunerWrapper_AddView DepthmapPruner_AddView
        K R t depth plane color label self
      = (Throws (invalid_argument
                   "depth and plane must have matching shapes."), self)) /\
     (same_raster depth plane = true -> same_raster depth color = false ->
      DepthmapPrunerWrapper_AddView DepthmapPruner_AddView
        K R t depth plane color label self
      = (Throws (invalid_argument
                   "depth and color must have matching shapes."), self)) /\
     (same_raster depth plane = true -> same_raster depth color = true ->
      same_raster depth label = false ->
      DepthmapPrunerWrapper_AddView DepthmapPruner_AddView
        K R t depth plane color label self
      = (Throws (invalid_argument
                   "depth and label must have matching shapes."), self)) /\
     (same_raster depth plane = true -> same_raster depth color = true ->
      same_raster depth label = true ->
      DepthmapPrunerWrapper_AddView DepthmapPruner_AddView
        K R t depth plane color label self
      = (Returns tt,
         mkPrunerWrapper
           (DepthmapPruner_AddView (dp_ self) (data K) (data R) (data t)
              (data depth) (data plane) (data color) (data label)
              (shape depth 1) (shape depth 0))))).
Proof.
  split.
  - intros K R t image mask self.
    unfold DepthmapEstimatorWrapper_AddView, same_raster.
    destruct (shape image 0 =? shape mask 0)%Z,
             (shape image 1 =? shape mask 1)%Z; split; done.
  - intros K R t depth plane color label self.
    unfold DepthmapPrunerWrapper_AddView, same_raster.
    destruct (shape depth 0 =? shape plane 0)%Z,
             (shape depth 1 =? shape plane 1)%Z,
             (shape depth 0 =? shape color 0)%Z,
             (shape depth 1 =? shape color 1)%Z,
             (shape depth 0 =? shape label 0)%Z,
             (shape depth 1 =? shape label 1)%Z;
      repeat split; cbn; done.
Qed.

Lemma AddView_validates_shapes_first_witness :
  DepthmapEstimatorWrapper_AddView log_estimator_view
    (raster 3 3) (raster 3 3) (raster 3 1) (raster 2 3) (raster 2 4)
    (mkEstimatorWrapper [])
  = (Throws (invalid_argument "image and mask must have matching shapes."),
     mkEstimatorWrapper []) /\
  DepthmapEstimatorWrapper_AddView log_estimator_view
    (raster 3 3) (raster 3 3) (raster 3 1) (raster 2 3) (raster 2 3)
    (mkEstimatorWrapper [])
  = (Returns tt, mkEstimatorWrapper [(3, 2)%Z]) /\
  DepthmapPrunerWrapper_AddView log_pruner_view
    (raster 3 3) (raster 3 3) (raster 3 1)
    (raster 2 3) (raster 2 3) (raster 2 3) (raster 4 3)
    (mkPrunerWrapper [])
  = (Throws (invalid_argument "depth and label must have matching shapes."),
     mkPrunerWrapper []) /\
  DepthmapPrunerWrapper_AddView log_pruner_view
    (raster 3 3) (raster 3 3) (raster 3 1)
    (raster 2 3) (raster 2 3) (raster 2 3) (raster 2 3)
    (mkPrunerWrapper [])
  = (Returns tt, mkPrunerWrapper [(3, 2)%Z]).
Proof.
  pose proof (AddView_validates_shapes_first double view_log
                log_estimator_view view_log log_pruner_view) as [Hest Hpr].
  split; [|split; [|split]].
  - apply (proj1 (Hest (raster 3 3) (raster 3 3) (raster 3 1)
                    (raster 2 3) (raster 2 4) (mkEstimatorWrapper []))).
    reflexivity.
  - apply (proj2 (Hest (raster 3 3) (raster 3 3) (raster 3 1)
                    (raster 2 3) (raster 2 3) (mkEstimatorWrapper []))).
    reflexivity.
  - apply (proj1 (proj2 (proj2
             (Hpr (raster 3 3) (raster 3 3) (raster 3 1)
                (raster 2 3) (raster 2 3) (raster 2 3) (raster 4 3)
                (mkPrunerWrapper []))))); reflexivity.
  - apply (proj2 (proj2 (proj2
             (Hpr (raster 3 3) (raster 3 3) (raster 3 1)
                (raster 2 3) (raster 2 3) (raster 2 3) (raster 2 3)
                (mkPrunerWrapper []))))); reflexivity.
Defined.

(** ** AngleBetweenVectors *)

Section FloatOrder.

Lemma SFcompare_None (x y : spec_float) :
  SFcompare x y = None -> x = S754_nan \/ y = S754_nan.
Proof.
  destruct x as [[]|[]| |[] ? ?], y as [[]|[]| |[] ? ?]; cbn; intros H;
    try discriminate; auto.
Qed.

Lemma SFcompare_Gt_flip (x y : spec_float) :
  SFcompare x y = Some Gt -> SFcompare y x = Some Lt.
Proof.
  destruct x as [sx|sx| |sx mx ex], y as [sy|sy| |sy my ey]; cbn;
    try destruct sx; try destruct sy; try done.
  - rewrite (Z.compare_antisym ex ey).
    destruct (ex ?= ey)%Z eqn:E; cbn; try done.
    pose proof (Pos.compare_cont_antisym mx my Eq) as H. cbn in H.
    destruct (Pos.compare_cont Eq mx my), (Pos.compare_cont Eq my mx);
      cbn in *; done.
  - rewrite (Z.compare_antisym ex ey).
    destruct (ex ?= ey)%Z eqn:E; cbn; try done.
    pose proof (Pos.compare_cont_antisym mx my Eq) as H. cbn in H.
    destruct (Pos.compare_cont Eq mx my), (Pos.compare_cont Eq my mx);
      cbn in *; done.
Qed.



End FloatOrder.




(** ** Point refinement *)

(** Without Jacobians, [Evaluate] writes for each observation the three
    coefficients of [Normalize(point - center) - bearing]. *)
Lemma BearingErrorCost_residuals (Normalize_Forward : Vec3d -> Vec3d)
    (Normalize_ForwardDerivatives : Vec3d -> Vec3d * list double)
    (centers bearings : MatX3d) (point : Vec3d) :
  length bearings = length centers ->
  BearingErrorCost_Evaluate Normalize_Forward Normalize_ForwardDerivatives
    centers bearings point None
  = Returns (mkEvaluation
               (bearing_residuals Normalize_Forward centers bearings point)
               None).
Proof.
  intros Hlen. unfold BearingErrorCost_Evaluate.
  match goal with
  | |- context [for_loop _ _ _ ?body _] =>
      destruct (for_loop_total
        (fun k (acc : list double * list double) =>
           acc.1 = bearing_residuals Normalize_Forward (take k centers)
                     (take k bearings) point)
        body (length bearings) 0 ([], [])) as (acc & -> & Hacc)
  end.
  - done.
  - intros k acc Hk Hinv.
    destruct (row_in_range centers k) as (c & Hc & ->); [lia|].
    destruct (row_in_range bearings k) as (b & Hb & ->); [lia|].
    eexists. split; [done|]. cbn [fst]. rewrite Hinv.
    rewrite (take_S_r _ _ _ Hc), (take_S_r _ _ _ Hb).
    unfold bearing_residuals.
    rewrite zip_with_app by (rewrite !length_take; lia).
    by rewrite flat_map_app.
  - cbn [mbind outcome_bind]. f_equal. rewrite Hacc. cbn [Nat.add].
    rewrite take_ge by lia. by rewrite take_ge by lia.
Qed.

(** [PointRefinement] hands [iterations] to the solver as its
    [max_num_iterations] and starts it at [point]. *)
Lemma PointRefinement_calls_the_solver (Normalize_Forward : Vec3d -> Vec3d)
    (Normalize_ForwardDerivatives : Vec3d -> Vec3d * list double)
    (TinySolver_Solve :
       TinySolverOptions -> (Vec3d -> option bool -> outcome Evaluation) ->
       Vec3d -> Vec3d)
    (centers bearings : MatX3d) (point : Vec3d) (iterations : Z) :
  PointRefinement Normalize_Forward Normalize_ForwardDerivatives
    TinySolver_Solve centers bearings point iterations
  = TinySolver_Solve (mkOptions iterations)
      (BearingErrorCost_Evaluate Normalize_Forward
         Normalize_ForwardDerivatives centers bearings)
      point.
Proof. reflexivity. Qed.

(** ** Binary64 facts used below *)

Section FloatFacts.

Lemma Prim2SF_nan (x : double) : Prim2SF x = S754_nan -> x = nan.
Proof. intros H. apply Prim2SF_inj. by rewrite H. Qed.

Lemma fmul_nan_l (y : double) : (nan * y)%float = nan.
Proof. apply Prim2SF_nan. by rewrite FloatAxioms.mul_spec. Qed.

Lemma fmul_nan_r (x : double) : (x * nan)%float = nan.
Proof.
  apply Prim2SF_nan. rewrite FloatAxioms.mul_spec.
  change (Prim2SF nan) with S754_nan. by destruct (Prim2SF x).
Qed.

Lemma fadd_nan_l (y : double) : (nan + y)%float = nan.
Proof. apply Prim2SF_nan. by rewrite FloatAxioms.add_spec. Qed.

Lemma fadd_nan_r (x : double) : (x + nan)%float = nan.
Proof.
  apply Prim2SF_nan. rewrite FloatAxioms.add_spec.
  change (Prim2SF nan) with S754_nan. by destruct (Prim2SF x).
Qed.

Lemma fsub_nan_l (y : double) : (nan - y)%float = nan.
Proof. apply Prim2SF_nan. by rewrite FloatAxioms.sub_spec. Qed.

Lemma fdiv_nan_l (y : double) : (nan / y)%float = nan.
Proof. apply Prim2SF_nan. by rewrite FloatAxioms.div_spec. Qed.

Lemma flt_nan_l (y : double) : flt nan y = false.
Proof. unfold flt. by rewrite FloatAxioms.ltb_spec. Qed.

Lemma flt_nan_r (x : double) : flt x nan = false.
Proof.
  unfold flt. rewrite FloatAxioms.ltb_spec.
  change (Prim2SF nan) with S754_nan. unfold SFltb. by destruct (Prim2SF x).
Qed.

Lemma fle_nan_l (y : double) : fle nan y = false.
Proof. unfold fle. by rewrite FloatAxioms.leb_spec. Qed.

Lemma fle_nan_r (x : double) : fle x nan = false.
Proof.
  unfold fle. rewrite FloatAxioms.leb_spec.
  change (Prim2SF nan) with S754_nan. unfold SFleb. by destruct (Prim2SF x).
Qed.

Lemma SFmul_comm (prec emax : Z) (x y : spec_float) :
  SFmul prec emax x y = SFmul prec emax y x.
Proof.
  destruct x as [sx|sx| |sx mx ex], y as [sy|sy| |sy my ey]; cbn; try done;
    rewrite ?(xorb_comm sx sy); try done.
  by rewrite (Pos.mul_comm mx my), (Z.add_comm ex ey).
Qed.

Lemma fmul_comm (x y : double) : (x * y)%float = (y * x)%float.
Proof.
  apply Prim2SF_inj. rewrite !FloatAxioms.mul_spec. apply SFmul_comm.
Qed.

Ltac order_cases :=
  repeat match goal with
  | H : context [Z.compare ?a ?b] |- _ =>
      destruct (Z.compare_spec a b); subst; cbn in H
  | |- context [Z.compare ?a ?b] =>
      destruct (Z.compare_spec a b); subst; cbn
  | H : context [Pos.compare_cont Eq ?a ?b] |- _ =>
      change (Pos.compare_cont Eq a b) with (Pos.compare a b) in H;
      destruct (Pos.compare_spec a b); subst; cbn in H
  | |- context [Pos.compare_cont Eq ?a ?b] =>
      change (Pos.compare_cont Eq a b) with (Pos.compare a b);
      destruct (Pos.compare_spec a b); subst; cbn
  end.

Lemma SFcompare_Eq_flip (x y : spec_float) :
  SFcompare x y = Some Eq -> SFcompare y x = Some Eq.
Proof.
  destruct x as [[]|[]| |[] mx ex], y as [[]|[]| |[] my ey]; cbn; try done;
    intros H; order_cases; try done; try lia.
Qed.

Lemma SFcompare_lt_le_trans (x y z : spec_float) :
  SFcompare x y = Some Lt ->
  SFcompare y z = Some Lt \/ SFcompare y z = Some Eq ->
  SFcompare x z = Some Lt.
Proof.
  destruct x as [[]|[]| |[] mx ex], y as [[]|[]| |[] my ey],
           z as [[]|[]| |[] mz ez]; cbn; try done;
    intros H [H'|H']; try done; order_cases; try done; try lia.
Qed.

Lemma SFcompare_le_lt_trans (x y z : spec_float) :
  SFcompare x y = Some Lt \/ SFcompare x y = Some Eq ->
  SFcompare y z = Some Lt ->
  SFcompare x z = Some Lt.
Proof.
  destruct x as [[]|[]| |[] mx ex], y as [[]|[]| |[] my ey],
           z as [[]|[]| |[] mz ez]; cbn; try done;
    intros [H|H] H'; try done; order_cases; try done; try lia.
Qed.

Lemma fle_cases (a b : double) :
  fle a b = true ->
  SFcompare (Prim2SF a) (Prim2SF b) = Some Lt \/
  SFcompare (Prim2SF a) (Prim2SF b) = Some Eq.
Proof.
  unfold fle. rewrite FloatAxioms.leb_spec. unfold SFleb.
  destruct (SFcompare _ _) as [[]|]; auto; done.
Qed.

Lemma flt_cases (a b : double) :
  flt a b = true <-> SFcompare (Prim2SF a) (Prim2SF b) = Some Lt.
Proof.
  unfold flt. rewrite FloatAxioms.ltb_spec. unfold SFltb.
  destruct (SFcompare _ _) as [[]|]; split; done.
Qed.

(** [a < b] and [b <= c] give [a < c]; [a <= b] and [b < c] give [a < c]. *)
Lemma flt_fle_trans (a b c : double) :
  flt a b = true -> fle b c = true -> flt a c = true.
Proof.
  intros Hab Hbc. apply flt_cases.
  eapply SFcompare_lt_le_trans; [by apply flt_cases|by apply fle_cases].
Qed.

Lemma fle_flt_trans (a b c : double) :
  fle a b = true -> flt b c = true -> flt a c = true.
Proof.
  intros Hab Hbc. apply flt_cases.
  eapply SFcompare_le_lt_trans; [by apply fle_cases|by apply flt_cases].
Qed.

(** [!(a < b)] leaves [b <= a] or a NaN. *)
Lemma flt_false_cases (a b : double) :
  flt a b = false -> a = nan \/ b = nan \/ fle b a = true.
Proof.
  unfold flt, fle. rewrite FloatAxioms.ltb_spec, FloatAxioms.leb_spec.
  unfold SFltb, SFleb.
  destruct (SFcompare (Prim2SF a) (Prim2SF b)) as [[]|] eqn:E; try done;
    intros _.
  - right. right. by rewrite (SFcompare_Eq_flip _ _ E).
  - right. right. by rewrite (SFcompare_Gt_flip _ _ E).
  - destruct (SFcompare_None _ _ E) as [H|H];
      [left|right; left]; by apply Prim2SF_nan.
Qed.

(** A coefficient equal to zero is [+0] or [-0]. *)
Lemma feqb_zero (x : double) :
  PrimFloat.eqb x 0 = true -> exists s, Prim2SF x = S754_zero s.
Proof.
  rewrite FloatAxioms.eqb_spec. unfold SFeqb.
  change (Prim2SF 0) with (S754_zero false).
  destruct (Prim2SF x) as [s|[]| |[] m e]; cbn; try done. by exists s.
Qed.

End FloatFacts.

(** ** More on AngleBetweenVectors *)

Section AngleFacts.

Lemma dot3_comm (u v : Vec3d) : dot3 u v = dot3 v u.
Proof.
  unfold dot3.
  by rewrite (fmul_comm (x3 u)), (fmul_comm (y3 u)), (fmul_comm (z3 u)).
Qed.

Lemma cosine_comm (u v : Vec3d) : cosine u v = cosine v u.
Proof.
  unfold cosine. by rewrite (dot3_comm u v), (fmul_comm (dot3 u u)).
Qed.

Lemma fmul_zero_l (x y : double) : signed_zero x -> zero_or_nan (x * y)%float.
Proof.
  intros [s Hx]. unfold zero_or_nan, signed_zero.
  destruct (Prim2SF y) as [sy|sy| |sy my ey] eqn:Hy.
  - right. eexists. by rewrite FloatAxioms.mul_spec, Hx, Hy.
  - left. apply Prim2SF_nan. by rewrite FloatAxioms.mul_spec, Hx, Hy.
  - left. apply Prim2SF_nan. by rewrite FloatAxioms.mul_spec, Hx, Hy.
  - right. eexists. by rewrite FloatAxioms.mul_spec, Hx, Hy.
Qed.

Lemma fmul_zero_zero (x y : double) :
  signed_zero x -> signed_zero y -> signed_zero (x * y)%float.
Proof.
  intros [s Hx] [t Hy]. eexists.
  by rewrite FloatAxioms.mul_spec, Hx, Hy.
Qed.

Lemma fadd_zero_zero (x y : double) :
  signed_zero x -> signed_zero y -> signed_zero (x + y)%float.
Proof.
  intros [s Hx] [t Hy]. unfold signed_zero.
  rewrite FloatAxioms.add_spec, Hx, Hy. destruct s, t; by eexists.
Qed.

Lemma fadd_zero_or_nan (x y : double) :
  zero_or_nan x -> zero_or_nan y -> zero_or_nan (x + y)%float.
Proof.
  intros [->|Hx] [->|Hy].
  - left. apply fadd_nan_l.
  - left. apply fadd_nan_l.
  - left. apply fadd_nan_r.
  - right. by apply fadd_zero_zero.
Qed.

Lemma fsqrt_zero_or_nan (x : double) :
  zero_or_nan x -> zero_or_nan (PrimFloat.sqrt x).
Proof.
  intros [->|[s Hx]]; [by left|right].
  exists s. by rewrite FloatAxioms.sqrt_spec, Hx.
Qed.

Lemma fdiv_zero_or_nan (x y : double) :
  zero_or_nan x -> zero_or_nan y -> (x / y)%float = nan.
Proof.
  intros [->|[s Hx]] Hy; [apply fdiv_nan_l|].
  apply Prim2SF_nan. rewrite FloatAxioms.div_spec, Hx.
  destruct Hy as [->|[t Hy]]; [done|by rewrite Hy].
Qed.

Lemma nonzero_false (u : Vec3d) :
  nonzero u = false -> signed_zero (x3 u) /\ signed_zero (y3 u) /\ signed_zero (z3 u).
Proof.
  unfold nonzero. intros H. apply negb_false_iff in H.
  apply andb_true_iff in H as [H Hz]. apply andb_true_iff in H as [Hx Hy].
  repeat split; by apply feqb_zero.
Qed.

Lemma cosine_of_zero_vector (u v : Vec3d) :
  nonzero u = false -> cosine u v = nan.
Proof.
  intros Hu. apply nonzero_false in Hu as (Hx & Hy & Hz).
  unfold cosine. apply fdiv_zero_or_nan.
  - unfold dot3.
    repeat apply fadd_zero_or_nan; by apply fmul_zero_l.
  - apply fsqrt_zero_or_nan, fmul_zero_l. unfold dot3.
    repeat apply fadd_zero_zero; by apply fmul_zero_zero.
Qed.

End AngleFacts.


(** X2.  When either vector has all coefficients zero ([+0] or [-0]) the
    cosine is NaN whatever the other vector is (finite, infinite or NaN):
    the guard [|c| >= 1] does not fire and the call returns [acos(NaN)]. *)
Theorem AngleBetweenVectors_of_zero_vector (acos : double -> double)
    (u v : Vec3d) :
  nonzero u = false \/ nonzero v = false ->
  cosine u v = nan /\ AngleBetweenVectors acos u v = acos nan.
Proof.
  intros H.
  assert (cosine u v = nan) as Hc.
  { destruct H as [H|H]; [|rewrite cosine_comm];
      by apply cosine_of_zero_vector. }
  split; [done|]. unfold AngleBetweenVectors. by rewrite Hc.
Qed.

Lemma AngleBetweenVectors_of_zero_vector_witness :
  cosine Vec3d_Zero ahead = nan /\
  AngleBetweenVectors acos_reference Vec3d_Zero ahead = acos_reference nan.
Proof.
  apply (AngleBetweenVectors_of_zero_vector acos_reference Vec3d_Zero ahead).
  left. reflexivity.
Defined.

(** ** Success of a triangulation, view by view *)

Section SuccessFacts.
Variable acos : double -> double.
Variable Vec3d_default : Vec3d.
Variable Vec4d_default : Vec4d.
Variable JacobiSVD_matrixV : MatX4d -> nat -> nat -> double.
Variable TriangulateBearingsMidpointSolve : MatX3d -> MatX3d -> Vec3d.

Lemma has_parallax_decided (rays : list Vec3d) (min_angle : double) :
  some_parallax acos rays min_angle (length rays) = true <->
  has_parallax acos rays min_angle.
Proof.
  split; [|by apply some_parallax_true].
  unfold some_parallax. intros H.
  apply any_in_true in H as (i & Hi & H).
  apply any_in_true in H as (j & Hj & H). unfold parallax_pair in H.
  destruct (rays !! i) as [u|] eqn:Hu; [|done].
  destruct (rays !! j) as [v|] eqn:Hv; [|done].
  exists i, j, u, v. repeat split; (done || lia).
Qed.

Lemma world_rays_length (Rts : list Mat34d) (bearings : MatX3d) :
  length Rts <= length bearings ->
  length (world_rays Rts bearings) = length Rts.
Proof. intros H. unfold world_rays. rewrite length_zip_with. lia. Qed.

(** A call of DLT succeeds exactly when the gate passes and every view is
    accepted at the dehomogenised solution. *)
Lemma TriangulateBearingsDLT_success (Rts : list Mat34d) (bearings : MatX3d)
    (threshold min_angle min_depth : double) (X0 : Vec4d)
    (point : Vec3d) (calls : list solve_call) :
  length bearings = length Rts ->
  TriangulateBearingsDLTSolve Vec4d_default JacobiSVD_matrixV bearings Rts
  = Returns X0 ->
  TriangulateBearingsDLT acos Vec3d_default Vec4d_default JacobiSVD_matrixV
    Rts bearings threshold min_angle min_depth
  = Returns ((true, point), calls) <->
  has_parallax acos (world_rays Rts bearings) min_angle /\
  (forall i Rt b, Rts !! i = Some Rt -> bearings !! i = Some b ->
     view_accepted acos (mul34 Rt (div4 X0 (w4 X0))) b threshold min_depth) /\
  point = head3 (div4 X0 (w4 X0)) /\
  calls = [DLTSolve_call bearings Rts].
Proof.
  intros Hlen HX0.
  rewrite (TriangulateBearingsDLT_spec acos Vec3d_default Vec4d_default
             JacobiSVD_matrixV Rts bearings threshold min_angle min_depth
             _ Hlen HX0).
  rewrite <- has_parallax_decided, world_rays_length by lia.
  destruct (some_parallax _ _ _ _); [|split; [done|by intros []]].
  cbn zeta.
  destruct (any_in _ 0 (length Rts)) eqn:Hrej.
  - split; [done|]. intros (_ & Hall & _).
    rewrite (proj2 (DLT_rejects_none acos Rts bearings _ threshold
                      min_depth (length Rts))) in Hrej; [done|].
    intros i Rt b _. apply Hall.
  - pose proof (proj1 (DLT_rejects_none acos Rts bearings _ threshold
                         min_depth (length Rts)) Hrej) as Hall.
    split.
    + intros [= <- <-]. split; [done|]. split; [|done].
      intros i Rt b HRt Hb. apply (Hall i); [|done..].
      by apply lookup_lt_Some in HRt.
    + by intros (_ & _ & -> & ->).
Qed.

Lemma TriangulateBearingsMidpoint_success (centers bearings : MatX3d)
    (threshold_list : list double) (min_angle min_depth : double)
    (point : Vec3d) (calls : list solve_call) :
  length bearings = length centers ->
  length centers <= length threshold_list ->
  TriangulateBearingsMidpoint acos Vec3d_default
    TriangulateBearingsMidpointSolve centers bearings threshold_list
    min_angle min_depth
  = Returns ((true, point), calls) <->
  has_parallax acos bearings min_angle /\
  (forall i c b t, centers !! i = Some c -> bearings !! i = Some b ->
     threshold_list !! i = Some t ->
     view_accepted acos
       (sub3 (TriangulateBearingsMidpointSolve centers bearings) c) b
       t min_depth) /\
  point = TriangulateBearingsMidpointSolve centers bearings /\
  calls = [MidpointSolve_call centers bearings].
Proof.
  intros Hlen Hthr.
  rewrite <- has_parallax_decided, Hlen.
  destruct (some_parallax acos bearings min_angle (length centers)) eqn:Hpar.
  - rewrite TriangulateBearingsMidpoint_spec by done. cbn zeta.
    destruct (any_in _ 0 (length centers)) eqn:Hrej.
    + split; [done|]. intros (_ & Hall & _).
      rewrite (proj2 (Midpoint_rejects_none acos centers bearings _
                        threshold_list min_depth (length centers))) in Hrej;
        [done|].
      intros i c b t _. apply Hall.
    + pose proof (proj1 (Midpoint_rejects_none acos centers bearings _
                           threshold_list min_depth (length centers)) Hrej)
        as Hall.
      split.
      * intros [= <- <-]. split; [done|]. split; [|done].
        intros i c b t Hc Hb Ht. apply (Hall i); [|done..].
        by apply lookup_lt_Some in Hc.
      * by intros (_ & _ & -> & ->).
  - rewrite TriangulateBearingsMidpoint_gate by done.
    split; [done|by intros []].
Qed.

(** Loosening the tests keeps an accepted view accepted. *)
Lemma view_accepted_mono (projected measured : Vec3d)
    (threshold threshold' min_depth min_depth' : double) :
  fle threshold threshold' = true -> fle min_depth' min_depth = true ->
  view_accepted acos projected measured threshold min_depth ->
  view_accepted acos projected measured threshold' min_depth'.
Proof.
  intros Ht Hd [Ha Hdot]. unfold view_accepted, fgt in *. split.
  - destruct (PrimFloat.ltb threshold' _) eqn:E; [|done].
    rewrite <- Ha. symmetry. by apply (fle_flt_trans _ threshold').
  - destruct (flt _ min_depth') eqn:E; [|done].
    rewrite <- Hdot. symmetry. by apply (flt_fle_trans _ min_depth').
Qed.

(** With a positive [min_depth] an accepted view has a positive dot
    product, or a NaN one. *)
Lemma view_accepted_in_front (projected measured : Vec3d)
    (threshold min_depth : double) :
  flt 0%float min_depth = true ->
  view_accepted acos projected measured threshold min_depth ->
  dot3 projected measured = nan \/
  flt 0%float (dot3 projected measured) = true.
Proof.
  intros Hpos [_ Hdot].
  destruct (flt_false_cases _ _ Hdot) as [H|[H|H]].
  - by left.
  - rewrite H, flt_nan_r in Hpos. done.
  - right. by apply (flt_fle_trans _ min_depth).
Qed.

Lemma dot3_nan_l (u v : Vec3d) : has_nan u -> dot3 u v = nan.
Proof.
  unfold dot3. intros [H|[H|H]]; rewrite H.
  - by rewrite fmul_nan_l, !fadd_nan_l.
  - by rewrite fmul_nan_l, fadd_nan_r, fadd_nan_l.
  - by rewrite fmul_nan_l, fadd_nan_r.
Qed.

(** A projected ray with a NaN coefficient passes both tests when
    [acos(NaN)] is NaN. *)
Lemma view_accepted_of_nan (projected measured : Vec3d)
    (threshold min_depth : double) :
  acos nan = nan -> has_nan projected ->
  view_accepted acos projected measured threshold min_depth.
Proof.
  intros Hacos Hnan. unfold view_accepted, AngleBetweenVectors, cosine.
  rewrite (dot3_nan_l _ measured Hnan), fdiv_nan_l.
  change (fge (fabs nan) 1%float) with false. cbv iota zeta. rewrite Hacos.
  split; [apply flt_nan_r|apply flt_nan_l].
Qed.

End SuccessFacts.

(** ** Edge cases of the parallax gate *)

Section GateFacts.
Variable acos : double -> double.
Variable Vec3d_default : Vec3d.
Variable Vec4d_default : Vec4d.
Variable JacobiSVD_matrixV : MatX4d -> nat -> nat -> double.
Variable TriangulateBearingsMidpointSolve : MatX3d -> MatX3d -> Vec3d.

(** The gate of DLT needs a bearing for every pose only. *)
Lemma TriangulateBearingsDLT_gate (Rts : list Mat34d) (bearings : MatX3d)
    (threshold min_angle min_depth : double) :
  length Rts <= length bearings ->
  some_parallax acos (world_rays Rts bearings) min_angle (length Rts)
  = false ->
  TriangulateBearingsDLT acos Vec3d_default Vec4d_default JacobiSVD_matrixV
    Rts bearings threshold min_angle min_depth
  = Returns ((false, Vec3d_default), []).
Proof.
  intros Hlen Hno. unfold TriangulateBearingsDLT, traced_bind, untraced.
  rewrite DLT_parallax_spec by done. by rewrite Hno.
Qed.

Lemma TriangulateBearingsMidpoint_gate_le (centers bearings : MatX3d)
    (threshold_list : list double) (min_angle min_depth : double) :
  length centers <= length bearings ->
  some_parallax acos bearings min_angle (length centers) = false ->
  TriangulateBearingsMidpoint acos Vec3d_default
    TriangulateBearingsMidpointSolve centers bearings threshold_list
    min_angle min_depth
  = Returns ((false, Vec3d_default), []).
Proof.
  intros Hlen Hno. unfold TriangulateBearingsMidpoint, traced_bind, untraced.
  rewrite Midpoint_parallax_spec by done. by rewrite Hno.
Qed.

Lemma some_parallax_few (rays : list Vec3d) (min_angle : double) (n : nat) :
  n <= 1 -> some_parallax acos rays min_angle n = false.
Proof.
  intros Hn. unfold some_parallax. apply any_in_false. intros i Hi.
  by replace i with 0 by lia.
Qed.

Lemma parallax_in_range_nan (angle : double) :
  parallax_in_range angle nan = false.
Proof.
  unfold parallax_in_range.
  replace (fge angle nan) with false; [done|].
  symmetry. apply fle_nan_l.
Qed.

End GateFacts.

(** X3.  With no view or a single view there is no pair to compare: both
    functions return failure without a solve.  The midpoint method then
    reads no bearing at all, so it returns even when [bearings] is empty;
    DLT reads the bearing of its one view. *)
Theorem fewer_than_two_views_fail
    (acos : double -> double) (Vec3d_default : Vec3d) (Vec4d_default : Vec4d)
    (JacobiSVD_matrixV : MatX4d -> nat -> nat -> double)
    (TriangulateBearingsMidpointSolve : MatX3d -> MatX3d -> Vec3d) :
  (forall (Rts : list Mat34d) (bearings : MatX3d)
          (threshold min_angle min_depth : double),
     length Rts <= 1 -> length Rts <= length bearings ->
     TriangulateBearingsDLT acos Vec3d_default Vec4d_default JacobiSVD_matrixV
       Rts bearings threshold min_angle min_depth
     = Returns ((false, Vec3d_default), [])) /\
  (forall (centers bearings : MatX3d) (threshold_list : list double)
          (min_angle min_depth : double),
     length centers <= 1 ->
     TriangulateBearingsMidpoint acos Vec3d_default
       TriangulateBearingsMidpointSolve centers bearings threshold_list
       min_angle min_depth
     = Returns ((false, Vec3d_default), [])).
Proof.
  split.
  - intros Rts bearings threshold min_angle min_depth Hone Hlen.
    apply TriangulateBearingsDLT_gate; [done|].
    by apply some_parallax_few.
  - intros centers bearings threshold_list min_angle min_depth Hone.
    destruct centers as [|c [|c' centers]]; [done|done|].
    cbn in Hone. lia.
Qed.

Lemma fewer_than_two_views_fail_witness :
  TriangulateBearingsDLT acos_reference Vec3d_Zero (mkVec4d 0 0 0 0)
    matrixV_origin [Rt_front] [ahead] 0x1p-7%float 0x1p-3%float 0x1p-10%float
  = Returns ((false, Vec3d_Zero), []) /\
  TriangulateBearingsMidpoint acos_reference Vec3d_Zero MidpointSolve_spec
    [mkVec3d 0 0 0] [] [] 0x1p-3%float 0x1p-10%float
  = Returns ((false, Vec3d_Zero), []).
Proof.
  split.
  - apply (proj1 (fewer_than_two_views_fail acos_reference Vec3d_Zero
                    (mkVec4d 0 0 0 0) matrixV_origin MidpointSolve_spec));
      simpl; lia.
  - apply (proj2 (fewer_than_two_views_fail acos_reference Vec3d_Zero
                    (mkVec4d 0 0 0 0) matrixV_origin MidpointSolve_spec)).
    simpl. lia.
Defined.

(** X4.  A NaN [min_angle] closes the gate: [angle >= min_angle] is false
    for every angle, so every call with a bearing for each view returns
    failure without a solve. *)
Theorem nan_min_angle_always_fails
    (acos : double -> double) (Vec3d_default : Vec3d) (Vec4d_default : Vec4d)
    (JacobiSVD_matrixV : MatX4d -> nat -> nat -> double)
    (TriangulateBearingsMidpointSolve : MatX3d -> MatX3d -> Vec3d) :
  (forall (Rts : list Mat34d) (bearings : MatX3d)
          (threshold min_depth : double),
     length Rts <= length bearings ->
     TriangulateBearingsDLT acos Vec3d_default Vec4d_default JacobiSVD_matrixV
       Rts bearings threshold nan min_depth
     = Returns ((false, Vec3d_default), [])) /\
  (forall (centers bearings : MatX3d) (threshold_list : list double)
          (min_depth : double),
     length centers <= length bearings ->
     TriangulateBearingsMidpoint acos Vec3d_default
       TriangulateBearingsMidpointSolve centers bearings threshold_list
       nan min_depth
     = Returns ((false, Vec3d_default), [])).
Proof.
  split.
  - intros Rts bearings threshold min_depth Hlen.
    apply TriangulateBearingsDLT_gate; [done|].
    apply some_parallax_false. intros i j u v _ _ _.
    apply parallax_in_range_nan.
  - intros centers bearings threshold_list min_depth Hlen.
    apply TriangulateBearingsMidpoint_gate_le; [done|].
    apply some_parallax_false. intros i j u v _ _ _.
    apply parallax_in_range_nan.
Qed.

Lemma nan_min_angle_always_fails_witness :
  TriangulateBearingsDLT acos_reference Vec3d_Zero (mkVec4d 0 0 0 0)
    matrixV_origin [Rt_front; Rt_side] [ahead; ahead]
    0x1p-7%float nan 0x1p-10%float
  = Returns ((false, Vec3d_Zero), []) /\
  TriangulateBearingsMidpoint acos_reference Vec3d_Zero MidpointSolve_spec
    crossing_centers crossing_bearings [0x1p-7; 0x1p-7]%float
    nan 0x1p-10%float
  = Returns ((false, Vec3d_Zero), []).
Proof.
  split.
  - apply (proj1 (nan_min_angle_always_fails acos_reference Vec3d_Zero
                    (mkVec4d 0 0 0 0) matrixV_origin MidpointSolve_spec)).
    simpl. lia.
  - apply (proj2 (nan_min_angle_always_fails acos_reference Vec3d_Zero
                    (mkVec4d 0 0 0 0) matrixV_origin MidpointSolve_spec)).
    simpl. lia.
Defined.

(** ** Edge cases of the post-check *)

Lemma thresholds_le_length (t t' : list double) :
  thresholds_le t t' -> length t <= length t'.
Proof.
  intros H. destruct (decide (length t <= length t')) as [|Hlt]; [done|].
  destruct (lookup_lt_is_Some_2 t (length t')) as [a Ha]; [lia|].
  destruct (H _ _ Ha) as (b & Hb & _).
  apply lookup_lt_Some in Hb. lia.
Qed.

(** X5.  Loosening the tests never turns a success into a failure: a call
    that succeeds still succeeds, with the same point, when the threshold
    (each entry of [threshold_list], for the midpoint method) is raised and
    [min_depth] is lowered. *)
Theorem success_is_monotone_in_the_tolerances
    (acos : double -> double) (Vec3d_default : Vec3d) (Vec4d_default : Vec4d)
    (JacobiSVD_matrixV : MatX4d -> nat -> nat -> double)
    (TriangulateBearingsMidpointSolve : MatX3d -> MatX3d -> Vec3d) :
  (forall (Rts : list Mat34d) (bearings : MatX3d)
          (threshold threshold' min_angle min_depth min_depth' : double)
          (point : Vec3d) (calls : list solve_call),
     length bearings = length Rts ->
     fle threshold threshold' = true -> fle min_depth' min_depth = true ->
     TriangulateBearingsDLT acos Vec3d_default Vec4d_default JacobiSVD_matrixV
       Rts bearings threshold min_angle min_depth
     = Returns ((true, point), calls) ->
     TriangulateBearingsDLT acos Vec3d_default Vec4d_default JacobiSVD_matrixV
       Rts bearings threshold' min_angle min_depth'
     = Returns ((true, point), calls)) /\
  (forall (centers bearings : MatX3d) (threshold_list threshold_list' : list double)
          (min_angle min_depth min_depth' : double)
          (point : Vec3d) (calls : list solve_call),
     length bearings = length centers ->
     length centers <= length threshold_list ->
     thresholds_le threshold_list threshold_list' ->
     fle min_depth' min_depth = true ->
     TriangulateBearingsMidpoint acos Vec3d_default
       TriangulateBearingsMidpointSolve centers bearings threshold_list
       min_angle min_depth
     = Returns ((true, point), calls) ->
     TriangulateBearingsMidpoint acos Vec3d_default
       TriangulateBearingsMidpointSolve centers bearings threshold_list'
       min_angle min_depth'
     = Returns ((true, point), calls)).
Proof.
  split.
  - intros Rts bearings threshold threshold' min_angle min_depth min_depth'
      point calls Hlen Ht Hd Hok.
    destruct (TriangulateBearingsDLTSolve_spec Vec4d_default JacobiSVD_matrixV
                bearings Rts Hlen) as (A & _ & HX0).
    destruct (proj1 (TriangulateBearingsDLT_success acos Vec3d_default
                       Vec4d_default JacobiSVD_matrixV Rts bearings threshold
                       min_angle min_depth _ point calls Hlen HX0) Hok)
      as (Hpar & Hall & Hp & Hc).
    apply (TriangulateBearingsDLT_success acos Vec3d_default Vec4d_default
             JacobiSVD_matrixV Rts bearings threshold' min_angle min_depth'
             _ point calls Hlen HX0).
    split; [done|]. split; [|done].
    intros i Rt b HRt Hb.
    by apply (view_accepted_mono acos _ _ threshold threshold'
                min_depth min_depth'), (Hall i).
  - intros centers bearings threshold_list threshold_list' min_angle
      min_depth min_depth' point calls Hlen Hthr Hle Hd Hok.
    pose proof (thresholds_le_length _ _ Hle) as Hlen'.
    destruct (proj1 (TriangulateBearingsMidpoint_success acos Vec3d_default
                       TriangulateBearingsMidpointSolve centers bearings
                       threshold_list min_angle min_depth point calls
                       Hlen Hthr) Hok) as (Hpar & Hall & Hp & Hc).
    apply TriangulateBearingsMidpoint_success; [done|lia|].
    split; [done|]. split; [|done].
    intros i c b t' Hc' Hb Ht'.
    destruct (lookup_lt_is_Some_2 threshold_list i) as [t Ht].
    { apply lookup_lt_Some in Hc'. lia. }
    destruct (Hle _ _ Ht) as (t'' & Ht'' & Htt).
    rewrite Ht' in Ht''. injection Ht'' as <-.
    by apply (view_accepted_mono acos _ _ t t' min_depth min_depth'),
             (Hall i).
Qed.

Lemma success_is_monotone_in_the_tolerances_witness :
  TriangulateBearingsDLT acos_reference Vec3d_Zero (mkVec4d 0 0 0 0)
    matrixV_origin [Rt_front; Rt_side] [ahead; ahead]
    0x1p-6%float 0x1p-3%float 0x1p-11%float
  = Returns ((true, mkVec3d 0 0 0),
             [DLTSolve_call [ahead; ahead] [Rt_front; Rt_side]]) /\
  TriangulateBearingsMidpoint acos_reference Vec3d_Zero MidpointSolve_spec
    crossing_centers crossing_bearings [0x1p-6; 0x1p-7; 1]%float
    0x1p-3%float 0x1p-11%float
  = Returns ((true, mkVec3d 0 0 1),
             [MidpointSolve_call crossing_centers crossing_bearings]).
Proof.
  split.
  - apply (proj1 (success_is_monotone_in_the_tolerances acos_reference
                    Vec3d_Zero (mkVec4d 0 0 0 0) matrixV_origin
                    MidpointSolve_spec)
             [Rt_front; Rt_side] [ahead; ahead]
             0x1p-7%float 0x1p-6%float 0x1p-3%float
             0x1p-10%float 0x1p-11%float);
      vm_compute; reflexivity.
  - apply (proj2 (success_is_monotone_in_the_tolerances acos_reference
                    Vec3d_Zero (mkVec4d 0 0 0 0) matrixV_origin
                    MidpointSolve_spec)
             crossing_centers crossing_bearings
             [0x1p-7; 0x1p-7]%float [0x1p-6; 0x1p-7; 1]%float
             0x1p-3%float 0x1p-10%float 0x1p-11%float).
    + reflexivity.
    + simpl. lia.
    + intros [|[|i]] a Ha; try discriminate; injection Ha as <-;
        eexists; (split; [reflexivity|vm_compute; reflexivity]).
    + vm_compute. reflexivity.
    + vm_compute. reflexivity.
Defined.

(** X6.  With a positive [min_depth] a successful call has the point in
    front of every camera, up to NaN: for every view the dot product of the
    projected and the measured bearing is positive or NaN. *)
Theorem positive_min_depth_puts_point_in_front
    (acos : double -> double) (Vec3d_default : Vec3d) (Vec4d_default : Vec4d)
    (JacobiSVD_matrixV : MatX4d -> nat -> nat -> double)
    (TriangulateBearingsMidpointSolve : MatX3d -> MatX3d -> Vec3d) :
  (forall (Rts : list Mat34d) (bearings : MatX3d)
          (threshold min_angle min_depth : double) (X0 : Vec4d)
          (point : Vec3d) (calls : list solve_call),
     length bearings = length Rts ->
     TriangulateBearingsDLTSolve Vec4d_default JacobiSVD_matrixV bearings Rts
     = Returns X0 ->
     flt 0%float min_depth = true ->
     TriangulateBearingsDLT acos Vec3d_default Vec4d_default JacobiSVD_matrixV
       Rts bearings threshold min_angle min_depth
     = Returns ((true, point), calls) ->
     forall i Rt b, Rts !! i = Some Rt -> bearings !! i = Some b ->
       let projected := mul34 Rt (div4 X0 (w4 X0)) in
       dot3 projected b = nan \/ flt 0%float (dot3 projected b) = true) /\
  (forall (centers bearings : MatX3d) (threshold_list : list double)
          (min_angle min_depth : double)
          (point : Vec3d) (calls : list solve_call),
     length bearings = length centers ->
     length centers <= length threshold_list ->
     flt 0%float min_depth = true ->
     TriangulateBearingsMidpoint acos Vec3d_default
       TriangulateBearingsMidpointSolve centers bearings threshold_list
       min_angle min_depth
     = Returns ((true, point), calls) ->
     forall i c b, centers !! i = Some c -> bearings !! i = Some b ->
       let projected := sub3 point c in
       dot3 projected b = nan \/ flt 0%float (dot3 projected b) = true).
Proof.
  split.
  - intros Rts bearings threshold min_angle min_depth X0 point calls
      Hlen HX0 Hpos Hok i Rt b HRt Hb.
    destruct (proj1 (TriangulateBearingsDLT_success acos Vec3d_default
                       Vec4d_default JacobiSVD_matrixV Rts bearings threshold
                       min_angle min_depth X0 point calls Hlen HX0) Hok)
      as (_ & Hall & _).
    apply (view_accepted_in_front acos _ _ threshold min_depth Hpos).
    by apply (Hall i).
  - intros centers bearings threshold_list min_angle min_depth point calls
      Hlen Hthr Hpos Hok i c b Hc Hb.
    destruct (proj1 (TriangulateBearingsMidpoint_success acos Vec3d_default
                       TriangulateBearingsMidpointSolve centers bearings
                       threshold_list min_angle min_depth point calls
                       Hlen Hthr) Hok) as (_ & Hall & -> & _).
    destruct (lookup_lt_is_Some_2 threshold_list i) as [t Ht].
    { apply lookup_lt_Some in Hc. lia. }
    apply (view_accepted_in_front acos _ _ t min_depth Hpos).
    by apply (Hall i).
Qed.

Lemma positive_min_depth_puts_point_in_front_witness :
  (forall i Rt b, [Rt_front; Rt_side] !! i = Some Rt ->
     [ahead; ahead] !! i = Some b ->
     let projected :=
       mul34 Rt (div4 (mkVec4d 0 0 0 1) (w4 (mkVec4d 0 0 0 1))) in
     dot3 projected b = nan \/ flt 0%float (dot3 projected b) = true) /\
  (forall i c b, crossing_centers !! i = Some c ->
     crossing_bearings !! i = Some b ->
     let projected := sub3 (mkVec3d 0 0 1) c in
     dot3 projected b = nan \/ flt 0%float (dot3 projected b) = true).
Proof.
  split.
  - apply (proj1 (positive_min_depth_puts_point_in_front acos_reference
                    Vec3d_Zero (mkVec4d 0 0 0 0) matrixV_origin
                    MidpointSolve_spec)
             [Rt_front; Rt_side] [ahead; ahead]
             0x1p-7%float 0x1p-3%float 0x1p-10%float (mkVec4d 0 0 0 1)
             (mkVec3d 0 0 0)
             [DLTSolve_call [ahead; ahead] [Rt_front; Rt_side]]);
      vm_compute; reflexivity.
  - apply (proj2 (positive_min_depth_puts_point_in_front acos_reference
                    Vec3d_Zero (mkVec4d 0 0 0 0) matrixV_origin
                    MidpointSolve_spec)
             crossing_centers crossing_bearings [0x1p-7; 0x1p-7]%float
             0x1p-3%float 0x1p-10%float (mkVec3d 0 0 1)
             [MidpointSolve_call crossing_centers crossing_bearings]).
    + reflexivity.
    + simpl. lia.
    + vm_compute. reflexivity.
    + vm_compute. reflexivity.
Defined.

Lemma sub3_nan (X c : Vec3d) : has_nan X -> has_nan (sub3 X c).
Proof.
  unfold has_nan, sub3. cbn.
  intros [H|[H|H]]; rewrite H, fsub_nan_l; auto.
Qed.

Lemma fdiv_zero_self (w : double) :
  PrimFloat.eqb w 0 = true -> (w / w)%float = nan.
Proof.
  intros H. apply feqb_zero in H.
  apply fdiv_zero_or_nan; by right.
Qed.

Lemma mul34_nan (Rt : Mat34d) (X : Vec4d) : w4 X = nan -> has_nan (mul34 Rt X).
Proof.
  intros H. left. unfold mul34, dot4. cbn.
  by rewrite H, fmul_nan_r, fadd_nan_r.
Qed.

(** X7.  A solution with a NaN coefficient is not rejected.  When the
    midpoint solve returns a point with a NaN coefficient (and libm's
    [acos(NaN)] is NaN), every comparison of the post-check is false and a
    call that passes the gate returns success with that point. *)
Theorem nan_midpoint_is_reported_as_success
    (acos : double -> double) (Vec3d_default : Vec3d)
    (TriangulateBearingsMidpointSolve : MatX3d -> MatX3d -> Vec3d)
    (centers bearings : MatX3d) (threshold_list : list double)
    (min_angle min_depth : double) :
  acos nan = nan ->
  length bearings = length centers ->
  length centers <= length threshold_list ->
  has_parallax acos bearings min_angle ->
  has_nan (TriangulateBearingsMidpointSolve centers bearings) ->
  TriangulateBearingsMidpoint acos Vec3d_default
    TriangulateBearingsMidpointSolve centers bearings threshold_list
    min_angle min_depth
  = Returns ((true, TriangulateBearingsMidpointSolve centers bearings),
             [MidpointSolve_call centers bearings]).
Proof.
  intros Hacos Hlen Hthr Hpar Hnan.
  apply TriangulateBearingsMidpoint_success; [done..|].
  split; [done|]. split; [|done].
  intros i c b t _ _ _. apply view_accepted_of_nan; [done|].
  by apply sub3_nan.
Qed.

(** Two rays along the same line: the system of the midpoint method is
    singular and the modelled solve divides zero by zero. *)
Lemma nan_midpoint_is_reported_as_success_witness :
  TriangulateBearingsMidpoint acos_reference Vec3d_Zero MidpointSolve_spec
    [mkVec3d 0 0 0; mkVec3d 0 0 2] [ahead; ahead] [0; 0]%float
    0%float 0x1p-10%float
  = Returns ((true, MidpointSolve_spec [mkVec3d 0 0 0; mkVec3d 0 0 2]
                      [ahead; ahead]),
             [MidpointSolve_call [mkVec3d 0 0 0; mkVec3d 0 0 2]
                [ahead; ahead]]).
Proof.
  apply (nan_midpoint_is_reported_as_success acos_reference Vec3d_Zero
           MidpointSolve_spec).
  - reflexivity.
  - reflexivity.
  - simpl. lia.
  - exists 1, 0, ahead, ahead.
    split; [lia|]. split; [reflexivity|]. split; [reflexivity|].
    vm_compute. reflexivity.
  - right. right. vm_compute. reflexivity.
Defined.

(** X8.  DLT divides by the fourth component without looking at it.  When
    that component of the solution is zero (a point at infinity), the
    division leaves 0/0 = NaN in the fourth place, every projected ray is
    NaN and (libm's [acos(NaN)] being NaN) no view is rejected: a call that
    passes the gate returns success with the quotients by zero as point. *)
Theorem DLT_point_at_infinity_is_reported_as_success
    (acos : double -> double) (Vec3d_default : Vec3d) (Vec4d_default : Vec4d)
    (JacobiSVD_matrixV : MatX4d -> nat -> nat -> double)
    (Rts : list Mat34d) (bearings : MatX3d)
    (threshold min_angle min_depth : double) (X0 : Vec4d) :
  acos nan = nan ->
  length bearings = length Rts ->
  has_parallax acos (world_rays Rts bearings) min_angle ->
  TriangulateBearingsDLTSolve Vec4d_default JacobiSVD_matrixV bearings Rts
  = Returns X0 ->
  PrimFloat.eqb (w4 X0) 0 = true ->
  TriangulateBearingsDLT acos Vec3d_default Vec4d_default JacobiSVD_matrixV
    Rts bearings threshold min_angle min_depth
  = Returns ((true, mkVec3d (x4 X0 / w4 X0) (y4 X0 / w4 X0) (z4 X0 / w4 X0)),
             [DLTSolve_call bearings Rts]).
Proof.
  intros Hacos Hlen Hpar HX0 Hw.
  apply (TriangulateBearingsDLT_success acos Vec3d_default Vec4d_default
           JacobiSVD_matrixV Rts bearings threshold min_angle min_depth
           X0 _ _ Hlen HX0).
  split; [done|]. split; [|done].
  intros i Rt b _ _. apply view_accepted_of_nan; [done|].
  apply mul34_nan. cbn. by apply fdiv_zero_self.
Qed.

Lemma DLT_point_at_infinity_is_reported_as_success_witness :
  TriangulateBearingsDLT acos_reference Vec3d_Zero (mkVec4d 0 0 0 0)
    matrixV_infinity [Rt_front; Rt_shifted] [ahead; ahead]
    0%float 0%float 0x1p-10%float
  = Returns ((true, mkVec3d (0 / 0) (0 / 0) (1 / 0)),
             [DLTSolve_call [ahead; ahead] [Rt_front; Rt_shifted]]).
Proof.
  apply (DLT_point_at_infinity_is_reported_as_success acos_reference
           Vec3d_Zero (mkVec4d 0 0 0 0) matrixV_infinity
           [Rt_front; Rt_shifted] [ahead; ahead]
           0%float 0%float 0x1p-10%float (mkVec4d 0 0 1 0)).
  - reflexivity.
  - reflexivity.
  - exists 1, 0, ahead, ahead.
    split; [lia|]. split; [reflexivity|]. split; [reflexivity|].
    vm_compute. reflexivity.
  - reflexivity.
  - reflexivity.
Defined.

(** ** Sizes the functions rely on *)

(** A loop without a stop condition is undefined as soon as one index in
    its range has an undefined body, the earlier ones returning. *)
Lemma for_loop_undefined_at {St : Type} (body : nat -> St -> outcome St)
    (n lo k : nat) (s : St) :
  lo <= k < lo + n ->
  (forall i s1, lo <= i < k -> exists s2, body i s1 = Returns s2) ->
  (forall s1, body k s1 = Undefined) ->
  for_loop n lo (fun _ => true) body s = Undefined.
Proof.
  revert lo s. induction n as [|n IH]; intros lo s Hk Hret Hund; [lia|].
  cbn [for_loop]. destruct (decide (lo = k)) as [->|Hne].
  - by rewrite Hund.
  - destruct (Hret lo s) as (s2 & ->); [lia|]. cbn [mbind outcome_bind].
    apply IH; [lia| |done]. intros i s1 Hi. apply Hret. lia.
Qed.

(** X9.  [TriangulateTwoBearingsMidpointMany] is sized by [bearings1]
    alone.  With at least as many rows in [bearings2] it returns one pair
    per row of [bearings1], pair [i] being the two-ray solve of rows [i],
    and the rows of [bearings2] beyond are ignored; with fewer rows in
    [bearings2] it reads [bearings2] out of range. *)
Theorem two_view_batch_is_sized_by_the_first_batch
    (Vec3d_default : Vec3d)
    (TriangulateTwoBearingsMidpointSolve :
       Vec3d * Vec3d -> Vec3d * Vec3d -> TriangulationResult)
    (bearings1 bearings2 : MatX3d) (rotation : Mat3d) (translation : Vec3d) :
  (length bearings1 <= length bearings2 ->
   TriangulateTwoBearingsMidpointMany Vec3d_default
     TriangulateTwoBearingsMidpointSolve bearings1 bearings2 rotation
     translation
   = Returns (zip_with
                (fun b1 b2 =>
                   TriangulateTwoBearingsMidpointSolve
                     (Vec3d_Zero, translation) (b1, mul33 rotation b2))
                bearings1 bearings2)) /\
  (length bearings2 < length bearings1 ->
   TriangulateTwoBearingsMidpointMany Vec3d_default
     TriangulateTwoBearingsMidpointSolve bearings1 bearings2 rotation
     translation
   = Undefined).
Proof.
  split; intros Hlen; unfold TriangulateTwoBearingsMidpointMany.
  - match goal with
    | |- context [for_loop _ _ _ ?body _] =>
        destruct (for_loop_total
          (fun k (l : list TriangulationResult) =>
             length l = length bearings1 /\
             take k l
             = zip_with
                 (fun b1 b2 =>
                    TriangulateTwoBearingsMidpointSolve
                      (Vec3d_Zero, translation) (b1, mul33 rotation b2))
                 (take k bearings1) (take k bearings2))
          body (length bearings1) 0
          (replicate (length bearings1) (false, Vec3d_default)))
          as (l & Hloop & Hl & Htake)
    end.
    + split; [by rewrite length_replicate|done].
    + intros k l Hk [Hl Htake].
      destruct (row_in_range bearings1 k) as (b1 & Hb1 & ->); [lia|].
      destruct (row_in_range bearings2 k) as (b2 & Hb2 & ->); [lia|].
      eexists. split; [done|]. split; [by rewrite length_insert|].
      rewrite (take_S_r _ _ _ Hb1), (take_S_r _ _ _ Hb2).
      rewrite zip_with_app by (rewrite !length_take; lia).
      rewrite <- Htake.
      erewrite take_S_r; [|by apply list_lookup_insert_eq; lia].
      by rewrite take_insert_ge by lia.
    + etransitivity; [exact Hloop|]. f_equal. cbn [Nat.add] in Htake.
      rewrite take_ge in Htake by lia. rewrite Htake.
      rewrite (take_ge bearings1) by lia.
      by rewrite zip_with_take_r' by lia.
  - apply for_loop_undefined_at with (k := length bearings2); [lia| |].
    + intros i l Hi.
      destruct (row_in_range bearings1 i) as (b1 & Hb1 & ->); [lia|].
      destruct (row_in_range bearings2 i) as (b2 & Hb2 & ->); [lia|].
      by eexists.
    + intros l.
      destruct (row_in_range bearings1 (length bearings2))
        as (b1 & Hb1 & ->); [lia|].
      by rewrite (row_out_of_range bearings2).
Qed.

Lemma two_view_batch_is_sized_by_the_first_batch_witness :
  TriangulateTwoBearingsMidpointMany Vec3d_Zero TwoBearingsMidpointSolve_spec
    [ahead] [ahead; mkVec3d 0 1 0] quarter_turn (mkVec3d 1 0 1)
  = Returns (zip_with
               (fun b1 b2 =>
                  TwoBearingsMidpointSolve_spec
                    (Vec3d_Zero, mkVec3d 1 0 1) (b1, mul33 quarter_turn b2))
               [ahead] [ahead; mkVec3d 0 1 0]) /\
  TriangulateTwoBearingsMidpointMany Vec3d_Zero TwoBearingsMidpointSolve_spec
    [ahead; ahead] [ahead] quarter_turn (mkVec3d 1 0 1)
  = Undefined.
Proof.
  split.
  - apply (proj1 (two_view_batch_is_sized_by_the_first_batch Vec3d_Zero
                    TwoBearingsMidpointSolve_spec [ahead]
                    [ahead; mkVec3d 0 1 0] quarter_turn (mkVec3d 1 0 1))).
    simpl. lia.
  - apply (proj2 (two_view_batch_is_sized_by_the_first_batch Vec3d_Zero
                    TwoBearingsMidpointSolve_spec [ahead; ahead]
                    [ahead] quarter_turn (mkVec3d 1 0 1))).
    simpl. lia.
Defined.

(** X10.  [TriangulateBearingsDLTSolve] asserts that there are as many
    bearings as poses: it returns exactly then.  [TriangulateBearingsDLT]
    itself only counts the poses, so with more bearings than poses a call
    that passes the gate stops at that assertion. *)
Theorem DLT_solve_requires_equal_sizes
    (acos : double -> double) (Vec3d_default : Vec3d) (Vec4d_default : Vec4d)
    (JacobiSVD_matrixV : MatX4d -> nat -> nat -> double)
    (Rts : list Mat34d) (bearings : MatX3d) :
  ((exists X,
      TriangulateBearingsDLTSolve Vec4d_default JacobiSVD_matrixV bearings Rts
      = Returns X) <->
   length bearings = length Rts) /\
  (forall threshold min_angle min_depth,
     length Rts < length bearings ->
     has_parallax acos (world_rays Rts bearings) min_angle ->
     TriangulateBearingsDLT acos Vec3d_default Vec4d_default JacobiSVD_matrixV
       Rts bearings threshold min_angle min_depth
     = Undefined).
Proof.
  split.
  - split.
    + intros [X HX]. unfold TriangulateBearingsDLTSolve in HX.
      destruct (length bearings =? length Rts)%nat eqn:E; [|done].
      by apply Nat.eqb_eq.
    + intros Hlen.
      destruct (TriangulateBearingsDLTSolve_spec Vec4d_default
                  JacobiSVD_matrixV bearings Rts Hlen) as (A & _ & HX).
      eauto.
  - intros threshold min_angle min_depth Hlen Hpar.
    unfold TriangulateBearingsDLT, traced_bind, untraced, solving.
    rewrite DLT_parallax_spec by lia.
    rewrite <- (world_rays_length Rts bearings) at 1 by lia.
    rewrite (proj2 (has_parallax_decided acos _ min_angle) Hpar).
    cbn [mbind outcome_bind negb]. unfold TriangulateBearingsDLTSolve.
    destruct (length bearings =? length Rts)%nat eqn:E; [|done].
    apply Nat.eqb_eq in E. lia.
Qed.

Lemma DLT_solve_requires_equal_sizes_witness :
  TriangulateBearingsDLT acos_reference Vec3d_Zero (mkVec4d 0 0 0 0)
    matrixV_origin [Rt_front; Rt_side] [ahead; ahead; ahead]
    0x1p-7%float 0x1p-3%float 0x1p-10%float
  = Undefined.
Proof.
  apply (proj2 (DLT_solve_requires_equal_sizes acos_reference Vec3d_Zero
                  (mkVec4d 0 0 0 0) matrixV_origin [Rt_front; Rt_side]
                  [ahead; ahead; ahead])).
  - simpl. lia.
  - exists 1, 0, (block33T_mul Rt_side ahead), (block33T_mul Rt_front ahead).
    split; [lia|]. split; [reflexivity|]. split; [reflexivity|].
    vm_compute. reflexivity.
Defined.

(** ** BearingErrorCost::Evaluate *)

Section EvaluateFacts.
Variable Normalize_Forward : Vec3d -> Vec3d.
Variable Normalize_ForwardDerivatives : Vec3d -> Vec3d * list double.

Lemma BearingErrorCost_Evaluate_spec (centers bearings : MatX3d)
    (point : Vec3d) (jacobians : option bool) :
  length bearings <= length centers ->
  BearingErrorCost_Evaluate Normalize_Forward Normalize_ForwardDerivatives
    centers bearings point jacobians
  = Returns
      (mkEvaluation
         (bearing_residuals
            (match jacobians with
             | None => Normalize_Forward
             | Some _ => fun p => (Normalize_ForwardDerivatives p).1
             end) centers bearings point)
         (match jacobians with
          | Some true =>
              Some (bearing_jacobians Normalize_ForwardDerivatives centers
                      bearings point)
          | _ => None
          end)).
Proof.
  intros Hlen. unfold BearingErrorCost_Evaluate.
  match goal with
  | |- context [for_loop _ _ _ ?body _] =>
      destruct (for_loop_total
        (fun k (acc : list double * list double) =>
           acc.1 = bearing_residuals
                     (match jacobians with
                      | None => Normalize_Forward
                      | Some _ => fun p => (Normalize_ForwardDerivatives p).1
                      end) (take k centers) (take k bearings) point /\
           (is_Some jacobians ->
            acc.2 = bearing_jacobians Normalize_ForwardDerivatives
                      (take k centers) (take k bearings) point))
        body (length bearings) 0 ([], [])) as (acc & Hloop & Hres & Hjac)
  end.
  - done.
  - intros k acc Hk [Hres Hjac].
    destruct (row_in_range centers k) as (c & Hc & ->); [lia|].
    destruct (row_in_range bearings k) as (b & Hb & ->); [lia|].
    cbn [mbind outcome_bind].
    rewrite (take_S_r _ _ _ Hc), (take_S_r _ _ _ Hb).
    unfold bearing_residuals, bearing_jacobians in *.
    rewrite !zip_with_app by (rewrite !length_take; lia).
    rewrite !flat_map_app. cbn [zip_with flat_map fst snd].
    rewrite !app_nil_r.
    destruct jacobians as [flag|].
    + destruct (Normalize_ForwardDerivatives (sub3 point c)) as [pr jac] eqn:E.
      eexists. split; [done|]. cbn [fst snd]. split.
      * by rewrite Hres.
      * intros _. by rewrite Hjac by done.
    + eexists. split; [done|]. cbn [fst snd]. split.
      * by rewrite Hres.
      * by intros [? [=]].
  - rewrite Hloop. cbn [mbind outcome_bind Nat.add] in *.
    assert (zip (take (length bearings) centers)
              (take (length bearings) bearings) = zip centers bearings)
      as Hzip.
    { rewrite (take_ge bearings) by lia.
      apply zip_with_take_l'. lia. }
    unfold bearing_residuals, bearing_jacobians in *.
    rewrite Hzip in Hres, Hjac. rewrite Hres.
    destruct jacobians as [[]|]; try done.
    by rewrite Hjac.
Qed.

Lemma bearing_residuals_length (normalize : Vec3d -> Vec3d)
    (centers bearings : MatX3d) (point : Vec3d) :
  length bearings <= length centers ->
  length (bearing_residuals normalize centers bearings point)
  = 3 * length bearings.
Proof.
  intros Hlen. unfold bearing_residuals.
  rewrite flat_map_constant_length with (c := 3) by done.
  rewrite length_zip_with. lia.
Qed.

End EvaluateFacts.

(** X11.  [Evaluate] writes as many residuals as the constructor declared
    with [set_num_residuals]: for every observation, in order, the three
    coefficients of [Normalize(point - center) - bearing]; centers beyond
    the last bearing are not read.  This holds without Jacobians; with
    them the normalised vector is the one [ForwardDerivatives] returns, and
    the residuals are the same whether or not [jacobians[0]] is a buffer. *)
Theorem Evaluate_writes_the_declared_residuals
    (Normalize_Forward : Vec3d -> Vec3d)
    (Normalize_ForwardDerivatives : Vec3d -> Vec3d * list double)
    (centers bearings : MatX3d) (point : Vec3d) :
  length bearings <= length centers ->
  (exists r,
     BearingErrorCost_Evaluate Normalize_Forward Normalize_ForwardDerivatives
       centers bearings point None
     = Returns (mkEvaluation r None) /\
     r = bearing_residuals Normalize_Forward centers bearings point /\
     length r = BearingErrorCost_num_residuals bearings) /\
  (exists r jacobian,
     BearingErrorCost_Evaluate Normalize_Forward Normalize_ForwardDerivatives
       centers bearings point (Some true)
     = Returns (mkEvaluation r (Some jacobian)) /\
     BearingErrorCost_Evaluate Normalize_Forward Normalize_ForwardDerivatives
       centers bearings point (Some false)
     = Returns (mkEvaluation r None) /\
     r = bearing_residuals (fun p => (Normalize_ForwardDerivatives p).1)
           centers bearings point /\
     length r = BearingErrorCost_num_residuals bearings).
Proof.
  intros Hlen. unfold BearingErrorCost_num_residuals. split.
  - eexists. rewrite BearingErrorCost_Evaluate_spec by done.
    split; [done|]. split; [done|].
    rewrite bearing_residuals_length by done. lia.
  - eexists _, _. rewrite !BearingErrorCost_Evaluate_spec by done.
    split; [done|]. split; [done|]. split; [done|].
    rewrite bearing_residuals_length by done. lia.
Qed.

Lemma Evaluate_writes_the_declared_residuals_witness :
  (exists r,
     BearingErrorCost_Evaluate Forward_identity ForwardDerivatives_identity
       crossing_centers crossing_bearings (mkVec3d 0 0 1) None
     = Returns (mkEvaluation r None) /\
     r = bearing_residuals Forward_identity crossing_centers crossing_bearings
           (mkVec3d 0 0 1) /\
     length r = BearingErrorCost_num_residuals crossing_bearings) /\
  (exists r jacobian,
     BearingErrorCost_Evaluate Forward_identity ForwardDerivatives_identity
       crossing_centers crossing_bearings (mkVec3d 0 0 1) (Some true)
     = Returns (mkEvaluation r (Some jacobian)) /\
     BearingErrorCost_Evaluate Forward_identity ForwardDerivatives_identity
       crossing_centers crossing_bearings (mkVec3d 0 0 1) (Some false)
     = Returns (mkEvaluation r None) /\
     r = bearing_residuals (fun p => (ForwardDerivatives_identity p).1)
           crossing_centers crossing_bearings (mkVec3d 0 0 1) /\
     length r = BearingErrorCost_num_residuals crossing_bearings).
Proof.
  apply (Evaluate_writes_the_declared_residuals Forward_identity
           ForwardDerivatives_identity crossing_centers crossing_bearings
           (mkVec3d 0 0 1)).
  simpl. lia.
Defined.

(** X12.  [Evaluate] runs over the rows of [bearings] and reads the center
    of each: with fewer centers than bearings it reads [centers] out of
    range, with or without Jacobians. *)
Theorem Evaluate_needs_a_center_for_every_bearing
    (Normalize_Forward : Vec3d -> Vec3d)
    (Normalize_ForwardDerivatives : Vec3d -> Vec3d * list double)
    (centers bearings : MatX3d) (point : Vec3d) (jacobians : option bool) :
  length centers < length bearings ->
  BearingErrorCost_Evaluate Normalize_Forward Normalize_ForwardDerivatives
    centers bearings point jacobians
  = Undefined.
Proof.
  intros Hlen. unfold BearingErrorCost_Evaluate.
  rewrite for_loop_undefined_at with (k := length centers); [done|lia| |].
  - intros i acc Hi.
    destruct (row_in_range centers i) as (c & Hc & ->); [lia|].
    destruct (row_in_range bearings i) as (b & Hb & ->); [lia|].
    cbn [mbind outcome_bind].
    destruct jacobians;
      [destruct (Normalize_ForwardDerivatives _)|]; by eexists.
  - intros acc. by rewrite (row_out_of_range centers).
Qed.

Lemma Evaluate_needs_a_center_for_every_bearing_witness :
  BearingErrorCost_Evaluate Forward_identity ForwardDerivatives_identity
    [mkVec3d 0 0 0] crossing_bearings (mkVec3d 0 0 1) None
  = Undefined.
Proof.
  apply (Evaluate_needs_a_center_for_every_bearing Forward_identity
           ForwardDerivatives_identity [mkVec3d 0 0 0] crossing_bearings
           (mkVec3d 0 0 1) None).
  simpl. lia.
Defined.

(** X13.  With a buffer for the Jacobian of the point, [Evaluate] writes the
    blocks of [ForwardDerivatives] observation after observation: when each
    block has [Size * Size] entries the buffer receives
    [num_residuals * Size] of them, the block of observation [i] starting
    at [i * Size * Size]. *)
Theorem Evaluate_writes_one_jacobian_block_per_observation
    (Normalize_Forward : Vec3d -> Vec3d)
    (Normalize_ForwardDerivatives : Vec3d -> Vec3d * list double)
    (centers bearings : MatX3d) (point : Vec3d) :
  length bearings <= length centers ->
  (forall p, length (Normalize_ForwardDerivatives p).2
             = BearingErrorCost_Size * BearingErrorCost_Size) ->
  exists r jacobian,
    BearingErrorCost_Evaluate Normalize_Forward Normalize_ForwardDerivatives
      centers bearings point (Some true)
    = Returns (mkEvaluation r (Some jacobian)) /\
    length jacobian
    = BearingErrorCost_num_residuals bearings * BearingErrorCost_Size /\
    forall i c b, centers !! i = Some c -> bearings !! i = Some b ->
      take (BearingErrorCost_Size * BearingErrorCost_Size)
        (drop (i * (BearingErrorCost_Size * BearingErrorCost_Size)) jacobian)
      = (Normalize_ForwardDerivatives (sub3 point c)).2.
Proof.
  intros Hlen Hnine. eexists _, _.
  rewrite BearingErrorCost_Evaluate_spec by done. split; [done|].
  unfold bearing_jacobians, BearingErrorCost_num_residuals.
  change (BearingErrorCost_Size * BearingErrorCost_Size) with 9 in *.
  change BearingErrorCost_Size with 3.
  split.
  - rewrite flat_map_constant_length with (c := 9) by (intros; apply Hnine).
    rewrite length_zip_with. lia.
  - assert (forall (l : list (Vec3d * Vec3d)) i c b,
              l !! i = Some (c, b) ->
              take 9 (drop (i * 9)
                (flat_map (fun cb : Vec3d * Vec3d =>
                   (Normalize_ForwardDerivatives (sub3 point cb.1)).2) l))
              = (Normalize_ForwardDerivatives (sub3 point c)).2) as Hblock.
    { induction l as [|cb l IH]; intros [|i] c b Hi; try done.
      - injection Hi as ->. cbn [flat_map fst].
        change (0 * 9) with 0. rewrite drop_0.
        rewrite take_app_length'; [done|by rewrite Hnine].
      - cbn [flat_map]. replace (S i * 9) with (9 + i * 9) by lia.
        rewrite <- drop_drop, drop_app_length'; [|by rewrite Hnine].
        by apply (IH i c b). }
    intros i c b Hc Hb. apply (Hblock _ i c b).
    rewrite lookup_zip_with, Hc. cbn. by rewrite Hb.
Qed.

Lemma Evaluate_writes_one_jacobian_block_per_observation_witness :
  exists r jacobian,
    BearingErrorCost_Evaluate Forward_identity ForwardDerivatives_identity
      crossing_centers crossing_bearings (mkVec3d 0 0 1) (Some true)
    = Returns (mkEvaluation r (Some jacobian)) /\
    length jacobian
    = BearingErrorCost_num_residuals crossing_bearings * BearingErrorCost_Size /\
    forall i c b, crossing_centers !! i = Some c ->
      crossing_bearings !! i = Some b ->
      take (BearingErrorCost_Size * BearingErrorCost_Size)
        (drop (i * (BearingErrorCost_Size * BearingErrorCost_Size)) jacobian)
      = (ForwardDerivatives_identity (sub3 (mkVec3d 0 0 1) c)).2.
Proof.
  apply (Evaluate_writes_one_jacobian_block_per_observation Forward_identity
           ForwardDerivatives_identity crossing_centers crossing_bearings
           (mkVec3d 0 0 1)).
  - simpl. lia.
  - intros p. reflexivity.
Defined.

(** ** reprojection_errors_test.cc: what [SetupADiff] seeds *)

(** A loop without a stop condition fails at the first index whose body is
    undefined, when the bodies before it keep the invariant. *)
Lemma for_loop_undefined_inv {St : Type} (Inv : nat -> St -> Prop)
    (body : nat -> St -> outcome St) (n lo k : nat) (s : St) :
  lo <= k < lo + n ->
  Inv lo s ->
  (forall i s1, lo <= i < k -> Inv i s1 ->
     exists s2, body i s1 = Returns s2 /\ Inv (S i) s2) ->
  (forall s1, Inv k s1 -> body k s1 = Undefined) ->
  for_loop n lo (fun _ => true) body s = Undefined.
Proof.
  revert lo s. induction n as [|n IH]; intros lo s Hk Hinv Hret Hund; [lia|].
  cbn [for_loop]. destruct (decide (lo = k)) as [->|Hne].
  - by rewrite Hund.
  - destruct (Hret lo s) as (s2 & -> & Hinv2); [lia|done|].
    cbn [mbind outcome_bind].
    apply IH; [lia|done| |done]. intros i s1 Hi. apply Hret. lia.
Qed.

Lemma VecXd_Unit_in_range (size i : nat) :
  i < size -> VecXd_Unit size i = Returns (unit_row size i).
Proof.
  intros Hi. unfold VecXd_Unit, unit_row.
  by rewrite (proj2 (Nat.ltb_lt i size) Hi).
Qed.

Section SetupADiffFacts.

Import ReprojectionError2DFixture.

Lemma seeded_S (total_size offset k : nat) (src : list double) (v : double) :
  src !! k = Some v ->
  seeded total_size offset (S k) src
  = seeded total_size offset k src
    ++ [mkAScalar v (unit_row total_size (offset + k))].
Proof.
  intros Hv. unfold seeded.
  rewrite (take_S_r src k v Hv), seq_S, fmap_app.
  rewrite zip_with_app; [done|].
  rewrite length_take_le, length_fmap, length_seq; [done|].
  apply lookup_lt_Some in Hv. lia.
Qed.

Lemma seed_loop_step (total_size offset n k : nat) (src : list double)
    (acc : list AScalar) (v : double) :
  src !! k = Some v -> k < n -> offset + n <= total_size ->
  length acc = n ->
  take k acc = seeded total_size offset k src ->
  let acc' := <[k := mkAScalar v (unit_row total_size (offset + k))]> acc in
  length acc' = n /\
  take (S k) acc' = seeded total_size offset (S k) src.
Proof.
  intros Hv Hk Htot Hlen Htake acc'. subst acc'. split.
  - by rewrite length_insert.
  - rewrite (take_S_r _ k (mkAScalar v (unit_row total_size (offset + k)))).
    + rewrite take_insert_ge by lia. rewrite Htake. by rewrite (seeded_S _ _ _ _ v).
    + apply list_lookup_insert_eq. lia.
Qed.

(** One loop of [SetupADiff] over a source that is long enough. *)
Lemma seed_loop_spec (total_size offset n : nat) (src : list double)
    (adiff : list AScalar) :
  n <= length src -> offset + n <= total_size -> length adiff = n ->
  seed_loop total_size offset n src adiff
  = Returns (seeded total_size offset n src).
Proof.
  intros Hsrc Htot Hlen. unfold seed_loop.
  match goal with |- context [for_loop _ _ _ ?body _] =>
    destruct (for_loop_total
                (fun k acc => length acc = n /\
                              take k acc = seeded total_size offset k src)
                body n 0 adiff) as (s' & Hs & Hlen' & Htake)
  end.
  - split; [done|]. by rewrite take_0.
  - intros k acc Hk [Hl Ht].
    destruct (row_in_range src k) as (v & Hv & ->); [lia|].
    rewrite VecXd_Unit_in_range by lia.
    destruct (row_in_range acc k) as (a & _ & ->); [lia|].
    cbn [mbind outcome_bind]. eexists. split; [done|].
    apply (seed_loop_step total_size offset n k src acc v); [done|lia|done..].
  - cbn [Nat.add] in Htake. rewrite Hs. f_equal. rewrite <- Htake.
    symmetry. apply take_ge. lia.
Qed.

(** The same loop over a source that is too short. *)
Lemma seed_loop_short (total_size offset n : nat) (src : list double)
    (adiff : list AScalar) :
  length src < n -> offset + n <= total_size -> length adiff = n ->
  seed_loop total_size offset n src adiff = Undefined.
Proof.
  intros Hsrc Htot Hlen. unfold seed_loop.
  apply for_loop_undefined_inv
    with (k := length src)
         (Inv := fun k acc => length acc = n /\
                   take k acc = seeded total_size offset k src).
  - lia.
  - split; [done|]. by rewrite take_0.
  - intros k acc Hk [Hl Ht].
    destruct (row_in_range src k) as (v & Hv & ->); [lia|].
    rewrite VecXd_Unit_in_range by lia.
    destruct (row_in_range acc k) as (a & _ & ->); [lia|].
    cbn [mbind outcome_bind]. eexists. split; [done|].
    apply (seed_loop_step total_size offset n k src acc v); [done|lia|done..].
  - intros acc _. by rewrite (row_out_of_range src).
Qed.

Lemma seeded_values (total_size offset n : nat) (src : list double) :
  value <$> seeded total_size offset n src = take n src.
Proof.
  unfold seeded. apply fmap_zip_with_l; [done|].
  rewrite length_take, length_fmap, length_seq. lia.
Qed.

Lemma seeded_derivatives (total_size offset n : nat) (src : list double) :
  n <= length src ->
  derivatives <$> seeded total_size offset n src
  = unit_row total_size <$> seq offset n.
Proof.
  intros Hn. unfold seeded. apply fmap_zip_with_r; [done|].
  rewrite length_take, length_fmap, length_seq. lia.
Qed.

End SetupADiffFacts.

(** X14.  [SetupADiff] gives every input scalar a derivative slot of its
    own, in the order point, instance pose, camera pose, camera
    parameters: read in that order the inputs carry the fixture's values
    followed by the first [size] entries of [camera], and their derivative
    vectors are the rows of the identity matrix of size [total_size], in
    order.  A [camera] array with fewer than [size] entries is read out of
    range. *)
Theorem SetupADiff_seeds_the_identity_matrix
    (AScalar_default : AScalar) (size : nat) (camera : list double) :
  let total_size :=
    ReprojectionError2DFixture.size_point + ReprojectionError2DFixture.size_rt
    + ReprojectionError2DFixture.size_rt + size in
  (size <= length camera ->
   exists r,
     ReprojectionError2DFixture.SetupADiff AScalar_default size camera
     = Returns r /\
     value <$> ReprojectionError2DFixture.all_inputs r
     = ReprojectionError2DFixture.point
       ++ ReprojectionError2DFixture.rt_instance
       ++ ReprojectionError2DFixture.rt_camera ++ take size camera /\
     derivatives <$> ReprojectionError2DFixture.all_inputs r
     = unit_row total_size <$> seq 0 total_size) /\
  (length camera < size ->
   ReprojectionError2DFixture.SetupADiff AScalar_default size camera
   = Undefined).
Proof.
  intros total_size. subst total_size.
  unfold ReprojectionError2DFixture.SetupADiff.
  unfold ReprojectionError2DFixture.size_point,
    ReprojectionError2DFixture.size_rt.
  rewrite (seed_loop_spec _ 0 3), (seed_loop_spec _ 3 6),
    (seed_loop_spec _ (3 + 6) 6)
    by (rewrite ?length_replicate; cbn [length]; try done; lia).
  cbn [mbind outcome_bind]. split.
  - intros Hsize.
    rewrite seed_loop_spec by (rewrite ?length_replicate; lia).
    cbn [mbind outcome_bind]. eexists. split; [done|].
    unfold ReprojectionError2DFixture.all_inputs.
    cbn [ReprojectionError2DFixture.point_adiff
         ReprojectionError2DFixture.rt_instance_adiff
         ReprojectionError2DFixture.rt_camera_adiff
         ReprojectionError2DFixture.camera_adiff].
    rewrite !fmap_app, !seeded_values.
    rewrite !seeded_derivatives by (cbn; lia).
    split; [done|].
    by rewrite <- !fmap_app.
  - intros Hsize.
    rewrite seed_loop_short by (rewrite ?length_replicate; lia). done.
Qed.

Lemma SetupADiff_seeds_the_identity_matrix_witness :
  (exists r,
     ReprojectionError2DFixture.SetupADiff AScalar_empty 3
       perspective_camera
     = Returns r /\
     value <$> ReprojectionError2DFixture.all_inputs r
     = ReprojectionError2DFixture.point
       ++ ReprojectionError2DFixture.rt_instance
       ++ ReprojectionError2DFixture.rt_camera ++ take 3 perspective_camera /\
     derivatives <$> ReprojectionError2DFixture.all_inputs r
     = unit_row 18 <$> seq 0 18) /\
  ReprojectionError2DFixture.SetupADiff AScalar_empty 4 perspective_camera
  = Undefined.
Proof.
  split.
  - apply (proj1 (SetupADiff_seeds_the_identity_matrix AScalar_empty 3
                    perspective_camera)).
    simpl. lia.
  - apply (proj2 (SetupADiff_seeds_the_identity_matrix AScalar_empty 4
                    perspective_camera)).
    simpl. lia.
Defined.

(** ** reprojection_errors_test.cc: what [CheckJacobians] compares *)

Section CheckJacobiansFacts.

Import ReprojectionError2DFixture.

Variable ASSERT_NEAR : double -> double -> double -> bool.

(** A double loop of [CheckJacobians] over buffers that are large enough
    fails exactly when one of its comparisons does. *)
Lemma check_block_spec (rows cols offset : nat) (res : list AScalar)
    (jac : list double) (b0 : bool) :
  length res = rows ->
  (forall r, r ∈ res -> offset + cols <= length (derivatives r)) ->
  rows * cols <= length jac ->
  exists b,
    check_block ASSERT_NEAR rows cols offset res jac b0 = Returns (b0 || b) /\
    (b = false <->
     forall i r j d a, res !! i = Some r -> j < cols ->
       derivatives r !! (offset + j) = Some d ->
       jac !! (i * cols + j) = Some a ->
       ASSERT_NEAR d a eps = true).
Proof.
  intros Hres Hder Hjac.
  set (f := fun i j =>
         negb (ASSERT_NEAR
                 (nth (offset + j) (derivatives (nth i res AScalar_empty))
                    0%float)
                 (nth (i * cols + j) jac 0%float) eps)).
  exists (any_in (fun i => any_in (f i) 0 cols) 0 rows). split.
  - unfold check_block. apply for_loop_flag. intros i Hi.
    rewrite (for_loop_flag (f i)); [done|]. intros j Hj.
    destruct (row_in_range res i) as (r & Hr & ->); [lia|].
    cbn [mbind outcome_bind].
    destruct (row_in_range (derivatives r) (offset + j)) as (d & Hd & ->).
    { pose proof (Hder r (list_elem_of_lookup_2 _ _ _ Hr)). lia. }
    destruct (row_in_range jac (i * cols + j)) as (a & Ha & ->); [nia|].
    cbn [mbind outcome_bind]. unfold f.
    rewrite !nth_lookup, Hr. cbn [from_option id]. by rewrite Hd, Ha.
  - rewrite any_in_false. split.
    + intros H i r j d a Hr Hj Hd Ha.
      assert (i < rows) as Hi by (apply lookup_lt_Some in Hr; lia).
      specialize (H i ltac:(lia)). rewrite any_in_false in H.
      specialize (H j ltac:(lia)). unfold f in H.
      rewrite !nth_lookup, Hr in H. cbn [from_option id] in H.
      rewrite Hd, Ha in H. cbn [from_option id] in H.
      by apply negb_false_iff in H.
    + intros H i Hi. apply any_in_false. intros j Hj.
      destruct (row_in_range res i) as (r & Hr & _); [lia|].
      destruct (row_in_range (derivatives r) (offset + j)) as (d & Hd & _).
      { pose proof (Hder r (list_elem_of_lookup_2 _ _ _ Hr)). lia. }
      destruct (row_in_range jac (i * cols + j)) as (a & Ha & _); [nia|].
      unfold f. rewrite !nth_lookup, Hr. cbn [from_option id]. rewrite Hd, Ha.
      cbn [from_option id]. apply negb_false_iff. by apply (H i r j d a); [|lia|..].
Qed.

(** The columns of [analytic_row] are the entries that the four double
    loops read. *)
Lemma analytic_row_lookup (jacs : AnalyticJacobians) (size : nat)
    (jac_camera : list double) (i : nat) :
  i < 2 ->
  length (jac_point jacs) = 2 * 3 ->
  length (jac_rt_instance jacs) = 2 * 6 ->
  length (jac_rt_camera jacs) = 2 * 6 ->
  length jac_camera = 2 * size ->
  length (analytic_row jacs size jac_camera i) = 3 + 6 + 6 + size /\
  (forall j, j < 3 ->
     analytic_row jacs size jac_camera i !! (0 + j)
     = jac_point jacs !! (i * 3 + j)) /\
  (forall j, j < 6 ->
     analytic_row jacs size jac_camera i !! (3 + j)
     = jac_rt_instance jacs !! (i * 6 + j)) /\
  (forall j, j < 6 ->
     analytic_row jacs size jac_camera i !! (3 + 6 + j)
     = jac_rt_camera jacs !! (i * 6 + j)) /\
  (forall j, j < size ->
     analytic_row jacs size jac_camera i !! (3 + 6 + 6 + j)
     = jac_camera !! (i * size + j)).
Proof.
  intros Hi Hp Hri Hrc Hc. unfold analytic_row, size_point, size_rt.
  set (a := take 3 (drop (i * 3) (jac_point jacs))).
  set (b := take 6 (drop (i * 6) (jac_rt_instance jacs))).
  set (c := take 6 (drop (i * 6) (jac_rt_camera jacs))).
  set (d := take size (drop (i * size) jac_camera)).
  assert (length a = 3) as Ha
    by (unfold a; rewrite length_take, length_drop; lia).
  assert (length b = 6) as Hb
    by (unfold b; rewrite length_take, length_drop; lia).
  assert (length c = 6) as Hc'
    by (unfold c; rewrite length_take, length_drop; lia).
  assert (length d = size) as Hd
    by (unfold d; rewrite length_take, length_drop; nia).
  split; [rewrite !length_app; lia|].
  split; [|split; [|split]]; intros j Hj.
  - rewrite lookup_app_l by lia. unfold a.
    rewrite lookup_take_lt by lia. by rewrite lookup_drop.
  - rewrite lookup_app_r by lia. rewrite lookup_app_l by lia.
    replace (3 + j - length a) with j by lia. unfold b.
    rewrite lookup_take_lt by lia. by rewrite lookup_drop.
  - rewrite lookup_app_r by lia. rewrite lookup_app_r by lia.
    rewrite lookup_app_l by lia.
    replace (3 + 6 + j - length a - length b) with j by lia. unfold c.
    rewrite lookup_take_lt by lia. by rewrite lookup_drop.
  - rewrite lookup_app_r by lia. rewrite lookup_app_r by lia.
    rewrite lookup_app_r by lia.
    replace (3 + 6 + 6 + j - length a - length b - length c) with j by lia.
    unfold d. rewrite lookup_take_lt by lia. by rewrite lookup_drop.
Qed.

End CheckJacobiansFacts.

(** X15.  [CheckJacobians] compares every derivative slot of both residuals
    with the analytic Jacobians, aligned with the seeds of [SetupADiff]:
    with buffers of the declared sizes it returns, and every assertion holds
    exactly when, for each residual, all [total_size] derivatives are near
    the row of the analytic Jacobian whose columns are ordered point,
    instance pose, camera pose, camera. *)
Theorem CheckJacobians_compares_every_slot
    (ASSERT_NEAR : double -> double -> double -> bool)
    (residual_adiff : list AScalar)
    (jacs : ReprojectionError2DFixture.AnalyticJacobians) (size : nat)
    (jac_camera : list double) :
  length residual_adiff = ReprojectionError2DFixture.size_residual ->
  (forall r, r ∈ residual_adiff ->
     length (derivatives r)
     = ReprojectionError2DFixture.size_point
       + ReprojectionError2DFixture.size_rt
       + ReprojectionError2DFixture.size_rt + size) ->
  length (ReprojectionError2DFixture.jac_point jacs)
  = ReprojectionError2DFixture.size_residual
    * ReprojectionError2DFixture.size_point ->
  length (ReprojectionError2DFixture.jac_rt_instance jacs)
  = ReprojectionError2DFixture.size_residual
    * ReprojectionError2DFixture.size_rt ->
  length (ReprojectionError2DFixture.jac_rt_camera jacs)
  = ReprojectionError2DFixture.size_residual
    * ReprojectionError2DFixture.size_rt ->
  length jac_camera = ReprojectionError2DFixture.size_residual * size ->
  exists passed,
    ReprojectionError2DFixture.CheckJacobians ASSERT_NEAR residual_adiff jacs
      size jac_camera
    = Returns passed /\
    (passed = true <->
     forall i r, residual_adiff !! i = Some r ->
       Forall2 (fun d a => ASSERT_NEAR d a ReprojectionError2DFixture.eps = true)
         (derivatives r)
         (ReprojectionError2DFixture.analytic_row jacs size jac_camera i)).
Proof.
  unfold ReprojectionError2DFixture.size_residual,
    ReprojectionError2DFixture.size_point, ReprojectionError2DFixture.size_rt.
  intros Hres Hder Hp Hri Hrc Hc.
  unfold ReprojectionError2DFixture.CheckJacobians,
    ReprojectionError2DFixture.size_residual,
    ReprojectionError2DFixture.size_point, ReprojectionError2DFixture.size_rt.
  destruct (check_block_spec ASSERT_NEAR 2 size (3 + 6 + 6) residual_adiff
              jac_camera false) as (b1 & -> & H1);
    [done|by intros r Hr; rewrite (Hder r Hr)|lia|].
  cbn [mbind outcome_bind].
  destruct (check_block_spec ASSERT_NEAR 2 3 0 residual_adiff
              (ReprojectionError2DFixture.jac_point jacs) (false || b1))
    as (b2 & -> & H2);
    [done|by intros r Hr; rewrite (Hder r Hr); lia|lia|].
  cbn [mbind outcome_bind].
  destruct (check_block_spec ASSERT_NEAR 2 6 3 residual_adiff
              (ReprojectionError2DFixture.jac_rt_instance jacs)
              (false || b1 || b2))
    as (b3 & -> & H3);
    [done|by intros r Hr; rewrite (Hder r Hr); lia|lia|].
  cbn [mbind outcome_bind].
  destruct (check_block_spec ASSERT_NEAR 2 6 (3 + 6) residual_adiff
              (ReprojectionError2DFixture.jac_rt_camera jacs)
              (false || b1 || b2 || b3))
    as (b4 & -> & H4);
    [done|by intros r Hr; rewrite (Hder r Hr); lia|lia|].
  cbn [mbind outcome_bind]. eexists. split; [done|].
  rewrite negb_true_iff, !orb_false_iff, H1, H2, H3, H4.
  split.
  - intros ((((_ & Hc1) & Hp1) & Hri1) & Hrc1) i r Hr.
    assert (i < 2) as Hi by (apply lookup_lt_Some in Hr; lia).
    destruct (analytic_row_lookup jacs size jac_camera i Hi Hp Hri Hrc Hc)
      as (Hlen & Lp & Lri & Lrc & Lc).
    apply Forall2_same_length_lookup. split.
    { rewrite Hlen. apply Hder. by apply list_elem_of_lookup_2 in Hr. }
    intros k d a Hd Ha.
    assert (k < 3 + 6 + 6 + size) as Hk
      by (apply lookup_lt_Some in Ha; lia).
    destruct (decide (k < 3)) as [Hk1|Hk1].
    { apply (Hp1 i r k d a); [done|lia|done|].
      by rewrite <- (Lp k Hk1). }
    destruct (decide (k < 3 + 6)) as [Hk2|Hk2].
    { replace k with (3 + (k - 3)) in Hd, Ha by lia.
      apply (Hri1 i r (k - 3) d a); [done|lia|done|].
      by rewrite <- (Lri (k - 3)) by lia. }
    destruct (decide (k < 3 + 6 + 6)) as [Hk3|Hk3].
    { replace k with (3 + 6 + (k - 9)) in Hd, Ha by lia.
      apply (Hrc1 i r (k - 9) d a); [done|lia|done|].
      by rewrite <- (Lrc (k - 9)) by lia. }
    replace k with (3 + 6 + 6 + (k - 15)) in Hd, Ha by lia.
    apply (Hc1 i r (k - 15) d a); [done|lia|done|].
    by rewrite <- (Lc (k - 15)) by lia.
  - intros H.
    assert (forall i r, residual_adiff !! i = Some r ->
              forall k d a, derivatives r !! k = Some d ->
                ReprojectionError2DFixture.analytic_row jacs size jac_camera i
                  !! k = Some a ->
                ASSERT_NEAR d a ReprojectionError2DFixture.eps = true) as H'.
    { intros i r Hr k d a Hd Ha. specialize (H i r Hr).
      apply Forall2_same_length_lookup in H as [_ H]. by apply (H k). }
    assert (forall i r, residual_adiff !! i = Some r -> i < 2) as Hlt
      by (intros i r Hr; apply lookup_lt_Some in Hr; lia).
    split; [split; [split; [split; [done|]|]|]|];
      intros i r j d a Hr Hj Hd Ha;
      destruct (analytic_row_lookup jacs size jac_camera i (Hlt i r Hr)
                  Hp Hri Hrc Hc) as (Hlen & Lp & Lri & Lrc & Lc).
    + apply (H' i r Hr (3 + 6 + 6 + j) d a); [done|]. by rewrite Lc.
    + apply (H' i r Hr (0 + j) d a); [done|]. by rewrite Lp.
    + apply (H' i r Hr (3 + j) d a); [done|]. by rewrite Lri.
    + apply (H' i r Hr (3 + 6 + j) d a); [done|]. by rewrite Lrc.
Qed.

Lemma CheckJacobians_compares_every_slot_witness :
  exists passed,
    ReprojectionError2DFixture.CheckJacobians NEAR_reference
      zero_residual_adiff zero_jacobians 3 (replicate 6 0%float)
    = Returns passed /\
    (passed = true <->
     forall i r, zero_residual_adiff !! i = Some r ->
       Forall2
         (fun d a => NEAR_reference d a ReprojectionError2DFixture.eps = true)
         (derivatives r)
         (ReprojectionError2DFixture.analytic_row zero_jacobians 3
            (replicate 6 0%float) i)).
Proof.
  apply (CheckJacobians_compares_every_slot NEAR_reference
           zero_residual_adiff zero_jacobians 3 (replicate 6 0%float));
    try reflexivity.
  intros r Hr. apply elem_of_replicate in Hr as [-> _]. reflexivity.
Defined.

(** ** The thresholds of the midpoint method, case by case *)

Section ThresholdFacts.
Variable acos : double -> double.
Variable Vec3d_default : Vec3d.
Variable TriangulateBearingsMidpointSolve : MatX3d -> MatX3d -> Vec3d.

(** The post-check stops at a view that is rejected with its threshold,
    whatever follows it in the lists. *)
Lemma Midpoint_postcheck_stops (centers bearings : MatX3d) (X : Vec3d)
    (threshold_list : list double) (min_depth : double) (k : nat) :
  length centers <= length bearings ->
  k < length centers -> k < length threshold_list ->
  Midpoint_rejects acos centers bearings X threshold_list min_depth k = true ->
  Midpoint_postcheck acos centers bearings X threshold_list min_depth
  = Returns true.
Proof.
  intros Hlen Hk Hkt Hrej. unfold Midpoint_postcheck.
  apply for_loop_flag_stop
    with (f := Midpoint_rejects acos centers bearings X threshold_list
                 min_depth) (k := k); [lia| |done].
  intros i Hi.
  destruct (row_in_range centers i) as (c & Hc & ->); [lia|].
  destruct (row_in_range bearings i) as (b & Hb & ->); [lia|].
  destruct (row_in_range threshold_list i) as (t & Ht & ->); [lia|].
  unfold Midpoint_rejects. by rewrite Hc, Hb, Ht.
Qed.

Lemma TriangulateBearingsMidpoint_rejected (centers bearings : MatX3d)
    (threshold_list : list double) (min_angle min_depth : double) (k : nat) :
  length bearings = length centers ->
  some_parallax acos bearings min_angle (length centers) = true ->
  k < length centers -> k < length threshold_list ->
  Midpoint_rejects acos centers bearings
    (TriangulateBearingsMidpointSolve centers bearings) threshold_list
    min_depth k = true ->
  TriangulateBearingsMidpoint acos Vec3d_default
    TriangulateBearingsMidpointSolve centers bearings threshold_list
    min_angle min_depth
  = Returns ((false, Vec3d_default), [MidpointSolve_call centers bearings]).
Proof.
  intros Hlen Hpar Hk Hkt Hrej.
  unfold TriangulateBearingsMidpoint, traced_bind, untraced, solving.
  rewrite Midpoint_parallax_spec by lia. rewrite Hpar.
  cbn [mbind outcome_bind negb].
  by rewrite (Midpoint_postcheck_stops _ _ _ _ _ k) by (done || lia).
Qed.

End ThresholdFacts.

(** C10, as the code has it.  [TriangulateBearingsMidpoint] never looks at
    the length of [threshold_list]; it reads [threshold_list[i]] in the
    post-check only, view by view from view 0, and stops at the first view
    it rejects.  With a bearing for every center:
    - when no pair of views passes the parallax gate the call returns
      failure without a solve, whatever [threshold_list] is;
    - when the gate passes and a view that has a threshold is rejected with
      it, the call returns failure after the solve, whatever the length of
      [threshold_list] is;
    - when the gate passes, every view that has a threshold is accepted
      with it and there is a threshold for every view, the call returns
      success with the solved point;
    - the call reads [threshold_list] past its end, which is undefined,
      exactly when the gate passes, every view that has a threshold is
      accepted with it and there are fewer thresholds than views. *)
Theorem threshold_list_is_read_view_by_view
    (acos : double -> double) (Vec3d_default : Vec3d)
    (TriangulateBearingsMidpointSolve : MatX3d -> MatX3d -> Vec3d)
    (centers bearings : MatX3d) (threshold_list : list double)
    (min_angle min_depth : double) :
  length bearings = length centers ->
  (no_parallax acos bearings min_angle ->
   TriangulateBearingsMidpoint acos Vec3d_default
     TriangulateBearingsMidpointSolve centers bearings threshold_list
     min_angle min_depth
   = Returns ((false, Vec3d_default), [])) /\
  (has_parallax acos bearings min_angle ->
   (exists i c b t,
      centers !! i = Some c /\ bearings !! i = Some b /\
      threshold_list !! i = Some t /\
      view_rejected acos
        (sub3 (TriangulateBearingsMidpointSolve centers bearings) c) b
        t min_depth = true) ->
   TriangulateBearingsMidpoint acos Vec3d_default
     TriangulateBearingsMidpointSolve centers bearings threshold_list
     min_angle min_depth
   = Returns ((false, Vec3d_default),
              [MidpointSolve_call centers bearings])) /\
  (has_parallax acos bearings min_angle ->
   (forall i c b t,
      centers !! i = Some c -> bearings !! i = Some b ->
      threshold_list !! i = Some t ->
      view_accepted acos
        (sub3 (TriangulateBearingsMidpointSolve centers bearings) c) b
        t min_depth) ->
   length centers <= length threshold_list ->
   TriangulateBearingsMidpoint acos Vec3d_default
     TriangulateBearingsMidpointSolve centers bearings threshold_list
     min_angle min_depth
   = Returns ((true, TriangulateBearingsMidpointSolve centers bearings),
              [MidpointSolve_call centers bearings])) /\
  (TriangulateBearingsMidpoint acos Vec3d_default
     TriangulateBearingsMidpointSolve centers bearings threshold_list
     min_angle min_depth
   = Undefined <->
   has_parallax acos bearings min_angle /\
   (forall i c b t,
      centers !! i = Some c -> bearings !! i = Some b ->
      threshold_list !! i = Some t ->
      view_accepted acos
        (sub3 (TriangulateBearingsMidpointSolve centers bearings) c) b
        t min_depth) /\
   length threshold_list < length centers).
Proof.
  intros Hlen.
  set (X := TriangulateBearingsMidpointSolve centers bearings).
  assert (forall k, k < length centers -> k < length threshold_list ->
            Midpoint_rejects acos centers bearings X threshold_list
              min_depth k = true ->
            exists c b t,
              centers !! k = Some c /\ bearings !! k = Some b /\
              threshold_list !! k = Some t /\
              view_rejected acos (sub3 X c) b t min_depth = true) as Hread.
  { intros k Hk Hkt Hrej. unfold Midpoint_rejects in Hrej.
    destruct (centers !! k) as [c|]; [|done].
    destruct (bearings !! k) as [b|]; [|done].
    destruct (threshold_list !! k) as [t|]; [|done].
    by exists c, b, t. }
  assert (has_parallax acos bearings min_angle ->
          (exists i c b t,
             centers !! i = Some c /\ bearings !! i = Some b /\
             threshold_list !! i = Some t /\
             view_rejected acos (sub3 X c) b t min_depth = true) ->
          TriangulateBearingsMidpoint acos Vec3d_default
            TriangulateBearingsMidpointSolve centers bearings threshold_list
            min_angle min_depth
          = Returns ((false, Vec3d_default),
                     [MidpointSolve_call centers bearings])) as Hrejected.
  { intros Hpar (i & c & b & t & Hc & Hb & Ht & Hrej).
    apply TriangulateBearingsMidpoint_rejected with (k := i).
    - done.
    - apply some_parallax_true; [lia|done].
    - by apply lookup_lt_Some in Hc.
    - by apply lookup_lt_Some in Ht.
    - unfold Midpoint_rejects. by rewrite Hc, Hb, Ht. }
  assert (has_parallax acos bearings min_angle ->
          (forall i c b t,
             centers !! i = Some c -> bearings !! i = Some b ->
             threshold_list !! i = Some t ->
             view_accepted acos (sub3 X c) b t min_depth) ->
          length centers <= length threshold_list ->
          TriangulateBearingsMidpoint acos Vec3d_default
            TriangulateBearingsMidpointSolve centers bearings threshold_list
            min_angle min_depth
          = Returns ((true, X), [MidpointSolve_call centers bearings]))
    as Haccepted.
  { intros Hpar Hacc Hthr.
    rewrite TriangulateBearingsMidpoint_spec;
      [|done|done|by apply some_parallax_true; [lia|]].
    cbn zeta.
    rewrite (proj2 (Midpoint_rejects_none acos centers bearings _
                      threshold_list min_depth (length centers))); [done|].
    intros i c b t _. apply Hacc. }
  assert (has_parallax acos bearings min_angle ->
          (forall i c b t,
             centers !! i = Some c -> bearings !! i = Some b ->
             threshold_list !! i = Some t ->
             view_accepted acos (sub3 X c) b t min_depth) ->
          length threshold_list < length centers ->
          TriangulateBearingsMidpoint acos Vec3d_default
            TriangulateBearingsMidpointSolve centers bearings threshold_list
            min_angle min_depth
          = Undefined) as Hoverrun.
  { intros Hpar Hacc Hthr.
    apply TriangulateBearingsMidpoint_overrun; [done|done| |].
    - apply some_parallax_true; [lia|done].
    - intros i Hi. apply any_in_false with (lo := 0) (n := S i); [|lia].
      apply Midpoint_rejects_none. intros j c b t _. apply Hacc. }
  split; [|split; [done|split; [done|split]]].
  - intros Hno. apply TriangulateBearingsMidpoint_gate; [done|].
    by apply some_parallax_false.
  - intros Hund.
    destruct (some_parallax acos bearings min_angle (length centers))
      eqn:Hsome.
    + assert (has_parallax acos bearings min_angle) as Hpar
        by (apply has_parallax_decided; by rewrite Hlen).
      destruct (any_in (Midpoint_rejects acos centers bearings X
                          threshold_list min_depth)
                  0 (length centers `min` length threshold_list)) eqn:Hany.
      * apply any_in_true in Hany as (k & Hk & Hrej).
        destruct (Hread k) as (c & b & t & Hc & Hb & Ht & Hr);
          [lia|lia|done|].
        rewrite Hrejected in Hund; [done|done|by exists k, c, b, t].
      * assert (forall i c b t,
                  centers !! i = Some c -> bearings !! i = Some b ->
                  threshold_list !! i = Some t ->
                  view_accepted acos (sub3 X c) b t min_depth) as Hacc.
        { intros i c b t Hc Hb Ht.
          apply (proj1 (Midpoint_rejects_none acos centers bearings X
                          threshold_list min_depth _) Hany i); [|done..].
          apply lookup_lt_Some in Hc. apply lookup_lt_Some in Ht. lia. }
        split; [done|]. split; [done|].
        destruct (decide (length centers <= length threshold_list))
          as [Hthr|]; [|lia].
        by rewrite Haccepted in Hund.
    + by rewrite TriangulateBearingsMidpoint_gate in Hund.
  - intros (Hpar & Hacc & Hthr). by apply Hoverrun.
Qed.

(** The four cases on concrete views.  Two parallel rays and no threshold:
    the gate fails.  Two rays crossing at (0,0,1) at a right angle: with the
    single threshold -1 the first view is rejected (its angle 0 exceeds -1);
    with a threshold 2^-7 for each view the call succeeds at (0,0,1); with
    that threshold for the first view only the call reads
    [threshold_list[1]]. *)
Lemma threshold_list_is_read_view_by_view_witness :
  TriangulateBearingsMidpoint acos_reference Vec3d_Zero MidpointSolve_spec
    [mkVec3d 0 0 0; mkVec3d 1 0 0] [ahead; ahead] []
    0x1p-3%float 0x1p-10%float
  = Returns ((false, Vec3d_Zero), []) /\
  TriangulateBearingsMidpoint acos_reference Vec3d_Zero MidpointSolve_spec
    crossing_centers crossing_bearings [(-1)%float]
    0x1p-3%float 0x1p-10%float
  = Returns ((false, Vec3d_Zero),
             [MidpointSolve_call crossing_centers crossing_bearings]) /\
  TriangulateBearingsMidpoint acos_reference Vec3d_Zero MidpointSolve_spec
    crossing_centers crossing_bearings [0x1p-7; 0x1p-7]%float
    0x1p-3%float 0x1p-10%float
  = Returns ((true, MidpointSolve_spec crossing_centers crossing_bearings),
             [MidpointSolve_call crossing_centers crossing_bearings]) /\
  TriangulateBearingsMidpoint acos_reference Vec3d_Zero MidpointSolve_spec
    crossing_centers crossing_bearings [0x1p-7%float]
    0x1p-3%float 0x1p-10%float
  = Undefined.
Proof.
  assert (has_parallax acos_reference crossing_bearings 0x1p-3%float)
    as Hpar.
  { exists 1, 0, (mkVec3d (-1) 0 0), (mkVec3d 0 0 1).
    split; [lia|]. split; [reflexivity|]. split; [reflexivity|].
    vm_compute. reflexivity. }
  split; [|split; [|split]].
  - apply (proj1 (threshold_list_is_read_view_by_view acos_reference
                    Vec3d_Zero MidpointSolve_spec
                    [mkVec3d 0 0 0; mkVec3d 1 0 0] [ahead; ahead] []
                    0x1p-3%float 0x1p-10%float eq_refl)).
    intros [|[|[|i]]] [|[|[|j]]] u v Hji Hu Hv; try lia; try discriminate.
    injection Hu as <-. injection Hv as <-. vm_compute. reflexivity.
  - apply (proj1 (proj2 (threshold_list_is_read_view_by_view acos_reference
                    Vec3d_Zero MidpointSolve_spec crossing_centers
                    crossing_bearings [(-1)%float]
                    0x1p-3%float 0x1p-10%float eq_refl))); [exact Hpar|].
    exists 0, (mkVec3d 0 0 0), (mkVec3d 0 0 1), (-1)%float.
    split; [reflexivity|]. split; [reflexivity|]. split; [reflexivity|].
    vm_compute. reflexivity.
  - apply (proj1 (proj2 (proj2 (threshold_list_is_read_view_by_view
                    acos_reference Vec3d_Zero MidpointSolve_spec
                    crossing_centers crossing_bearings
                    [0x1p-7; 0x1p-7]%float
                    0x1p-3%float 0x1p-10%float eq_refl))));
      [exact Hpar| |simpl; lia].
    intros [|[|i]] c b t Hc Hb Ht; try discriminate.
    + injection Hc as <-. injection Hb as <-. injection Ht as <-.
      split; vm_compute; reflexivity.
    + injection Hc as <-. injection Hb as <-. injection Ht as <-.
      split; vm_compute; reflexivity.
  - apply (proj2 (proj2 (proj2 (proj2 (threshold_list_is_read_view_by_view
                    acos_reference Vec3d_Zero MidpointSolve_spec
                    crossing_centers crossing_bearings [0x1p-7%float]
                    0x1p-3%float 0x1p-10%float eq_refl))))).
    split; [exact Hpar|]. split; [|simpl; lia].
    intros [|[|i]] c b t Hc Hb Ht; try discriminate.
    injection Hc as <-. injection Hb as <-. injection Ht as <-.
    split; vm_compute; reflexivity.
Defined.

(** C10 as stated fails: a call with fewer thresholds than views can return,
    and then it has not read an entry for every view.  Two parallel views
    and an empty [threshold_list]: the gate fails and no entry is read.
    Three views and one threshold, -1: the gate passes on the first two
    views, the first view is rejected (its angle is reported as 0, which
    exceeds -1) and the loop ends before [threshold_list[1]] would be read.
    Both hold whatever [acos] is. *)
Lemma call_with_fewer_thresholds_than_views_returns :
  length ([] : list double) < length [mkVec3d 0 0 0; mkVec3d 1 0 0] /\
  (fun (acos : double -> double) (Vec3d_default : Vec3d) =>
     TriangulateBearingsMidpoint acos Vec3d_default MidpointSolve_spec
       [mkVec3d 0 0 0; mkVec3d 1 0 0] [ahead; ahead] []
       0x1p-3%float 0x1p-10%float)
  = (fun _ Vec3d_default => Returns ((false, Vec3d_default), [])) /\
  length [(-1)%float] < length behind_centers /\
  (fun (acos : double -> double) (Vec3d_default : Vec3d) =>
     TriangulateBearingsMidpoint acos Vec3d_default MidpointSolve_spec
       behind_centers behind_bearings [(-1)%float] 0%float (-2)%float)
  = (fun _ Vec3d_default =>
       Returns ((false, Vec3d_default),
                [MidpointSolve_call behind_centers behind_bearings])).
Proof.
  split; [simpl; lia|]. split; [vm_compute; reflexivity|].
  split; [simpl; lia|]. vm_compute. reflexivity.
Qed.
